(** * ESP32-IoT-Projects: eFuse provisioning and the OTA decision loop

    A shallow embedding of

    - [ESP32S3_Custom_Efuse_Gen_Demo/main/main.c]
      ([crc16_ccitt_false], [efuse_is_provisioned],
      [efuse_program_custom_fields]), and
    - [ESP32C6_Secure_Boot_Https_Ota_Ref/main/ota_manager.c]
      ([in_maintenance_window], [read_battery_mv], the body of the
      [while (1)] loop of [ota_decision_task] and the helpers it calls),

    followed by the properties the specification states about them; then
    more of the same two programs, with properties read off the code:
    [efuse_read_custom_fields] and [app_main] of the eFuse demo;
    [parse_https_host], [network_ready_check], [https_ota_run] and the task
    loop of the OTA manager; [wifi_event_handler] and [wifi_station_start]
    of [wifi_station.c]; the start-up path of
    [ESP32C6_Secure_Boot_Https_Ota_Ref/main/main.c].  The definitions come
    first, the properties after them. *)

From Stdlib Require Import ZArith List Bool Lia String Ascii.
From coqutil Require Import Z.bitblast.
Import ListNotations.

Local Open Scope Z_scope.

(** ** Fixed-width C integers and [esp_err_t] *)

Module C.

(** Conversions to [uint8_t] and [uint16_t]: reduction modulo [2^w]. *)
Definition u8 (x : Z) : Z := x mod 2 ^ 8.
Definition u16 (x : Z) : Z := x mod 2 ^ 16.

(** [x != 0] on integers. *)
Definition nonzero (x : Z) : bool := negb (x =? 0).

Definition esp_err_t := Z.
Definition ESP_OK : esp_err_t := 0.
Definition ESP_FAIL : esp_err_t := -1.
Definition ESP_ERR_INVALID_ARG : esp_err_t := 0x102.
Definition ESP_ERR_INVALID_STATE : esp_err_t := 0x103.
Definition ESP_ERR_INVALID_SIZE : esp_err_t := 0x104.
Definition ESP_ERR_EFUSE_REPEATED_PROG : esp_err_t := 0x1603.

(** A C string as the bytes found at the pointer; the terminating NUL that
    follows them is implicit.  [strlen] stops at the first NUL, which may
    already occur inside the given bytes. *)
Definition byte_of_ascii (c : ascii) : Z := Z.of_N (N_of_ascii c).

Fixpoint strlen (s : string) : nat :=
  match s with
  | EmptyString => 0%nat
  | String c r => if byte_of_ascii c =? 0 then 0%nat else S (strlen r)
  end.

Definition bytes_of_string (s : string) : list Z :=
  map byte_of_ascii (list_ascii_of_string s).

End C.

(** ** Custom eFuse demo: [ESP32S3_Custom_Efuse_Gen_Demo/main/main.c] *)

Module Efuse.
Import C.

(** *** [crc16_ccitt_false] *)

(** One pass of the inner [for (int b = 0; b < 8; b++)] loop. *)
Definition crc16_shift (crc : Z) : Z :=
  if nonzero (Z.land crc 0x8000)
  then u16 (Z.lxor (Z.shiftl crc 1) 0x1021)
  else u16 (Z.shiftl crc 1).

(** One pass of the outer loop: [crc ^= (uint16_t)data[i] << 8] and eight
    shifts. *)
Definition crc16_byte (crc d : Z) : Z :=
  Nat.iter 8 crc16_shift (u16 (Z.lxor crc (Z.shiftl (u16 d) 8))).

Definition crc16_ccitt_false (data : list Z) : Z :=
  fold_left crc16_byte data 0xFFFF.

(** *** The eFuse driver the demo calls

    [esp_efuse_read_field_blob], [esp_efuse_write_field_blob] and the
    [esp_efuse_batch_write_*] functions belong to ESP-IDF, not to this
    repository.  They are modelled by the contract [main.c] relies on and
    documents in its comments:

    - a field is a row of bits that only ever go from 0 to 1;
    - [esp_efuse_read_field_blob] copies the burned bits of a field, least
      significant byte first;
    - [esp_efuse_batch_write_begin] opens a batch with nothing staged;
    - [esp_efuse_write_field_blob] refuses bits that are already burned
      ([ESP_ERR_EFUSE_REPEATED_PROG]); inside a batch it ORs the blob into
      the staged bits, outside a batch it burns them at once;
    - [esp_efuse_batch_write_commit] ORs the staged bits into the burned
      ones and closes the batch; [esp_efuse_batch_write_cancel] drops them;
    - each of read, begin, write and commit may fail: the driver state
      carries the results the next fallible calls will report ([faults],
      [ESP_OK] when exhausted), and a call that reports an error changes no
      bit;
    - every call is recorded in [oplog], with its result. *)

Inductive efuse_field : Type :=
| USER_DATA_SERIAL_NUMBER
| USER_DATA_HW_REV
| USER_DATA_FEATURE_FLAGS
| USER_DATA_PROVISIONING_CRC16.

(** Modelled from the spec: [main/esp_efuse_custom_table.csv], from which
    the build generates the field table, is not among the sources; the
    widths are those of the specification's payload layout (16, 2, 4 and 2
    bytes), which the comment above [efuse_read_custom_fields] repeats in
    bits. *)
Definition field_bits (f : efuse_field) : Z :=
  match f with
  | USER_DATA_SERIAL_NUMBER => 128
  | USER_DATA_HW_REV => 16
  | USER_DATA_FEATURE_FLAGS => 32
  | USER_DATA_PROVISIONING_CRC16 => 16
  end.

Record efuse_bits : Type := mk_bits {
  serial_number : Z;
  hw_rev : Z;
  feature_flags : Z;
  provisioning_crc16 : Z
}.

Definition no_bits : efuse_bits := mk_bits 0 0 0 0.

Definition get_field (f : efuse_field) (b : efuse_bits) : Z :=
  match f with
  | USER_DATA_SERIAL_NUMBER => serial_number b
  | USER_DATA_HW_REV => hw_rev b
  | USER_DATA_FEATURE_FLAGS => feature_flags b
  | USER_DATA_PROVISIONING_CRC16 => provisioning_crc16 b
  end.

Definition or_field (f : efuse_field) (v : Z) (b : efuse_bits) : efuse_bits :=
  match f with
  | USER_DATA_SERIAL_NUMBER =>
      mk_bits (Z.lor (serial_number b) v) (hw_rev b) (feature_flags b)
              (provisioning_crc16 b)
  | USER_DATA_HW_REV =>
      mk_bits (serial_number b) (Z.lor (hw_rev b) v) (feature_flags b)
              (provisioning_crc16 b)
  | USER_DATA_FEATURE_FLAGS =>
      mk_bits (serial_number b) (hw_rev b) (Z.lor (feature_flags b) v)
              (provisioning_crc16 b)
  | USER_DATA_PROVISIONING_CRC16 =>
      mk_bits (serial_number b) (hw_rev b) (feature_flags b)
              (Z.lor (provisioning_crc16 b) v)
  end.

Definition or_bits (a b : efuse_bits) : efuse_bits :=
  mk_bits (Z.lor (serial_number a) (serial_number b))
          (Z.lor (hw_rev a) (hw_rev b))
          (Z.lor (feature_flags a) (feature_flags b))
          (Z.lor (provisioning_crc16 a) (provisioning_crc16 b)).

(** A call of the driver, with the result it reported. *)
Inductive efuse_op : Type :=
| OpRead (f : efuse_field) (res : esp_err_t)
| OpBatchBegin (res : esp_err_t)
| OpWrite (f : efuse_field) (data : list Z) (res : esp_err_t)
| OpBatchCancel (res : esp_err_t)
| OpBatchCommit (res : esp_err_t).

Record efuse_hw : Type := mk_hw {
  burned : efuse_bits;
  staged : efuse_bits;
  in_batch : bool;
  faults : list esp_err_t;
  oplog : list efuse_op
}.

(** Byte [i] of a row of bits, and a blob as the bits it stands for. *)
Definition byte_at (v : Z) (i : nat) : Z :=
  Z.land (Z.shiftr v (8 * Z.of_nat i)) 0xFF.

Definition blob_of (n : nat) (v : Z) : list Z := map (byte_at v) (seq 0 n).

Fixpoint le_val (l : list Z) : Z :=
  match l with
  | [] => 0
  | b :: r => Z.lor (u8 b) (Z.shiftl (le_val r) 8)
  end.

(** A state-passing monad over the driver state. *)
Definition M (A : Type) : Type := efuse_hw -> A * efuse_hw.

Definition ret {A} (a : A) : M A := fun hw => (a, hw).

Definition bind {A B} (m : M A) (k : A -> M B) : M B :=
  fun hw => let (a, hw') := m hw in k a hw'.

Notation "x <- m ;; k" := (bind m (fun x => k))
  (at level 61, m at next level, right associativity).
Notation "m ;;; k" := (bind m (fun _ => k))
  (at level 61, right associativity).

Definition record_op (op : efuse_op) : M unit :=
  fun hw => (tt, mk_hw (burned hw) (staged hw) (in_batch hw) (faults hw)
                       (oplog hw ++ [op])).

(** The result the next fallible call reports: the head of [faults],
    [ESP_OK] once the list is used up. *)
Definition next_result : M esp_err_t :=
  fun hw =>
    (hd ESP_OK (faults hw),
     mk_hw (burned hw) (staged hw) (in_batch hw) (tl (faults hw)) (oplog hw)).

Definition esp_efuse_read_field_blob (f : efuse_field) (dst_size_bits : Z)
  : M (esp_err_t * list Z) :=
  let n := Z.to_nat (dst_size_bits / 8) in
  e <- next_result ;;
  if nonzero e
  then record_op (OpRead f e) ;;; ret (e, repeat 0 n)
  else if field_bits f <? dst_size_bits
  then record_op (OpRead f ESP_ERR_INVALID_ARG) ;;;
       ret (ESP_ERR_INVALID_ARG, repeat 0 n)
  else record_op (OpRead f ESP_OK) ;;;
       fun hw => ((ESP_OK, blob_of n (get_field f (burned hw))), hw).

Definition esp_efuse_batch_write_begin : M esp_err_t :=
  e <- next_result ;;
  if nonzero e then record_op (OpBatchBegin e) ;;; ret e
  else record_op (OpBatchBegin ESP_OK) ;;;
       fun hw =>
         (ESP_OK, mk_hw (burned hw) no_bits true (faults hw) (oplog hw)).

Definition esp_efuse_write_field_blob (f : efuse_field) (src : list Z)
  (src_size_bits : Z) : M esp_err_t :=
  e <- next_result ;;
  if nonzero e then record_op (OpWrite f src e) ;;; ret e
  else if field_bits f <? src_size_bits
  then record_op (OpWrite f src ESP_ERR_INVALID_ARG) ;;;
       ret ESP_ERR_INVALID_ARG
  else fun hw =>
    let v := le_val (firstn (Z.to_nat (src_size_bits / 8)) src) in
    if nonzero (Z.land (get_field f (burned hw)) v)
    then (record_op (OpWrite f src ESP_ERR_EFUSE_REPEATED_PROG) ;;;
          ret ESP_ERR_EFUSE_REPEATED_PROG) hw
    else if in_batch hw
    then (ESP_OK, mk_hw (burned hw) (or_field f v (staged hw)) true
                        (faults hw) (oplog hw ++ [OpWrite f src ESP_OK]))
    else (ESP_OK, mk_hw (or_field f v (burned hw)) (staged hw) false
                        (faults hw) (oplog hw ++ [OpWrite f src ESP_OK])).

Definition esp_efuse_batch_write_cancel : M esp_err_t :=
  fun hw =>
    if in_batch hw
    then (ESP_OK, mk_hw (burned hw) no_bits false (faults hw)
                        (oplog hw ++ [OpBatchCancel ESP_OK]))
    else (record_op (OpBatchCancel ESP_ERR_INVALID_STATE) ;;;
          ret ESP_ERR_INVALID_STATE) hw.

Definition esp_efuse_batch_write_commit : M esp_err_t :=
  fun hw =>
    if in_batch hw
    then
      let (e, hw') := next_result hw in
      if nonzero e
      then (e, mk_hw (burned hw') no_bits false (faults hw')
                     (oplog hw' ++ [OpBatchCommit e]))
      else (ESP_OK, mk_hw (or_bits (burned hw') (staged hw')) no_bits false
                          (faults hw') (oplog hw' ++ [OpBatchCommit ESP_OK]))
    else (record_op (OpBatchCommit ESP_ERR_INVALID_STATE) ;;;
          ret ESP_ERR_INVALID_STATE) hw.

(** *** The payload *)

(** [payload[16..21]]: [hw_rev] and [flags], least significant byte
    first. *)
Definition payload_tail (hw_rev flags : Z) : list Z :=
  [ u8 (Z.land hw_rev 0xFF);
    u8 (Z.land (Z.shiftr hw_rev 8) 0xFF);
    u8 (Z.land flags 0xFF);
    u8 (Z.land (Z.shiftr flags 8) 0xFF);
    u8 (Z.land (Z.shiftr flags 16) 0xFF);
    u8 (Z.land (Z.shiftr flags 24) 0xFF) ].

(** Reading a blob into a [uint16_t] or [uint32_t] variable on the
    little-endian target. *)
Definition as_uint (blob : list Z) : Z := le_val blob.

(** *** [efuse_is_provisioned]

    The result is the pair of the returned [bool] and of the value left in
    [*out_is_ok_crc] (the caller in this file always passes a pointer). *)
Definition efuse_is_provisioned : M (bool * bool) :=
  r1 <- esp_efuse_read_field_blob USER_DATA_SERIAL_NUMBER (16 * 8) ;;
  if nonzero (fst r1) then ret (false, false) else
  r2 <- esp_efuse_read_field_blob USER_DATA_HW_REV (2 * 8) ;;
  if nonzero (fst r2) then ret (false, false) else
  r3 <- esp_efuse_read_field_blob USER_DATA_FEATURE_FLAGS (4 * 8) ;;
  if nonzero (fst r3) then ret (false, false) else
  r4 <- esp_efuse_read_field_blob USER_DATA_PROVISIONING_CRC16 (2 * 8) ;;
  if nonzero (fst r4) then ret (false, false) else
  let serial_raw := snd r1 in
  let hw_rev := as_uint (snd r2) in
  let flags := as_uint (snd r3) in
  let crc16_stored := as_uint (snd r4) in
  let payload := serial_raw ++ payload_tail hw_rev flags in
  let crc16_calc := crc16_ccitt_false payload in
  let ok := nonzero crc16_stored && (crc16_stored =? crc16_calc) in
  ret (ok, ok).

(** *** [efuse_program_custom_fields] *)

Definition EFUSE_CONFLICT_EXISTS (cur_b desired_b : Z) : bool :=
  nonzero (Z.land cur_b (u8 (Z.lnot desired_b))).

(** [desired_payload]: zero-initialised, the first [min (strlen serial) 16]
    bytes of the serial copied in, then [hw_rev] and [flags]. *)
Definition desired_payload (serial_ascii : string) (hw_rev flags : Z)
  : list Z :=
  let n := strlen serial_ascii in
  let n := if (16 <? n)%nat then 16%nat else n in
  firstn n (bytes_of_string serial_ascii) ++ repeat 0 (16 - n)%nat
    ++ payload_tail hw_rev flags.

Definition le_bytes2 (v : Z) : list Z :=
  [ u8 (Z.land v 0xFF); u8 (Z.land (Z.shiftr v 8) 0xFF) ].

Definition le_bytes4 (v : Z) : list Z :=
  [ u8 (Z.land v 0xFF); u8 (Z.land (Z.shiftr v 8) 0xFF);
    u8 (Z.land (Z.shiftr v 16) 0xFF); u8 (Z.land (Z.shiftr v 24) 0xFF) ].

(** The four conflict loops: [cur[i]] against [desired[off + i]] for
    [i < n]. *)
Definition conflict_loop (n : nat) (cur desired : list Z) (off : nat) : bool :=
  existsb
    (fun i => EFUSE_CONFLICT_EXISTS (nth i cur 0) (nth (off + i) desired 0))
    (seq 0 n).

(** The four delta loops: the delta buffer, and the [need_*] flag they
    accumulate with [|=]. *)
Definition delta_loop (n : nat) (cur desired : list Z) (off : nat) : list Z :=
  map (fun i =>
         u8 (Z.land (nth (off + i) desired 0) (u8 (Z.lnot (nth i cur 0)))))
      (seq 0 n).

Definition need_loop (delta : list Z) : bool :=
  fold_left (fun need d => need || nonzero d) delta false.

(** [if (need) { err = write(...);
                 if (err != ESP_OK) { cancel; return err; } }] *)
Definition stage (need : bool) (f : efuse_field) (delta : list Z)
  (size_bits : Z) (k : M esp_err_t) : M esp_err_t :=
  if need then
    err <- esp_efuse_write_field_blob f delta size_bits ;;
    if nonzero err then esp_efuse_batch_write_cancel ;;; ret err else k
  else k.

(** The variables [cur_serial], [cur_hw_rev], [cur_flags], [cur_crc16]. *)
Record cur_fields : Type := mk_cur {
  cur_serial : list Z;
  cur_hw_rev : Z;
  cur_flags : Z;
  cur_crc16 : Z
}.

(** "Read current values": the four reads, each followed by
    [if (err != ESP_OK) return err]. *)
Definition read_current_fields : M (esp_err_t * cur_fields) :=
  let unread := mk_cur (repeat 0 16%nat) 0 0 0 in
  r1 <- esp_efuse_read_field_blob USER_DATA_SERIAL_NUMBER (16 * 8) ;;
  if nonzero (fst r1) then ret (fst r1, unread) else
  r2 <- esp_efuse_read_field_blob USER_DATA_HW_REV (2 * 8) ;;
  if nonzero (fst r2) then ret (fst r2, unread) else
  r3 <- esp_efuse_read_field_blob USER_DATA_FEATURE_FLAGS (4 * 8) ;;
  if nonzero (fst r3) then ret (fst r3, unread) else
  r4 <- esp_efuse_read_field_blob USER_DATA_PROVISIONING_CRC16 (2 * 8) ;;
  if nonzero (fst r4) then ret (fst r4, unread) else
  ret (ESP_OK,
       mk_cur (snd r1) (as_uint (snd r2)) (as_uint (snd r3))
              (as_uint (snd r4))).

(** "Begin batch write mode", "Stage only the deltas", "Burn staged
    bits". *)
Definition stage_and_commit (need_serial need_hw need_flags need_crc : bool)
  (serial_delta hw_delta flags_delta crc_delta : list Z) : M esp_err_t :=
  err <- esp_efuse_batch_write_begin ;;
  if nonzero err then ret err else
  stage need_serial USER_DATA_SERIAL_NUMBER serial_delta (16 * 8) (
  stage need_hw USER_DATA_HW_REV hw_delta (2 * 8) (
  stage need_flags USER_DATA_FEATURE_FLAGS flags_delta (4 * 8) (
  stage need_crc USER_DATA_PROVISIONING_CRC16 crc_delta (2 * 8) (
  err <- esp_efuse_batch_write_commit ;;
  if nonzero err then ret err else ret ESP_OK)))).

(** [serial_ascii] is [None] for a NULL pointer. *)
Definition efuse_program_custom_fields (serial_ascii : option string)
  (hw_rev flags : Z) : M esp_err_t :=
  match serial_ascii with
  | None => ret ESP_ERR_INVALID_ARG
  | Some serial_ascii =>
    p <- efuse_is_provisioned ;;
    if fst p && snd p then ret ESP_OK else
    let desired_payload := desired_payload serial_ascii hw_rev flags in
    let desired_crc16 := crc16_ccitt_false desired_payload in
    let desired_crc_le := le_bytes2 desired_crc16 in
    rc <- read_current_fields ;;
    if nonzero (fst rc) then ret (fst rc) else
    let cur_serial := cur_serial (snd rc) in
    let cur_hw_le := le_bytes2 (cur_hw_rev (snd rc)) in
    let cur_flags_le := le_bytes4 (cur_flags (snd rc)) in
    let cur_crc_le := le_bytes2 (cur_crc16 (snd rc)) in
    if conflict_loop 16 cur_serial desired_payload 0
    then ret ESP_ERR_INVALID_STATE else
    if conflict_loop 2 cur_hw_le desired_payload 16
    then ret ESP_ERR_INVALID_STATE else
    if conflict_loop 4 cur_flags_le desired_payload 18
    then ret ESP_ERR_INVALID_STATE else
    if conflict_loop 2 cur_crc_le desired_crc_le 0
    then ret ESP_ERR_INVALID_STATE else
    let serial_delta := delta_loop 16 cur_serial desired_payload 0 in
    let hw_delta := delta_loop 2 cur_hw_le desired_payload 16 in
    let flags_delta := delta_loop 4 cur_flags_le desired_payload 18 in
    let crc_delta := delta_loop 2 cur_crc_le desired_crc_le 0 in
    let need_serial := need_loop serial_delta in
    let need_hw := need_loop hw_delta in
    let need_flags := need_loop flags_delta in
    let need_crc := need_loop crc_delta in
    if negb need_serial && negb need_hw && negb need_flags && negb need_crc
    then ret ESP_OK else
    stage_and_commit need_serial need_hw need_flags need_crc
                     serial_delta hw_delta flags_delta crc_delta
  end.

(** The example values of [app_main]. *)
Definition demo_serial : string := "SN-ESP32S3-0001".
Definition demo_hw_rev : Z := 0x0001.
Definition demo_flags : Z := 0x0000000F.

(** A blank device: nothing burned, no batch open, no failure pending. *)
Definition blank : efuse_hw := mk_hw no_bits no_bits false [] [].

End Efuse.

(** ** The specification's vocabulary for the eFuse store *)

Module EfuseSpec.
Import C Efuse.

(** The parametric CRC model the catalogue names refer to: a [width]-bit
    register, message bits fed one at a time, most significant bit of a
    byte first unless [refin], the register reflected at the end if
    [refout], and a final XOR. *)
Definition msb_first (d : Z) : list bool :=
  map (fun k => Z.testbit d (7 - Z.of_nat k)) (seq 0 8).

Definition crc_feed (width poly reg : Z) (b : bool) : Z :=
  let top := xorb (Z.testbit reg (width - 1)) b in
  let reg' := (2 * reg) mod 2 ^ width in
  if top then Z.lxor reg' poly else reg'.

Definition reflect (width : nat) (v : Z) : Z :=
  fold_right
    (fun k acc =>
       if Z.testbit v (Z.of_nat k)
       then Z.lor acc (2 ^ (Z.of_nat width - 1 - Z.of_nat k)) else acc)
    0 (seq 0 width).

Definition crc_model (width : nat) (poly init : Z) (refin refout : bool)
  (xorout : Z) (data : list Z) : Z :=
  let bits :=
    flat_map (fun d => if refin then rev (msb_first d) else msb_first d) data in
  let reg := fold_left (crc_feed (Z.of_nat width) poly) bits init in
  Z.lxor (if refout then reflect width reg else reg) xorout.

(** CRC-16/CCITT-FALSE: poly 0x1021, init 0xFFFF, no reflection,
    xorout 0. *)
Definition crc16_ccitt_false_model : list Z -> Z :=
  crc_model 16 0x1021 0xFFFF false false 0.

(** A value as [n] bytes, least significant first. *)
Definition little_endian (n : nat) (v : Z) : list Z :=
  map (fun i => (v / 256 ^ Z.of_nat i) mod 256) (seq 0 n).

(** The 22-byte payload: serial at 0..15, [hw_rev] at 16..17, flags at
    18..21. *)
Definition stored_payload (b : efuse_bits) : list Z :=
  little_endian 16 (serial_number b) ++ little_endian 2 (hw_rev b)
    ++ little_endian 4 (feature_flags b).

(** The stored 16-bit CRC. *)
Definition stored_crc (b : efuse_bits) : Z := provisioning_crc16 b mod 2 ^ 16.

(** No bit of [old] is cleared in [new]. *)
Definition no_bit_cleared (old new : Z) : Prop := Z.land old (Z.lnot new) = 0.

(** The operations that write: batch begin, field write, commit. *)
Definition is_write_op (op : efuse_op) : bool :=
  match op with
  | OpRead _ _ => false
  | OpBatchBegin _ | OpWrite _ _ _ | OpBatchCommit _ => true
  | OpBatchCancel _ => false
  end.

(** The operations a call added to the log. *)
Definition ops_between (before after : efuse_hw) : list efuse_op :=
  skipn (List.length (oplog before)) (oplog after).

Definition is_read_op (op : efuse_op) : bool :=
  match op with
  | OpRead _ _ => true
  | _ => false
  end.

(** The fields in the order the code handles them, and their sizes in
    bytes. *)
Definition all_fields : list efuse_field :=
  [ USER_DATA_SERIAL_NUMBER; USER_DATA_HW_REV; USER_DATA_FEATURE_FLAGS;
    USER_DATA_PROVISIONING_CRC16 ].

Definition field_bytes (f : efuse_field) : nat :=
  match f with
  | USER_DATA_SERIAL_NUMBER => 16
  | USER_DATA_HW_REV => 2
  | USER_DATA_FEATURE_FLAGS => 4
  | USER_DATA_PROVISIONING_CRC16 => 2
  end.

(** Byte [i] of field [f]: as burned, and as [efuse_program_custom_fields]
    wants it (the bytes of [desired_payload], and of its CRC). *)
Definition current_byte (b : efuse_bits) (f : efuse_field) (i : nat) : Z :=
  byte_at (get_field f b) i.

Definition desired_bytes (serial : string) (hw_rev flags : Z)
  (f : efuse_field) : list Z :=
  let payload := desired_payload serial hw_rev flags in
  match f with
  | USER_DATA_SERIAL_NUMBER => firstn 16 payload
  | USER_DATA_HW_REV => firstn 2 (skipn 16 payload)
  | USER_DATA_FEATURE_FLAGS => firstn 4 (skipn 18 payload)
  | USER_DATA_PROVISIONING_CRC16 =>
      little_endian 2 (crc16_ccitt_false payload)
  end.

Definition desired_byte (serial : string) (hw_rev flags : Z)
  (f : efuse_field) (i : nat) : Z :=
  nth i (desired_bytes serial hw_rev flags f) 0.

(** [conflict = current_bits & ~desired_bits] and
    [delta = desired_bits & ~current_bits], byte by byte. *)
Definition conflict_byte (b : efuse_bits) (serial : string)
  (hw_rev flags : Z) (f : efuse_field) (i : nat) : Z :=
  Z.ldiff (current_byte b f i) (desired_byte serial hw_rev flags f i).

Definition field_delta (b : efuse_bits) (serial : string) (hw_rev flags : Z)
  (f : efuse_field) : list Z :=
  map (fun i => Z.ldiff (desired_byte serial hw_rev flags f i)
                        (current_byte b f i))
      (seq 0 (field_bytes f)).

Definition all_zero (l : list Z) : bool := forallb (Z.eqb 0) l.

(** What the four reads put into the local variables when they succeed,
    and the test [efuse_is_provisioned] then makes. *)
Definition read_view (b : efuse_bits) : cur_fields :=
  mk_cur (blob_of 16 (serial_number b))
         (as_uint (blob_of 2 (hw_rev b)))
         (as_uint (blob_of 4 (feature_flags b)))
         (as_uint (blob_of 2 (provisioning_crc16 b))).

Definition crc_matches (c : cur_fields) : bool :=
  nonzero (cur_crc16 c)
  && (cur_crc16 c
      =? crc16_ccitt_false
           (cur_serial c ++ payload_tail (cur_hw_rev c) (cur_flags c))).

(** The driver state with more operations logged. *)
Definition logged (ops : list efuse_op) (hw : efuse_hw) : efuse_hw :=
  mk_hw (burned hw) (staged hw) (in_batch hw) (faults hw) (oplog hw ++ ops).

Definition reads_ok : list efuse_op :=
  map (fun f => OpRead f ESP_OK) all_fields.

Definition is_commit_op (op : efuse_op) : bool :=
  match op with
  | OpBatchCommit _ => true
  | _ => false
  end.

(** [new] is the driver state some calls of [efuse_program_custom_fields]
    after [old]. *)
Inductive later (old : efuse_hw) : efuse_hw -> Prop :=
| later_now : later old old
| later_call hw serial hw_rev flags :
    later old hw ->
    later old (snd (efuse_program_custom_fields serial hw_rev flags hw)).

(** No byte of any field is in conflict. *)
Definition no_conflict (b : efuse_bits) (serial : string) (hw_rev flags : Z)
  : bool :=
  forallb
    (fun f => forallb (fun i => conflict_byte b serial hw_rev flags f i =? 0)
                      (seq 0 (field_bytes f)))
    all_fields.

(** *** The outcomes of a run, whatever the driver reports *)

(** Only reads happened between [hw] and [hw']. *)
Record quiet (hw hw' : efuse_hw) (ops : list efuse_op) : Prop := mk_quiet {
  quiet_burned : burned hw' = burned hw;
  quiet_staged : staged hw' = staged hw;
  quiet_batch : in_batch hw' = in_batch hw;
  quiet_faults : faults hw = [] -> faults hw' = [];
  quiet_log : oplog hw' = oplog hw ++ ops;
  quiet_reads : forallb is_read_op ops = true
}.

(** One [if (need_x) { write ... }] block of the batch. *)
Record work_item : Type := mk_item {
  w_need : bool;
  w_field : efuse_field;
  w_delta : list Z;
  w_bits : Z
}.

Fixpoint stage_all (items : list work_item) (k : M esp_err_t) : M esp_err_t :=
  match items with
  | [] => k
  | it :: rest =>
      stage (w_need it) (w_field it) (w_delta it) (w_bits it) (stage_all rest k)
  end.

Definition needed (items : list work_item) : list work_item :=
  filter w_need items.

Definition item_value (it : work_item) : Z :=
  le_val (firstn (Z.to_nat (w_bits it / 8)) (w_delta it)).

Definition stage_value (items : list work_item) (st : efuse_bits)
  : efuse_bits :=
  fold_left (fun st it => or_field (w_field it) (item_value it) st)
            (needed items) st.

Definition ok_writes (items : list work_item) : list efuse_op :=
  map (fun it => OpWrite (w_field it) (w_delta it) ESP_OK) (needed items).

(** The four ways [stage_and_commit] ends. *)
Inductive batch_result (items : list work_item) (hw : efuse_hw)
  : esp_err_t -> efuse_hw -> Prop :=
| batch_begin_failed e hw' :
    nonzero e = true ->
    faults hw <> [] ->
    burned hw' = burned hw ->
    oplog hw' = oplog hw ++ [OpBatchBegin e] ->
    batch_result items hw e hw'
| batch_write_failed pre it post e hw' :
    items = pre ++ it :: post ->
    w_need it = true ->
    nonzero e = true ->
    faults hw <> []
    \/ nonzero (Z.land (get_field (w_field it) (burned hw)) (item_value it))
       = true ->
    burned hw' = burned hw ->
    staged hw' = no_bits ->
    in_batch hw' = false ->
    oplog hw' = oplog hw ++ OpBatchBegin ESP_OK :: ok_writes pre
                  ++ [OpWrite (w_field it) (w_delta it) e;
                      OpBatchCancel ESP_OK] ->
    batch_result items hw e hw'
| batch_commit_failed e hw' :
    nonzero e = true ->
    faults hw <> [] ->
    burned hw' = burned hw ->
    oplog hw' = oplog hw ++ OpBatchBegin ESP_OK :: ok_writes items
                  ++ [OpBatchCommit e] ->
    batch_result items hw e hw'
| batch_committed hw' :
    burned hw' = or_bits (burned hw) (stage_value items no_bits) ->
    oplog hw' = oplog hw ++ OpBatchBegin ESP_OK :: ok_writes items
                  ++ [OpBatchCommit ESP_OK] ->
    batch_result items hw ESP_OK hw'.

(** The local variables of [efuse_program_custom_fields] once the current
    values are read. *)
Section Locals.
Variables (serial : string) (hw_rev flags : Z) (c : cur_fields).

Definition l_desired : list Z := desired_payload serial hw_rev flags.
Definition l_desired_crc_le : list Z :=
  le_bytes2 (crc16_ccitt_false l_desired).

Definition l_conflict : bool :=
  conflict_loop 16 (cur_serial c) l_desired 0
  || conflict_loop 2 (le_bytes2 (cur_hw_rev c)) l_desired 16
  || conflict_loop 4 (le_bytes4 (cur_flags c)) l_desired 18
  || conflict_loop 2 (le_bytes2 (cur_crc16 c)) l_desired_crc_le 0.

Definition l_items : list work_item :=
  let serial_delta := delta_loop 16 (cur_serial c) l_desired 0 in
  let hw_delta := delta_loop 2 (le_bytes2 (cur_hw_rev c)) l_desired 16 in
  let flags_delta := delta_loop 4 (le_bytes4 (cur_flags c)) l_desired 18 in
  let crc_delta :=
    delta_loop 2 (le_bytes2 (cur_crc16 c)) l_desired_crc_le 0 in
  [ mk_item (need_loop serial_delta) USER_DATA_SERIAL_NUMBER serial_delta
            (16 * 8);
    mk_item (need_loop hw_delta) USER_DATA_HW_REV hw_delta (2 * 8);
    mk_item (need_loop flags_delta) USER_DATA_FEATURE_FLAGS flags_delta
            (4 * 8);
    mk_item (need_loop crc_delta) USER_DATA_PROVISIONING_CRC16 crc_delta
            (2 * 8) ].
End Locals.

(** The five ways [efuse_program_custom_fields] ends when [serial_ascii]
    is not NULL. *)
Inductive program_result (serial : string) (hw_rev flags : Z) (hw : efuse_hw)
  : esp_err_t -> efuse_hw -> Prop :=
| program_skipped hw' ops :
    quiet hw hw' ops ->
    crc_matches (read_view (burned hw)) = true ->
    program_result serial hw_rev flags hw ESP_OK hw'
| program_read_failed e hw' ops :
    quiet hw hw' ops ->
    nonzero e = true ->
    faults hw <> [] ->
    program_result serial hw_rev flags hw e hw'
| program_conflict hw' ops :
    quiet hw hw' ops ->
    (faults hw = [] -> crc_matches (read_view (burned hw)) = false) ->
    l_conflict serial hw_rev flags (read_view (burned hw)) = true ->
    program_result serial hw_rev flags hw ESP_ERR_INVALID_STATE hw'
| program_nothing_new hw' ops :
    quiet hw hw' ops ->
    (faults hw = [] -> crc_matches (read_view (burned hw)) = false) ->
    l_conflict serial hw_rev flags (read_view (burned hw)) = false ->
    needed (l_items serial hw_rev flags (read_view (burned hw))) = [] ->
    program_result serial hw_rev flags hw ESP_OK hw'
| program_batch hw1 ops e hw' :
    quiet hw hw1 ops ->
    (faults hw = [] -> crc_matches (read_view (burned hw)) = false) ->
    l_conflict serial hw_rev flags (read_view (burned hw)) = false ->
    needed (l_items serial hw_rev flags (read_view (burned hw))) <> [] ->
    batch_result (l_items serial hw_rev flags (read_view (burned hw)))
                 hw1 e hw' ->
    program_result serial hw_rev flags hw e hw'.

(** *** Views used in the proofs *)

(** Every write asks for no more bits than its field has. *)
Definition sizes_ok (items : list work_item) : Prop :=
  Forall (fun it => (field_bits (w_field it) <? w_bits it) = false) items.

(** The work items of [stage_and_commit]. *)
Definition batch_items (ns nh nf nc : bool) (ds dh df dc : list Z)
  : list work_item :=
  [ mk_item ns USER_DATA_SERIAL_NUMBER ds (16 * 8);
    mk_item nh USER_DATA_HW_REV dh (2 * 8);
    mk_item nf USER_DATA_FEATURE_FLAGS df (4 * 8);
    mk_item nc USER_DATA_PROVISIONING_CRC16 dc (2 * 8) ].

(** The array the code compares field [f] with, and where the field
    starts in it. *)
Definition cur_list (f : efuse_field) (c : cur_fields) : list Z :=
  match f with
  | USER_DATA_SERIAL_NUMBER => cur_serial c
  | USER_DATA_HW_REV => le_bytes2 (cur_hw_rev c)
  | USER_DATA_FEATURE_FLAGS => le_bytes4 (cur_flags c)
  | USER_DATA_PROVISIONING_CRC16 => le_bytes2 (cur_crc16 c)
  end.

Definition desired_list (s : string) (h fl : Z) (f : efuse_field) : list Z :=
  match f with
  | USER_DATA_PROVISIONING_CRC16 =>
      le_bytes2 (crc16_ccitt_false (desired_payload s h fl))
  | _ => desired_payload s h fl
  end.

Definition desired_off (f : efuse_field) : nat :=
  match f with
  | USER_DATA_SERIAL_NUMBER => 0
  | USER_DATA_HW_REV => 16
  | USER_DATA_FEATURE_FLAGS => 18
  | USER_DATA_PROVISIONING_CRC16 => 0
  end.

(** Is some byte of field [f] in conflict? *)
Definition field_conflict (b : efuse_bits) (s : string) (h fl : Z)
  (f : efuse_field) : bool :=
  existsb (fun i => nonzero (conflict_byte b s h fl f i))
          (seq 0 (field_bytes f)).

(** The work item of field [f], from its delta. *)
Definition spec_item (b : efuse_bits) (s : string) (h fl : Z)
  (f : efuse_field) : work_item :=
  mk_item (negb (all_zero (field_delta b s h fl f))) f
          (field_delta b s h fl f) (8 * Z.of_nat (field_bytes f)).

(** Every byte of every field already holds its desired value. *)
Definition settled (b : efuse_bits) (s : string) (h fl : Z) : Prop :=
  forall f i, (i < field_bytes f)%nat ->
              current_byte b f i = desired_byte s h fl f i.

(** A write the driver refused, and a log without any. *)
Definition failed_write (op : efuse_op) : bool :=
  match op with
  | OpWrite _ _ e => nonzero e
  | _ => false
  end.

Definition all_fine (ops : list efuse_op) : bool :=
  forallb (fun op => negb (failed_write op)) ops.

End EfuseSpec.

(** ** OTA manager: [ESP32C6_Secure_Boot_Https_Ota_Ref/main/ota_manager.c] *)

Module Ota.
Import C.

(** The build-time configuration.  [app_cfg.h] and the embedded root
    certificate are not among the sources, so the macros the code uses are
    taken as parameters ([server_root_cert_pem_len] is
    [server_root_cert_pem_end - server_root_cert_pem_start]). *)
Record app_cfg : Type := mk_cfg {
  APP_OTA_BUTTON_GPIO : Z;
  APP_OTA_TRIGGER_URL : string;
  APP_OTA_FIRMWARE_URL : string;
  APP_OTA_POLL_PERIOD_MS : Z;
  APP_OTA_ALLOW_NO_TIME : Z;
  APP_OTA_MAINT_START_HOUR : Z;
  APP_OTA_MAINT_END_HOUR : Z;
  APP_BATT_FAKE_MV : Z;
  APP_BATT_MIN_MV : Z;
  server_root_cert_pem_len : Z
}.

(** The fields of [struct tm] the code reads. *)
Record tm : Type := mk_tm { tm_year : Z; tm_hour : Z }.

(** Calls into ESP-IDF, FreeRTOS, lwIP and libc, indexed by the type of
    what they hand back.  [vTaskDelay ms] is
    [vTaskDelay(pdMS_TO_TICKS(ms))]; [localtime_now] is [time(&now)]
    followed by [localtime_r(&now, &t)]; [esp_http_client_init] answers
    whether the handle is non-NULL; [esp_http_client_read] answers the
    return value and [buf[0]]; [getaddrinfo] answers the error code and
    whether [res] is non-NULL. *)
Inductive call : Type -> Type :=
| esp_sntp_enabled : call bool
| esp_netif_sntp_init (server : string) : call unit
| gpio_config (pin_bit_mask : Z) : call unit
| gpio_get_level (gpio_num : Z) : call Z
| vTaskDelay (ms : Z) : call unit
| localtime_now : call tm
| esp_http_client_init (url : string) (timeout_ms : Z) : call bool
| esp_http_client_open (write_len : Z) : call esp_err_t
| esp_http_client_read (len : Z) : call (Z * Z)
| esp_http_client_close : call unit
| esp_http_client_cleanup : call unit
| getaddrinfo (host service : string) : call (Z * bool)
| socket : call Z
| connect : call Z
| close : call unit
| freeaddrinfo : call unit
| esp_https_ota (url : string) (timeout_ms : Z) (keep_alive : bool)
    : call esp_err_t.

(** The functions of [ota_manager.c], for counting their invocations. *)
Inductive fn : Type :=
| fn_parse_https_host
| fn_is_time_set
| fn_sntp_start_once
| fn_in_maintenance_window
| fn_read_battery_mv
| fn_ota_button_pressed
| fn_cloud_trigger_requested
| fn_network_ready_check
| fn_https_ota_run.

(** Programs: a tree of external calls.  [Enter f] marks the entry into
    function [f]; [Restart] is [esp_restart()], which does not return. *)
Inductive prog (R : Type) : Type :=
| Ret (r : R)
| Do {X : Type} (c : call X) (k : X -> prog R)
| Enter (f : fn) (k : prog R)
| Restart.

Arguments Ret {R} r.
Arguments Do {R X} c k.
Arguments Enter {R} f k.
Arguments Restart {R}.

Fixpoint pbind {A B} (p : prog A) (k : A -> prog B) : prog B :=
  match p with
  | Ret r => k r
  | Do c k' => Do c (fun x => pbind (k' x) k)
  | Enter f p' => Enter f (pbind p' k)
  | Restart => Restart
  end.

Definition perform {X} (c : call X) : prog X := Do c Ret.

Notation "x <- m ;; k" := (pbind m (fun x => k))
  (at level 61, m at next level, right associativity).
Notation "m ;;; k" := (pbind m (fun _ => k))
  (at level 61, right associativity).

(** What an observer of one run sees. *)
Inductive event : Type :=
| Called {X : Type} (c : call X)
| Entered (f : fn)
| Restarted.

Inductive outcome (R : Type) : Type :=
| Returned (r : R)
| Rebooted.

Arguments Returned {R} r.
Arguments Rebooted {R}.

(** Running a program against an environment that answers every call and
    threads its own state [W]. *)
Section Run.
Context {W : Type}.
Variable env : forall X, call X -> W -> X * W.

Fixpoint run {R} (p : prog R) (w : W) : outcome R * W * list event :=
  match p with
  | Ret r => (Returned r, w, [])
  | Do c k =>
      let (x, w1) := env _ c w in
      let '(o, w2, t) := run (k x) w1 in
      (o, w2, Called c :: t)
  | Enter f k =>
      let '(o, w1, t) := run k w in
      (o, w1, Entered f :: t)
  | Restart => (Rebooted, w, [Restarted])
  end.
End Run.

(** *** String helpers of libc *)

(** The characters before the terminating NUL. *)
Fixpoint c_str (s : string) : string :=
  match s with
  | EmptyString => EmptyString
  | String c r =>
      if byte_of_ascii c =? 0 then EmptyString else String c (c_str r)
  end.

(** [strstr]: the suffix starting at the first occurrence. *)
Fixpoint strstr (hay needle : string) : option string :=
  if String.prefix needle hay then Some hay
  else match hay with
       | EmptyString => None
       | String _ r => strstr r needle
       end.

(** [strchr]: the offset of the first occurrence. *)
Fixpoint strchr (s : string) (c : ascii) : option nat :=
  match s with
  | EmptyString => None
  | String d r => if Ascii.eqb d c then Some 0%nat
                  else option_map S (strchr r c)
  end.

(** *** The functions *)

(** [parse_https_host]: [Some host] for return value 0, [None] for -1. *)
Definition parse_https_host (url : string) (host_out_len : nat)
  : option string :=
  match strstr (c_str url) "https://" with
  | None => None
  | Some p =>
      let p := String.substring 8 (String.length p - 8) p in
      let host_len := match strchr p "/"%char with
                      | Some off => off
                      | None => String.length p
                      end in
      if (host_len =? 0)%nat || (host_out_len <=? host_len)%nat then None
      else Some (String.substring 0 host_len p)
  end.

(** [tm_year] is a calendar year minus 1900, so [t.tm_year + 1900] stays
    within [int]. *)
Definition is_time_set : prog bool :=
  Enter fn_is_time_set (
  t <- perform localtime_now ;;
  Ret (2024 <=? tm_year t + 1900)).

Definition sntp_start_once : prog unit :=
  Enter fn_sntp_start_once (
  enabled <- perform esp_sntp_enabled ;;
  if enabled then Ret tt
  else perform (esp_netif_sntp_init "pool.ntp.org")).

Definition in_maintenance_window (cfg : app_cfg) : prog bool :=
  Enter fn_in_maintenance_window (
  set <- is_time_set ;;
  if negb set then Ret (nonzero (APP_OTA_ALLOW_NO_TIME cfg)) else
  t <- perform localtime_now ;;
  let start := APP_OTA_MAINT_START_HOUR cfg in
  let end_ := APP_OTA_MAINT_END_HOUR cfg in
  let h := tm_hour t in
  if start =? end_ then Ret true else
  if start <? end_ then Ret ((start <=? h) && (h <? end_)) else
  Ret ((start <=? h) || (h <? end_))).

Definition read_battery_mv (cfg : app_cfg) : prog Z :=
  Enter fn_read_battery_mv (Ret (APP_BATT_FAKE_MV cfg)).

Definition ota_button_pressed (cfg : app_cfg) : prog bool :=
  Enter fn_ota_button_pressed (
  level1 <- perform (gpio_get_level (APP_OTA_BUTTON_GPIO cfg)) ;;
  perform (vTaskDelay 30) ;;;
  level2 <- perform (gpio_get_level (APP_OTA_BUTTON_GPIO cfg)) ;;
  Ret ((level1 =? 0) && (level2 =? 0))).

Definition cloud_trigger_requested (cfg : app_cfg) : prog bool :=
  Enter fn_cloud_trigger_requested (
  if (strlen (APP_OTA_TRIGGER_URL cfg) =? 0)%nat then Ret false else
  client <- perform (esp_http_client_init (APP_OTA_TRIGGER_URL cfg) 5000) ;;
  if negb client then Ret false else
  err <- perform (esp_http_client_open 0) ;;
  requested <-
    (if err =? ESP_OK then
       rb <- perform (esp_http_client_read (8 - 1)) ;;
       perform esp_http_client_close ;;;
       Ret ((0 <? fst rb) && (snd rb =? byte_of_ascii "1"))
     else Ret false) ;;
  perform esp_http_client_cleanup ;;;
  Ret requested).

Definition network_ready_check (https_url : string) : prog bool :=
  Enter fn_network_ready_check (
  Enter fn_parse_https_host (
  match parse_https_host https_url 128 with
  | None => Ret false
  | Some host =>
      r <- perform (getaddrinfo host "443") ;;
      if nonzero (fst r) || negb (snd r) then Ret false else
      s <- perform socket ;;
      if s <? 0 then perform freeaddrinfo ;;; Ret false else
      c <- perform connect ;;
      perform close ;;;
      perform freeaddrinfo ;;;
      Ret (c =? 0)
  end)).

Definition https_ota_run (cfg : app_cfg) (firmware_url : string)
  : prog esp_err_t :=
  Enter fn_https_ota_run (
  if server_root_cert_pem_len cfg <? 32 then Ret ESP_ERR_INVALID_SIZE else
  err <- perform (esp_https_ota firmware_url 15000 true) ;;
  if err =? ESP_OK then perform (vTaskDelay 500) ;;; Restart
  else Ret err).

(** [ota_button_pressed() || cloud_trigger_requested()]. *)
Definition update_requested (cfg : app_cfg) : prog bool :=
  b <- ota_button_pressed cfg ;;
  if b then Ret true else cloud_trigger_requested cfg.

Definition poll_delay (cfg : app_cfg) : prog unit :=
  perform (vTaskDelay (APP_OTA_POLL_PERIOD_MS cfg)).

(** One pass through the body of [while (1)] in [ota_decision_task];
    [continue] and the end of the body both return [tt]. *)
Definition ota_poll_cycle (cfg : app_cfg) : prog unit :=
  update_req <- update_requested cfg ;;
  if negb update_req then poll_delay cfg else
  w <- in_maintenance_window cfg ;;
  if negb w then poll_delay cfg else
  batt_mv <- read_battery_mv cfg ;;
  if batt_mv <? APP_BATT_MIN_MV cfg then poll_delay cfg else
  n <- network_ready_check (APP_OTA_FIRMWARE_URL cfg) ;;
  if negb n then poll_delay cfg else
  https_ota_run cfg (APP_OTA_FIRMWARE_URL cfg) ;;;
  poll_delay cfg.

(** The calls and function entries that belong to the update-request
    gate. *)
Definition request_call {X} (c : call X) : bool :=
  match c with
  | gpio_get_level _ | vTaskDelay _ | esp_http_client_init _ _
  | esp_http_client_open _ | esp_http_client_read _ | esp_http_client_close
  | esp_http_client_cleanup => true
  | _ => false
  end.

Definition request_event (e : event) : bool :=
  match e with
  | Called c => request_call c
  | Entered fn_ota_button_pressed | Entered fn_cloud_trigger_requested => true
  | _ => false
  end.

(** The calls and function entries of the maintenance-window gate. *)
Definition window_event (e : event) : bool :=
  match e with
  | Called localtime_now => true
  | Entered fn_in_maintenance_window | Entered fn_is_time_set => true
  | _ => false
  end.

(** Two configurations that differ at most in what the later gates and
    the update read. *)
Definition same_request_cfg (a b : app_cfg) : Prop :=
  APP_OTA_BUTTON_GPIO a = APP_OTA_BUTTON_GPIO b
  /\ APP_OTA_TRIGGER_URL a = APP_OTA_TRIGGER_URL b
  /\ APP_OTA_POLL_PERIOD_MS a = APP_OTA_POLL_PERIOD_MS b.

(** The part of the cycle from the battery gate on. *)
Definition from_battery_gate (cfg : app_cfg) : prog unit :=
  batt_mv <- read_battery_mv cfg ;;
  if batt_mv <? APP_BATT_MIN_MV cfg then poll_delay cfg else
  n <- network_ready_check (APP_OTA_FIRMWARE_URL cfg) ;;
  if negb n then poll_delay cfg else
  https_ota_run cfg (APP_OTA_FIRMWARE_URL cfg) ;;;
  poll_delay cfg.

(** A cycle that stops at the battery gate: no later gate entered, back
    to the loop, the poll delay right after the battery read. *)
Definition gate_skipped (cfg : app_cfg) (o : outcome unit) (t : list event)
  : Prop :=
  ~ In (Entered fn_network_ready_check) t
  /\ ~ In (Entered fn_https_ota_run) t
  /\ o = Returned tt
  /\ exists pre,
       t = pre ++ [Entered fn_read_battery_mv;
                   Called (vTaskDelay (APP_OTA_POLL_PERIOD_MS cfg))].

(** A configuration and an environment to run the cycle in: window
    22..6, battery exactly at the threshold, no trigger URL; the
    environment is a script of the GPIO level and of the clock, every
    network call succeeds. *)
Definition demo_cfg : app_cfg :=
  mk_cfg 9 "" "https://example.com/fw.bin" 60000 1 22 6 3700 3700 1200.

Record demo_world : Type := mk_world { button_level : Z; now : tm }.

Definition demo_env : forall X, call X -> demo_world -> X * demo_world :=
  fun X c w =>
    match c in call X return X * demo_world with
    | esp_sntp_enabled => (false, w)
    | esp_netif_sntp_init _ => (tt, w)
    | gpio_config _ => (tt, w)
    | gpio_get_level _ => (button_level w, w)
    | vTaskDelay _ => (tt, w)
    | localtime_now => (now w, w)
    | esp_http_client_init _ _ => (true, w)
    | esp_http_client_open _ => (ESP_OK, w)
    | esp_http_client_read _ => ((1, byte_of_ascii "1"), w)
    | esp_http_client_close => (tt, w)
    | esp_http_client_cleanup => (tt, w)
    | getaddrinfo _ _ => ((0, true), w)
    | socket => (3, w)
    | connect => (0, w)
    | close => (tt, w)
    | freeaddrinfo => (tt, w)
    | esp_https_ota _ _ _ => (ESP_FAIL, w)
    end.

(** [ota_decision_task], cut after [cycles] passes of its endless loop. *)
Definition ota_decision_task (cfg : app_cfg) (cycles : nat) : prog unit :=
  sntp_start_once ;;;
  perform (gpio_config (Z.shiftl 1 (APP_OTA_BUTTON_GPIO cfg))) ;;;
  Nat.iter cycles (fun rest => ota_poll_cycle cfg ;;; rest) (Ret tt).

End Ota.

(** ** More of the eFuse demo: [efuse_read_custom_fields] and [app_main] *)

Module EfuseDemo.
Import C Efuse EfuseSpec.

(** What [efuse_read_custom_fields] prints: one constructor per
    [ESP_LOGI] or [ESP_LOGW] call, carrying the arguments of its format
    string. *)
Inductive log_line : Type :=
| LOGI_SERIAL_NUMBER (serial_str : list Z)
| LOGI_HW_REV (hw_rev : Z)
| LOGI_FEATURE_FLAGS (flags : Z)
| LOGI_PROVISIONING_CRC16 (crc16_stored : Z)
| LOGI_CRC16_recalculated (crc16_calc : Z)
| LOGW_CRC16_stored_is_zero
| LOGW_CRC16_mismatch
| LOGI_CRC16_check_OK.

(** What [%s] prints of a buffer: the bytes before the first NUL. *)
Fixpoint c_string (buf : list Z) : list Z :=
  match buf with
  | [] => []
  | b :: r => if b =? 0 then [] else b :: c_string r
  end.

(** [efuse_read_custom_fields]: the returned [esp_err_t] and the lines
    printed.  [serial_str] is the 17-byte buffer, zero-initialised, into
    which the 16 bytes of [serial_raw] are copied. *)
Definition efuse_read_custom_fields : M (esp_err_t * list log_line) :=
  r1 <- esp_efuse_read_field_blob USER_DATA_SERIAL_NUMBER (16 * 8) ;;
  if nonzero (fst r1) then ret (fst r1, []) else
  r2 <- esp_efuse_read_field_blob USER_DATA_HW_REV (2 * 8) ;;
  if nonzero (fst r2) then ret (fst r2, []) else
  r3 <- esp_efuse_read_field_blob USER_DATA_FEATURE_FLAGS (4 * 8) ;;
  if nonzero (fst r3) then ret (fst r3, []) else
  r4 <- esp_efuse_read_field_blob USER_DATA_PROVISIONING_CRC16 (2 * 8) ;;
  if nonzero (fst r4) then ret (fst r4, []) else
  let serial_raw := snd r1 in
  let hw_rev := as_uint (snd r2) in
  let flags := as_uint (snd r3) in
  let crc16_stored := as_uint (snd r4) in
  let serial_str := firstn 16 serial_raw ++ [0] in
  let payload := serial_raw ++ payload_tail hw_rev flags in
  let crc16_calc := crc16_ccitt_false payload in
  ret (ESP_OK,
       [ LOGI_SERIAL_NUMBER (c_string serial_str);
         LOGI_HW_REV hw_rev;
         LOGI_FEATURE_FLAGS flags;
         LOGI_PROVISIONING_CRC16 crc16_stored;
         LOGI_CRC16_recalculated crc16_calc;
         if crc16_stored =? 0 then LOGW_CRC16_stored_is_zero
         else if negb (crc16_stored =? crc16_calc) then LOGW_CRC16_mismatch
         else LOGI_CRC16_check_OK ]).

(** [app_main] up to its idle loop, built with
    [CONFIG_DEMO_PROGRAM_EFUSE] (the variable [err] the read step assigns
    is declared inside that [#if]): the result of the provisioning step,
    the result of the read step and the lines the read step printed. *)
Definition app_main : M (esp_err_t * esp_err_t * list log_line) :=
  err <- efuse_program_custom_fields (Some demo_serial) demo_hw_rev
                                     demo_flags ;;
  r <- efuse_read_custom_fields ;;
  ret (err, fst r, snd r).

(** *** Vocabulary for the properties *)

(** The step [crc16_shift] undone: the bit shifted out is bit 0 of the
    result, the polynomial being odd. *)
Definition crc16_unshift (r : Z) : Z :=
  if Z.testbit r 0
  then Z.lor (Z.shiftr (Z.lxor r 0x1021) 1) 0x8000
  else Z.shiftr r 1.

(** A read the driver answered with [ESP_OK]. *)
Definition read_succeeded (op : efuse_op) : bool :=
  match op with
  | OpRead _ e => e =? ESP_OK
  | _ => false
  end.

(** The lines [efuse_read_custom_fields] prints for the burned bits [b]. *)
Definition printed (b : efuse_bits) : list log_line :=
  let crc16_calc := crc16_ccitt_false (stored_payload b) in
  [ LOGI_SERIAL_NUMBER (c_string (little_endian 16 (serial_number b)));
    LOGI_HW_REV (hw_rev b mod 2 ^ 16);
    LOGI_FEATURE_FLAGS (feature_flags b mod 2 ^ 32);
    LOGI_PROVISIONING_CRC16 (stored_crc b);
    LOGI_CRC16_recalculated crc16_calc;
    if stored_crc b =? 0 then LOGW_CRC16_stored_is_zero
    else if stored_crc b =? crc16_calc then LOGI_CRC16_check_OK
    else LOGW_CRC16_mismatch ].

(** The part of a serial string that reaches the eFuses: at most 16
    characters, none after a NUL. *)
Definition serial_prefix (s : string) : list ascii :=
  firstn (Nat.min 16 (strlen s)) (list_ascii_of_string s).

(** A computation that consumes no pending failure when none is
    pending. *)
Definition no_fault {A} (m : M A) : Prop :=
  forall hw, faults hw = [] -> faults (snd (m hw)) = [].

(** Following the batch calls of a log: [Some open] when every write
    happened inside a batch, no batch was opened inside another and none
    was closed that was not open; [open] tells whether a batch is open at
    the end. *)
Fixpoint batch_open (ops : list efuse_op) (open : bool) : option bool :=
  match ops with
  | [] => Some open
  | OpRead _ _ :: r => batch_open r open
  | OpBatchBegin e :: r =>
      if nonzero e then batch_open r open
      else if open then None else batch_open r true
  | OpWrite _ _ _ :: r => if open then batch_open r open else None
  | OpBatchCancel _ :: r | OpBatchCommit _ :: r =>
      if open then batch_open r false else None
  end.

(** Nothing burned in the bytes of the four fields. *)
Definition blank_fields (b : efuse_bits) : Prop :=
  forall f i, (i < field_bytes f)%nat -> current_byte b f i = 0.

End EfuseDemo.

(** ** More of the OTA manager: what a run shows *)

Module OtaMore.
Import C Ota.

(** *** Strings *)

(** Every character of [s] passes the test [p]. *)
Fixpoint all_chars (p : ascii -> bool) (s : string) : bool :=
  match s with
  | EmptyString => true
  | String c r => p c && all_chars p r
  end.

(** A character that is neither NUL nor [c]. *)
Definition other_than (c : ascii) (d : ascii) : bool :=
  negb (Ascii.eqb d c) && negb (byte_of_ascii d =? 0).

(** *** What the loop holds of the system

    Address lists handed out by [getaddrinfo] and not yet freed, sockets
    not yet closed, HTTP client handles not yet cleaned up, HTTP
    connections not yet closed; [misuse] records a release of something
    that was not held. *)
Record resources : Type := mk_res {
  addrinfo_lists : nat;
  sockets : nat;
  http_clients : nat;
  http_connections : nat;
  misuse : bool
}.

(** The effect of one answered call: [getaddrinfo] hands out a list when
    it returns 0 with a non-NULL result, [socket] a descriptor when it
    returns one that is not negative, [esp_http_client_init] a handle when
    it is not NULL, [esp_http_client_open] a connection when it returns
    [ESP_OK]. *)
Definition account {X} (c : call X) : X -> resources -> resources :=
  match c in call X return X -> resources -> resources with
  | getaddrinfo _ _ => fun x r =>
      if (fst x =? 0) && snd x
      then mk_res (S (addrinfo_lists r)) (sockets r) (http_clients r)
                  (http_connections r) (misuse r)
      else r
  | freeaddrinfo => fun _ r =>
      match addrinfo_lists r with
      | S n => mk_res n (sockets r) (http_clients r) (http_connections r)
                      (misuse r)
      | O => mk_res O (sockets r) (http_clients r) (http_connections r) true
      end
  | socket => fun s r =>
      if 0 <=? s
      then mk_res (addrinfo_lists r) (S (sockets r)) (http_clients r)
                  (http_connections r) (misuse r)
      else r
  | close => fun _ r =>
      match sockets r with
      | S n => mk_res (addrinfo_lists r) n (http_clients r)
                      (http_connections r) (misuse r)
      | O => mk_res (addrinfo_lists r) O (http_clients r)
                    (http_connections r) true
      end
  | esp_http_client_init _ _ => fun ok r =>
      if ok
      then mk_res (addrinfo_lists r) (sockets r) (S (http_clients r))
                  (http_connections r) (misuse r)
      else r
  | esp_http_client_cleanup => fun _ r =>
      match http_clients r with
      | S n => mk_res (addrinfo_lists r) (sockets r) n (http_connections r)
                      (misuse r)
      | O => mk_res (addrinfo_lists r) (sockets r) O (http_connections r)
                    true
      end
  | esp_http_client_open _ => fun e r =>
      if e =? ESP_OK
      then mk_res (addrinfo_lists r) (sockets r) (http_clients r)
                  (S (http_connections r)) (misuse r)
      else r
  | esp_http_client_close => fun _ r =>
      match http_connections r with
      | S n => mk_res (addrinfo_lists r) (sockets r) (http_clients r) n
                      (misuse r)
      | O => mk_res (addrinfo_lists r) (sockets r) (http_clients r) O true
      end
  | _ => fun _ r => r
  end.

(** An environment that also keeps the books. *)
Definition track {W} (env : forall X, call X -> W -> X * W)
  : forall X, call X -> W * resources -> X * (W * resources) :=
  fun X c wr =>
    let (x, w') := env X c (fst wr) in (x, (w', account c x (snd wr))).

(** A program that ends, however it ends, holding what it held when it
    started. *)
Definition keeps {R} (p : prog R) : Prop :=
  forall W (env : forall X, call X -> W -> X * W) (w : W) (r : resources),
    snd (snd (fst (run (track env) p (w, r)))) = r.

(** *** Reading a trace *)

(** The arguments of a call of [esp_https_ota]. *)
Definition ota_args (e : event) : option (string * Z * bool) :=
  match e with
  | Called (esp_https_ota url timeout_ms keep_alive) =>
      Some (url, timeout_ms, keep_alive)
  | _ => None
  end.

Definition is_ota_call (e : event) : bool :=
  match ota_args e with
  | Some _ => true
  | None => false
  end.



(** The configuration with the bounds of the maintenance window
    exchanged. *)
Definition swap_window (cfg : app_cfg) : app_cfg :=
  mk_cfg (APP_OTA_BUTTON_GPIO cfg) (APP_OTA_TRIGGER_URL cfg)
         (APP_OTA_FIRMWARE_URL cfg) (APP_OTA_POLL_PERIOD_MS cfg)
         (APP_OTA_ALLOW_NO_TIME cfg) (APP_OTA_MAINT_END_HOUR cfg)
         (APP_OTA_MAINT_START_HOUR cfg) (APP_BATT_FAKE_MV cfg)
         (APP_BATT_MIN_MV cfg) (server_root_cert_pem_len cfg).

(** The four gates of one pass, each run in the state its predecessor
    left, all answer yes; and the embedded certificate is long enough for
    [https_ota_run] to go on. *)
Definition gates_pass {W} (env : forall X, call X -> W -> X * W)
  (cfg : app_cfg) (w : W) : Prop :=
  exists w1 t1 w2 t2 w3 t3,
    run env (update_requested cfg) w = (Returned true, w1, t1)
    /\ run env (in_maintenance_window cfg) w1 = (Returned true, w2, t2)
    /\ APP_BATT_MIN_MV cfg <= APP_BATT_FAKE_MV cfg
    /\ run env (network_ready_check (APP_OTA_FIRMWARE_URL cfg)) w2
       = (Returned true, w3, t3)
    /\ 32 <= server_root_cert_pem_len cfg.

End OtaMore.

(** ** The Wi-Fi station: [ESP32C6_Secure_Boot_Https_Ota_Ref/main/wifi_station.c] *)

Module Wifi.
Import C.

(** [esp_event_base_t], compared by identity: the two bases the handler
    knows, and any other. *)
Inductive esp_event_base_t : Type :=
| WIFI_EVENT
| IP_EVENT
| OTHER_EVENT.

Definition base_eqb (a b : esp_event_base_t) : bool :=
  match a, b with
  | WIFI_EVENT, WIFI_EVENT | IP_EVENT, IP_EVENT | OTHER_EVENT, OTHER_EVENT =>
      true
  | _, _ => false
  end.

(** Event ids: the values of ESP-IDF's [wifi_event_t] and [ip_event_t]. *)
Definition WIFI_EVENT_STA_START : Z := 2.
Definition WIFI_EVENT_STA_DISCONNECTED : Z := 5.
Definition IP_EVENT_STA_GOT_IP : Z := 0.

(** [BIT0] and [BIT1]. *)
Definition WIFI_CONNECTED_BIT : Z := 1.
Definition WIFI_FAIL_BIT : Z := 2.

(** The file's static variables: [s_retry_count], and the bits of the
    event group [s_wifi_evt] points to. *)
Record wifi_state : Type := mk_wifi {
  s_retry_count : Z;
  s_wifi_evt : Z
}.

(** The calls the handler makes. *)
Inductive wifi_call : Type :=
| esp_wifi_connect
| xEventGroupSetBits (bits : Z).

(** [wifi_event_handler]: the state it leaves and the calls it made.
    [s_retry_count++] happens below 10 only, far from the end of [int]. *)
Definition wifi_event_handler (event_base : esp_event_base_t) (event_id : Z)
  (st : wifi_state) : wifi_state * list wifi_call :=
  if base_eqb event_base WIFI_EVENT && (event_id =? WIFI_EVENT_STA_START)
  then (st, [esp_wifi_connect])
  else if base_eqb event_base WIFI_EVENT
          && (event_id =? WIFI_EVENT_STA_DISCONNECTED)
  then
    if s_retry_count st <? 10
    then (mk_wifi (s_retry_count st + 1) (s_wifi_evt st), [esp_wifi_connect])
    else (mk_wifi (s_retry_count st) (Z.lor (s_wifi_evt st) WIFI_FAIL_BIT),
          [xEventGroupSetBits WIFI_FAIL_BIT])
  else if base_eqb event_base IP_EVENT && (event_id =? IP_EVENT_STA_GOT_IP)
  then (mk_wifi 0 (Z.lor (s_wifi_evt st) WIFI_CONNECTED_BIT),
        [xEventGroupSetBits WIFI_CONNECTED_BIT])
  else (st, []).

(** The event loop delivering events one after the other. *)
Fixpoint deliver (events : list (esp_event_base_t * Z)) (st : wifi_state)
  : wifi_state * list wifi_call :=
  match events with
  | [] => (st, [])
  | (event_base, event_id) :: rest =>
      let (st1, calls1) := wifi_event_handler event_base event_id st in
      let (st2, calls2) := deliver rest st1 in
      (st2, calls1 ++ calls2)
  end.

(** The state [wifi_station_start] starts from: the counter
    zero-initialised, a fresh event group. *)
Definition wifi_init : wifi_state := mk_wifi 0 0.

(** The disconnections since the last address was obtained, [n] of them
    before [events]. *)
Fixpoint disconnects_since_ip (events : list (esp_event_base_t * Z)) (n : Z)
  : Z :=
  match events with
  | [] => n
  | (event_base, event_id) :: rest =>
      if base_eqb event_base IP_EVENT && (event_id =? IP_EVENT_STA_GOT_IP)
      then disconnects_since_ip rest 0
      else if base_eqb event_base WIFI_EVENT
              && (event_id =? WIFI_EVENT_STA_DISCONNECTED)
      then disconnects_since_ip rest (n + 1)
      else disconnects_since_ip rest n
  end.

Definition got_ip (ev : esp_event_base_t * Z) : bool :=
  base_eqb (fst ev) IP_EVENT && (snd ev =? IP_EVENT_STA_GOT_IP).

Definition disconnected : esp_event_base_t * Z :=
  (WIFI_EVENT, WIFI_EVENT_STA_DISCONNECTED).

End Wifi.

(** ** Start-up: [ESP32C6_Secure_Boot_Https_Ota_Ref/main/main.c],
    [wifi_station_start] and [ota_manager_start] *)

Module Boot.
Import C Wifi.

(** The macros of [app_cfg.h] the start-up code reads, and the sizes of
    the [ssid] and [password] arrays of ESP-IDF's [wifi_sta_config_t]
    ([sizeof(wifi_cfg.sta.ssid)], [sizeof(wifi_cfg.sta.password)]). *)
Record boot_cfg : Type := mk_boot_cfg {
  APP_WIFI_SSID : string;
  APP_WIFI_PASSWORD : string;
  sizeof_ssid : nat;
  sizeof_password : nat
}.

Definition ESP_ERR_NO_MEM : esp_err_t := 0x101.
Definition ESP_ERR_NVS_NO_FREE_PAGES : esp_err_t := 0x110d.
Definition ESP_ERR_NVS_NEW_VERSION_FOUND : esp_err_t := 0x1110.
Definition ESP_EVENT_ANY_ID : Z := -1.
Definition WIFI_MODE_STA : Z := 1.
Definition WIFI_IF_STA : Z := 0.
Definition pdPASS : Z := 1.

(** Calls into ESP-IDF and FreeRTOS, indexed by the type of their answer:
    [xEventGroupCreate] answers whether the handle is non-NULL,
    [xEventGroupWaitBits] the bits of the group,
    [xTaskCreate] its [BaseType_t]. *)
Inductive bcall : Type -> Type :=
| nvs_flash_init : bcall esp_err_t
| nvs_flash_erase : bcall esp_err_t
| xEventGroupCreate : bcall bool
| esp_netif_init : bcall esp_err_t
| esp_event_loop_create_default : bcall esp_err_t
| esp_netif_create_default_wifi_sta : bcall unit
| esp_wifi_init : bcall esp_err_t
| esp_event_handler_instance_register (event_base : esp_event_base_t)
    (event_id : Z) : bcall esp_err_t
| esp_wifi_set_mode (mode : Z) : bcall esp_err_t
| esp_wifi_set_config (interface : Z) (ssid password : list Z)
    : bcall esp_err_t
| esp_wifi_start : bcall esp_err_t
| xEventGroupWaitBits (bits : Z) (clear_on_exit wait_for_all : bool)
    (ms : Z) : bcall Z
| esp_secure_boot_enabled : bcall bool
| esp_flash_encryption_enabled : bcall bool
| xTaskCreate (name : string) (stack_depth priority : Z) : bcall Z.

(** Programs; [Abort err] is what [ESP_ERROR_CHECK] does with an error. *)
Inductive bprog (R : Type) : Type :=
| BRet (r : R)
| BDo {X : Type} (c : bcall X) (k : X -> bprog R)
| BAbort (err : esp_err_t).

Arguments BRet {R} r.
Arguments BDo {R X} c k.
Arguments BAbort {R} err.

Fixpoint bbind {A B} (p : bprog A) (k : A -> bprog B) : bprog B :=
  match p with
  | BRet r => k r
  | BDo c k' => BDo c (fun x => bbind (k' x) k)
  | BAbort err => BAbort err
  end.

Definition bperform {X} (c : bcall X) : bprog X := BDo c BRet.

Notation "x <- m ;; k" := (bbind m (fun x => k))
  (at level 61, m at next level, right associativity).
Notation "m ;;; k" := (bbind m (fun _ => k))
  (at level 61, right associativity).

(** [ESP_ERROR_CHECK(x)]. *)
Definition ESP_ERROR_CHECK (x : esp_err_t) : bprog unit :=
  if x =? ESP_OK then BRet tt else BAbort x.

(** A call with its answer. *)
Inductive bevent : Type :=
| BCalled {X : Type} (c : bcall X) (x : X).

Inductive boutcome (R : Type) : Type :=
| BReturned (r : R)
| Aborted (err : esp_err_t).

Arguments BReturned {R} r.
Arguments Aborted {R} err.

Section Run.
Context {W : Type}.
Variable env : forall X, bcall X -> W -> X * W.

Fixpoint brun {R} (p : bprog R) (w : W) : boutcome R * W * list bevent :=
  match p with
  | BRet r => (BReturned r, w, [])
  | BDo c k =>
      let (x, w1) := env _ c w in
      let '(o, w2, t) := brun (k x) w1 in
      (o, w2, BCalled c x :: t)
  | BAbort err => (Aborted err, w, [])
  end.
End Run.

(** [strncpy(dst, src, n)]: the characters of [src] before its NUL, at
    most [n] of them, then NULs up to [n]; what follows in [dst] stays. *)
Definition strncpy (dst : list Z) (src : string) (n : nat) : list Z :=
  let k := Nat.min n (strlen src) in
  firstn k (bytes_of_string src) ++ repeat 0 (n - k)%nat ++ skipn n dst.

(** [wifi_station_start]. *)
Definition wifi_station_start (cfg : boot_cfg) : bprog esp_err_t :=
  if (strlen (APP_WIFI_SSID cfg) =? 0)%nat then BRet ESP_ERR_INVALID_ARG else
  s_wifi_evt <- bperform xEventGroupCreate ;;
  if negb s_wifi_evt then BRet ESP_ERR_NO_MEM else
  e <- bperform esp_netif_init ;; ESP_ERROR_CHECK e ;;;
  e <- bperform esp_event_loop_create_default ;; ESP_ERROR_CHECK e ;;;
  bperform esp_netif_create_default_wifi_sta ;;;
  e <- bperform esp_wifi_init ;; ESP_ERROR_CHECK e ;;;
  e <- bperform (esp_event_handler_instance_register WIFI_EVENT
                   ESP_EVENT_ANY_ID) ;;
  ESP_ERROR_CHECK e ;;;
  e <- bperform (esp_event_handler_instance_register IP_EVENT
                   IP_EVENT_STA_GOT_IP) ;;
  ESP_ERROR_CHECK e ;;;
  let ssid := strncpy (repeat 0 (sizeof_ssid cfg)) (APP_WIFI_SSID cfg)
                      (sizeof_ssid cfg - 1) in
  let password := strncpy (repeat 0 (sizeof_password cfg))
                          (APP_WIFI_PASSWORD cfg) (sizeof_password cfg - 1) in
  e <- bperform (esp_wifi_set_mode WIFI_MODE_STA) ;; ESP_ERROR_CHECK e ;;;
  e <- bperform (esp_wifi_set_config WIFI_IF_STA ssid password) ;;
  ESP_ERROR_CHECK e ;;;
  e <- bperform esp_wifi_start ;; ESP_ERROR_CHECK e ;;;
  bits <- bperform (xEventGroupWaitBits
                      (Z.lor WIFI_CONNECTED_BIT WIFI_FAIL_BIT) false false
                      20000) ;;
  if nonzero (Z.land bits WIFI_CONNECTED_BIT) then BRet ESP_OK
  else BRet ESP_FAIL.

(** [ota_manager_start]. *)
Definition ota_manager_start : bprog esp_err_t :=
  ok <- bperform (xTaskCreate "ota_decision" 8192 5) ;;
  BRet (if ok =? pdPASS then ESP_OK else ESP_ERR_NO_MEM).

(** [log_security_state]. *)
Definition log_security_state : bprog unit :=
  bperform esp_secure_boot_enabled ;;;
  bperform esp_flash_encryption_enabled ;;;
  BRet tt.

(** [platform_init]. *)
Definition platform_init (cfg : boot_cfg) : bprog unit :=
  err <- bperform nvs_flash_init ;;
  (if (err =? ESP_ERR_NVS_NO_FREE_PAGES)
      || (err =? ESP_ERR_NVS_NEW_VERSION_FOUND)
   then e <- bperform nvs_flash_erase ;; ESP_ERROR_CHECK e ;;;
        e <- bperform nvs_flash_init ;; ESP_ERROR_CHECK e
   else ESP_ERROR_CHECK err) ;;;
  e <- wifi_station_start cfg ;; ESP_ERROR_CHECK e.

(** [app_main]. *)
Definition app_main (cfg : boot_cfg) : bprog unit :=
  platform_init cfg ;;;
  log_security_state ;;;
  e <- ota_manager_start ;; ESP_ERROR_CHECK e ;;;
  BRet tt.

(** *** Reading a trace *)

(** [xTaskCreate] was called for the OTA task. *)
Definition task_requested (e : bevent) : bool :=
  match e with
  | BCalled (xTaskCreate _ _ _) _ => true
  | _ => false
  end.

(** The OTA task was created. *)
Definition task_created (e : bevent) : bool :=
  match e with
  | BCalled (xTaskCreate _ _ _) ok => ok =? pdPASS
  | _ => false
  end.

(** The wait for the connection came back with [WIFI_CONNECTED_BIT]. *)
Definition wait_connected (e : bevent) : bool :=
  match e with
  | BCalled (xEventGroupWaitBits _ _ _ _) bits =>
      nonzero (Z.land bits WIFI_CONNECTED_BIT)
  | _ => false
  end.

Definition nvs_ready (e : bevent) : bool :=
  match e with
  | BCalled nvs_flash_init err => err =? ESP_OK
  | _ => false
  end.

Definition wifi_started (e : bevent) : bool :=
  match e with
  | BCalled esp_wifi_start err => err =? ESP_OK
  | _ => false
  end.

End Boot.

(** ** Proof steps shared by both parts *)

Ltac splits := repeat match goal with |- _ /\ _ => split end.

(** ** Properties of the eFuse demo *)

Module EfuseFacts.
Import C Efuse EfuseSpec.

(** *** Bytes and bits *)

Lemma land_ff (x : Z) : Z.land x 0xFF = x mod 2 ^ 8.
Proof. change 0xFF with (Z.ones 8). apply Z.land_ones. lia. Qed.

Lemma u8_range (x : Z) : 0 <= u8 x < 256.
Proof. unfold u8. change 256 with (2 ^ 8). apply Z.mod_pos_bound. lia. Qed.

Lemma u8_small (x : Z) : 0 <= x < 256 -> u8 x = x.
Proof. intros H. unfold u8. apply Z.mod_small. simpl. lia. Qed.

Lemma u8_land_ff (x : Z) : u8 (Z.land x 0xFF) = Z.land x 0xFF.
Proof. rewrite land_ff. apply u8_small. apply u8_range. Qed.

Lemma byte_at_range (v : Z) (i : nat) : 0 <= byte_at v i < 256.
Proof. unfold byte_at. rewrite land_ff. apply u8_range. Qed.

Lemma byte_at_lor (a b : Z) (i : nat) :
  byte_at (Z.lor a b) i = Z.lor (byte_at a i) (byte_at b i).
Proof.
  unfold byte_at. rewrite Z.shiftr_lor. apply Z.land_lor_distr_l.
Qed.

Lemma byte_at_0 (i : nat) : byte_at 0 i = 0.
Proof. unfold byte_at. rewrite Z.shiftr_0_l. reflexivity. Qed.

(** [Z.bitblast], then the bits a shift moved below position 0. *)
Ltac bits :=
  Z.bitblast;
  repeat match goal with
         | |- context [Z.testbit ?a ?i] =>
             rewrite (Z.testbit_neg_r a i) by lia
         end;
  try reflexivity; try Btauto.btauto.

Lemma byte_at_le_val (l : list Z) (i : nat) :
  byte_at (le_val l) i = u8 (nth i l 0).
Proof.
  revert i. induction l as [|b r IH]; intros i.
  - destruct i; apply byte_at_0.
  - destruct i as [|i]; cbn [nth le_val].
    + unfold byte_at, u8. change 0xFF with (Z.ones 8).
      rewrite Z.land_ones by lia.
      bits.
    + rewrite <- IH. unfold byte_at, u8.
      change 0xFF with (Z.ones 8). rewrite !Z.land_ones by lia.
      replace (8 * Z.of_nat (S i)) with (8 * Z.of_nat i + 8) by lia.
      bits.
Qed.

(** *** The CRC loop against the CRC model *)

Lemma top_bit (c : Z) : nonzero (Z.land c 0x8000) = Z.testbit c 15.
Proof.
  assert (E : Z.land c 0x8000 = if Z.testbit c 15 then 2 ^ 15 else 0).
  { change 0x8000 with (2 ^ 15).
    destruct (Z.testbit c 15) eqn:T; apply Z.bits_inj'; intros i Hi;
      rewrite Z.land_spec, ?Z.testbit_0_l, !Z.pow2_bits_eqb by lia;
      destruct (Z.eqb_spec 15 i) as [<-|]; rewrite ?T, ?andb_false_r;
      reflexivity. }
  rewrite E. destruct (Z.testbit c 15); reflexivity.
Qed.

Lemma crc16_shift_feed (s m : Z) :
  crc16_shift (Z.lxor s m)
  = Z.lxor (crc_feed 16 0x1021 s (Z.testbit m 15)) (u16 (Z.shiftl m 1)).
Proof.
  unfold crc16_shift, crc_feed. rewrite top_bit, Z.lxor_spec.
  change (16 - 1) with 15.
  replace (2 * s) with (Z.shiftl s 1) by (rewrite Z.shiftl_mul_pow2; lia).
  unfold u16.
  destruct (xorb (Z.testbit s 15) (Z.testbit m 15)).
  - change 0x1021 with (0x1021 mod 2 ^ 16). bits.
  - bits.
Qed.

Lemma crc16_iter_feed (k : nat) (s m : Z) :
  0 <= m < 2 ^ 16 ->
  Nat.iter k crc16_shift (Z.lxor s m)
  = Z.lxor
      (fold_left (crc_feed 16 0x1021)
         (map (fun j => Z.testbit m (15 - Z.of_nat j)) (seq 0 k)) s)
      (u16 (Z.shiftl m (Z.of_nat k))).
Proof.
  intros Hm. induction k as [|k IH].
  - cbn [seq map fold_left].
    change (Nat.iter 0 crc16_shift (Z.lxor s m)) with (Z.lxor s m).
    change (Z.of_nat 0) with 0.
    unfold u16. rewrite Z.shiftl_0_r, Z.mod_small by lia. reflexivity.
  - rewrite Nat.iter_succ, IH, crc16_shift_feed.
    rewrite seq_S, map_app, fold_left_app. cbn [map fold_left Nat.add].
    f_equal.
    + f_equal. unfold u16.
      rewrite Z.mod_pow2_bits_low, Z.shiftl_spec by lia. reflexivity.
    + unfold u16. rewrite Nat2Z.inj_succ. unfold Z.succ. bits.
Qed.

Lemma crc16_shift_range (c : Z) : 0 <= crc16_shift c < 2 ^ 16.
Proof.
  unfold crc16_shift, u16.
  destruct (nonzero _); apply Z.mod_pos_bound; lia.
Qed.

Lemma crc16_byte_range (crc d : Z) : 0 <= crc16_byte crc d < 2 ^ 16.
Proof. unfold crc16_byte. rewrite Nat.iter_succ. apply crc16_shift_range. Qed.

Lemma crc16_byte_feed (crc d : Z) :
  0 <= crc < 2 ^ 16 ->
  crc16_byte crc d = fold_left (crc_feed 16 0x1021) (msb_first d) crc.
Proof.
  intros Hc. unfold crc16_byte.
  set (m := u16 (Z.shiftl (u16 d) 8)).
  assert (Hm : 0 <= m < 2 ^ 16) by (apply Z.mod_pos_bound; lia).
  replace (u16 (Z.lxor crc (Z.shiftl (u16 d) 8))) with (Z.lxor crc m).
  2:{ subst m. unfold u16. rewrite <- (Z.mod_small crc (2 ^ 16)) at 1 by lia.
      bits. }
  rewrite crc16_iter_feed by exact Hm.
  replace (u16 (Z.shiftl m (Z.of_nat 8))) with 0.
  2:{ subst m. unfold u16. change (Z.of_nat 8) with 8. symmetry. bits. }
  rewrite Z.lxor_0_r. unfold msb_first. f_equal.
  apply map_ext_in. intros j Hj. apply in_seq in Hj.
  subst m. unfold u16.
  rewrite Z.mod_pow2_bits_low, Z.shiftl_spec, Z.mod_pow2_bits_low by lia.
  f_equal. lia.
Qed.

Lemma crc16_fold_feed (data : list Z) (crc : Z) :
  0 <= crc < 2 ^ 16 ->
  fold_left crc16_byte data crc
  = fold_left (crc_feed 16 0x1021) (flat_map msb_first data) crc.
Proof.
  revert crc. induction data as [|d data IH]; intros crc Hc.
  - reflexivity.
  - cbn [fold_left flat_map]. rewrite fold_left_app.
    rewrite <- crc16_byte_feed by exact Hc.
    apply IH. apply crc16_byte_range.
Qed.

(** The loop of [crc16_ccitt_false] computes CRC-16/CCITT-FALSE, whatever
    the bytes. *)
Lemma crc16_ccitt_false_refines (data : list Z) :
  crc16_ccitt_false data = crc16_ccitt_false_model data.
Proof.
  unfold crc16_ccitt_false, crc16_ccitt_false_model, crc_model.
  change (Z.of_nat 16) with 16.
  rewrite Z.lxor_0_r. apply crc16_fold_feed. lia.
Qed.

(** The catalogue's check value: the CRC of ["123456789"] is [0x29B1]. *)
Example crc16_check_value :
  crc16_ccitt_false (bytes_of_string "123456789") = 0x29B1.
Proof. reflexivity. Qed.

(** *** Layout of the payload *)

Lemma little_endian_blob (n : nat) (v : Z) : little_endian n v = blob_of n v.
Proof.
  unfold little_endian, blob_of. apply map_ext. intros i.
  unfold byte_at. rewrite land_ff, Z.shiftr_div_pow2 by lia.
  rewrite Z.pow_mul_r by lia. reflexivity.
Qed.

Lemma le_bytes2_blob (v : Z) : le_bytes2 v = blob_of 2 v.
Proof.
  unfold le_bytes2, blob_of. cbn [seq map]. rewrite !u8_land_ff. reflexivity.
Qed.

Lemma le_bytes4_blob (v : Z) : le_bytes4 v = blob_of 4 v.
Proof.
  unfold le_bytes4, blob_of. cbn [seq map]. rewrite !u8_land_ff. reflexivity.
Qed.

Lemma payload_tail_blob (h f : Z) :
  payload_tail h f = blob_of 2 h ++ blob_of 4 f.
Proof. rewrite <- le_bytes2_blob, <- le_bytes4_blob. reflexivity. Qed.

Lemma nth_blob_of (n i : nat) (v : Z) :
  (i < n)%nat -> nth i (blob_of n v) 0 = byte_at v i.
Proof.
  intros H. unfold blob_of.
  rewrite (nth_indep _ 0 (byte_at v 0))
    by (rewrite length_map, length_seq; exact H).
  rewrite map_nth, seq_nth by exact H. reflexivity.
Qed.

(** Reading a blob into an integer variable and taking its bytes again
    gives the blob back. *)
Lemma blob_as_uint (n : nat) (v : Z) :
  blob_of n (as_uint (blob_of n v)) = blob_of n v.
Proof.
  unfold as_uint, blob_of at 1 3. apply map_ext_in. intros i Hi.
  apply in_seq in Hi. rewrite byte_at_le_val, nth_blob_of by lia.
  apply u8_small, byte_at_range.
Qed.

Lemma as_uint_blob2 (v : Z) : as_uint (blob_of 2 v) = v mod 2 ^ 16.
Proof.
  unfold as_uint, blob_of. cbn [seq map le_val]. unfold byte_at, u8.
  change 0xFF with (Z.ones 8). rewrite !Z.land_ones by lia.
  change (8 * Z.of_nat 0) with 0. change (8 * Z.of_nat 1) with 8.
  rewrite Z.shiftr_0_r, Z.shiftl_0_l, Z.lor_0_r.
  bits.
Qed.

Lemma read_view_payload (b : efuse_bits) :
  cur_serial (read_view b)
    ++ payload_tail (cur_hw_rev (read_view b)) (cur_flags (read_view b))
  = stored_payload b.
Proof.
  unfold read_view, stored_payload. cbn [cur_serial cur_hw_rev cur_flags].
  rewrite payload_tail_blob, !blob_as_uint, !little_endian_blob. reflexivity.
Qed.

Lemma crc_matches_iff (b : efuse_bits) :
  crc_matches (read_view b) = true
  <-> stored_crc b <> 0
      /\ stored_crc b = crc16_ccitt_false_model (stored_payload b).
Proof.
  unfold crc_matches. rewrite read_view_payload, crc16_ccitt_false_refines.
  unfold read_view, stored_crc. cbn [cur_crc16]. rewrite as_uint_blob2.
  unfold nonzero. rewrite andb_true_iff, negb_true_iff, Z.eqb_neq, Z.eqb_eq.
  reflexivity.
Qed.

(** *** The desired payload *)

Lemma strlen_le (s : string) : (strlen s <= String.length s)%nat.
Proof.
  induction s as [|c s IH]; cbn [strlen String.length]; [lia|].
  destruct (byte_of_ascii c =? 0); lia.
Qed.

Lemma bytes_of_string_length (s : string) :
  List.length (bytes_of_string s) = String.length s.
Proof.
  unfold bytes_of_string. rewrite length_map.
  induction s as [|c s IH];
    cbn [list_ascii_of_string List.length String.length]; congruence.
Qed.

Lemma desired_serial_length (s : string) :
  let n := if (16 <? strlen s)%nat then 16%nat else strlen s in
  List.length (firstn n (bytes_of_string s) ++ repeat 0 (16 - n)%nat) = 16%nat.
Proof.
  cbv zeta. pose proof (strlen_le s) as L.
  rewrite length_app, repeat_length.
  destruct (Nat.ltb_spec 16 (strlen s));
    rewrite firstn_length_le by (rewrite bytes_of_string_length; lia); lia.
Qed.

(** After the 16 bytes of the serial come [hw_rev] and [flags], least
    significant byte first: 22 bytes in all. *)
Lemma desired_payload_layout (s : string) (h fl : Z) :
  List.length (firstn 16 (desired_payload s h fl)) = 16%nat
  /\ skipn 16 (desired_payload s h fl) = little_endian 2 h ++ little_endian 4 fl
  /\ List.length (desired_payload s h fl) = 22%nat.
Proof.
  pose proof (desired_serial_length s) as L. cbv zeta in L.
  unfold desired_payload. cbv zeta. rewrite app_assoc.
  set (serial16 := firstn _ (bytes_of_string s) ++ repeat 0 _) in *.
  rewrite payload_tail_blob, !little_endian_blob.
  splits.
  - rewrite firstn_app, L, Nat.sub_diag, firstn_O, app_nil_r.
    rewrite <- L at 1. rewrite firstn_all. exact L.
  - rewrite skipn_app, L, Nat.sub_diag. rewrite <- L at 1.
    rewrite skipn_all. reflexivity.
  - rewrite !length_app, L. reflexivity.
Qed.

(** The desired bytes of the fields, in the specification's words. *)
Lemma desired_bytes_layout (s : string) (h fl : Z) :
  desired_bytes s h fl USER_DATA_HW_REV = little_endian 2 h
  /\ desired_bytes s h fl USER_DATA_FEATURE_FLAGS = little_endian 4 fl
  /\ desired_bytes s h fl USER_DATA_PROVISIONING_CRC16
     = little_endian 2 (crc16_ccitt_false_model
                          (desired_bytes s h fl USER_DATA_SERIAL_NUMBER
                           ++ little_endian 2 h ++ little_endian 4 fl)).
Proof.
  destruct (desired_payload_layout s h fl) as (_ & T & _).
  unfold desired_bytes. splits.
  - rewrite T. reflexivity.
  - replace 18%nat with (2 + 16)%nat by reflexivity.
    rewrite <- skipn_skipn, T. reflexivity.
  - rewrite <- T, firstn_skipn, crc16_ccitt_false_refines. reflexivity.
Qed.

(** *** Running the code when the driver reports no failure *)

Lemma read_field_eq (f : efuse_field) (bits : Z) (hw : efuse_hw) :
  (field_bits f <? bits) = false ->
  esp_efuse_read_field_blob f bits hw
  = let e := hd ESP_OK (faults hw) in
    let n := Z.to_nat (bits / 8) in
    ((e, if nonzero e then repeat 0 n else blob_of n (get_field f (burned hw))),
     mk_hw (burned hw) (staged hw) (in_batch hw) (tl (faults hw))
           (oplog hw ++ [OpRead f e])).
Proof.
  intros Hb.
  unfold esp_efuse_read_field_blob, bind, next_result, record_op, ret.
  cbn [burned staged in_batch faults oplog]. rewrite Hb.
  destruct (nonzero (hd ESP_OK (faults hw))) eqn:E; cbn; [reflexivity|].
  unfold nonzero in E. apply negb_false_iff, Z.eqb_eq in E. rewrite E.
  reflexivity.
Qed.

Lemma is_provisioned_no_fault (hw : efuse_hw) :
  faults hw = [] ->
  efuse_is_provisioned hw
  = ((crc_matches (read_view (burned hw)), crc_matches (read_view (burned hw))),
     logged reads_ok hw).
Proof.
  destruct hw as [b s ib fs log]. cbn [faults]. intros ->.
  unfold efuse_is_provisioned, bind.
  repeat (rewrite read_field_eq by reflexivity;
          cbn [fst snd hd tl faults burned staged in_batch oplog nonzero
               Z.eqb negb ESP_OK]).
  unfold ret, logged, reads_ok, crc_matches, read_view.
  cbn [burned staged in_batch faults oplog all_fields map get_field
       cur_serial cur_hw_rev cur_flags cur_crc16].
  rewrite <- !app_assoc. reflexivity.
Qed.

(** *** Case analysis of a run, whatever the driver reports *)

Lemma nonzero_false (e : Z) : nonzero e = false -> e = 0.
Proof.
  unfold nonzero. intros H. apply negb_false_iff, Z.eqb_eq in H. exact H.
Qed.

Lemma nonzero_true (e : Z) : nonzero e = true <-> e <> 0.
Proof. unfold nonzero. rewrite negb_true_iff, Z.eqb_neq. reflexivity. Qed.

Lemma quiet_trans (a b c : efuse_hw) (o1 o2 : list efuse_op) :
  quiet a b o1 -> quiet b c o2 -> quiet a c (o1 ++ o2).
Proof.
  intros [B1 S1 I1 F1 L1 R1] [B2 S2 I2 F2 L2 R2]. constructor.
  - congruence.
  - congruence.
  - congruence.
  - auto.
  - rewrite L2, L1. symmetry. apply app_assoc.
  - rewrite forallb_app, R1, R2. reflexivity.
Qed.

Lemma read_field_quiet (f : efuse_field) (bits : Z) (hw : efuse_hw) :
  (field_bits f <? bits) = false ->
  quiet hw (snd (esp_efuse_read_field_blob f bits hw))
        [OpRead f (hd ESP_OK (faults hw))].
Proof.
  intros Hb. rewrite read_field_eq by exact Hb. cbn [snd].
  constructor; cbn [burned staged in_batch faults oplog]; try reflexivity.
  intros ->. reflexivity.
Qed.

Lemma read_field_fst (f : efuse_field) (bits : Z) (hw : efuse_hw) :
  (field_bits f <? bits) = false ->
  fst (esp_efuse_read_field_blob f bits hw)
  = (hd ESP_OK (faults hw),
     if nonzero (hd ESP_OK (faults hw)) then repeat 0 (Z.to_nat (bits / 8))
     else blob_of (Z.to_nat (bits / 8)) (get_field f (burned hw))).
Proof. intros Hb. rewrite read_field_eq by exact Hb. reflexivity. Qed.

Lemma fault_pending (hw : efuse_hw) :
  nonzero (hd ESP_OK (faults hw)) = true -> faults hw <> [].
Proof. intros H E. rewrite E in H. discriminate H. Qed.

(** One read inside a chain of reads: name its result and the state it
    leaves. *)
Ltac read_step hw e blob hw' Q V :=
  let R := fresh "R" in
  match goal with
  | |- context [esp_efuse_read_field_blob ?f ?bits hw] =>
      pose proof (read_field_quiet f bits hw eq_refl) as Q;
      pose proof (read_field_fst f bits hw eq_refl) as V;
      destruct (esp_efuse_read_field_blob f bits hw) as [[e blob] hw'] eqn:R;
      cbn [fst snd] in Q, V |- *;
      injection V as -> V
  end.

(** Split on the condition of the [if] at the head of the run. *)
Ltac case_if E :=
  match goal with
  | |- context [if ?c then _ else _] => destruct c eqn:E
  end.

Lemma is_provisioned_cases (hw : efuse_hw) :
  exists ok hw' ops,
    efuse_is_provisioned hw = ((ok, ok), hw')
    /\ quiet hw hw' ops
    /\ (ok = true -> crc_matches (read_view (burned hw)) = true).
Proof.
  unfold efuse_is_provisioned, bind, ret.
  read_step hw e1 b1 hw1 Q1 V1.
  case_if E1.
  { do 3 eexists. split; [reflexivity|]. split; [exact Q1|]. discriminate. }
  read_step hw1 e2 b2 hw2 Q2 V2.
  case_if E2.
  { do 3 eexists. split; [reflexivity|].
    split; [exact (quiet_trans _ _ _ _ _ Q1 Q2)|]. discriminate. }
  read_step hw2 e3 b3 hw3 Q3 V3.
  case_if E3.
  { do 3 eexists. split; [reflexivity|].
    split; [exact (quiet_trans _ _ _ _ _ (quiet_trans _ _ _ _ _ Q1 Q2) Q3)|].
    discriminate. }
  read_step hw3 e4 b4 hw4 Q4 V4.
  case_if E4.
  { do 3 eexists. split; [reflexivity|].
    split;
      [exact (quiet_trans _ _ _ _ _
                (quiet_trans _ _ _ _ _ (quiet_trans _ _ _ _ _ Q1 Q2) Q3) Q4)|].
    discriminate. }
  do 3 eexists. split; [reflexivity|].
  split;
    [exact (quiet_trans _ _ _ _ _
              (quiet_trans _ _ _ _ _ (quiet_trans _ _ _ _ _ Q1 Q2) Q3) Q4)|].
  subst b1 b2 b3 b4.
  rewrite ?(quiet_burned _ _ _ Q3), ?(quiet_burned _ _ _ Q2),
    ?(quiet_burned _ _ _ Q1).
  intros H. exact H.
Qed.

Lemma read_current_cases (hw : efuse_hw) :
  exists e c hw' ops,
    read_current_fields hw = ((e, c), hw')
    /\ quiet hw hw' ops
    /\ (nonzero e = true -> faults hw <> [])
    /\ (nonzero e = false -> c = read_view (burned hw)).
Proof.
  unfold read_current_fields, bind, ret.
  read_step hw e1 b1 hw1 Q1 V1.
  case_if E1.
  { do 4 eexists. split; [reflexivity|]. split; [exact Q1|].
    split; [intros _; exact (fault_pending _ E1) | congruence]. }
  read_step hw1 e2 b2 hw2 Q2 V2.
  case_if E2.
  { do 4 eexists. split; [reflexivity|].
    split; [exact (quiet_trans _ _ _ _ _ Q1 Q2)|].
    split; [|congruence].
    intros _ F. apply (fault_pending _ E2). exact (quiet_faults _ _ _ Q1 F). }
  read_step hw2 e3 b3 hw3 Q3 V3.
  case_if E3.
  { do 4 eexists. split; [reflexivity|].
    split; [exact (quiet_trans _ _ _ _ _ (quiet_trans _ _ _ _ _ Q1 Q2) Q3)|].
    split; [|congruence].
    intros _ F. apply (fault_pending _ E3).
    exact (quiet_faults _ _ _ Q2 (quiet_faults _ _ _ Q1 F)). }
  read_step hw3 e4 b4 hw4 Q4 V4.
  case_if E4.
  { do 4 eexists. split; [reflexivity|].
    split;
      [exact (quiet_trans _ _ _ _ _
                (quiet_trans _ _ _ _ _ (quiet_trans _ _ _ _ _ Q1 Q2) Q3) Q4)|].
    split; [|congruence].
    intros _ F. apply (fault_pending _ E4).
    exact (quiet_faults _ _ _ Q3
             (quiet_faults _ _ _ Q2 (quiet_faults _ _ _ Q1 F))). }
  do 4 eexists. split; [reflexivity|].
  split;
    [exact (quiet_trans _ _ _ _ _
              (quiet_trans _ _ _ _ _ (quiet_trans _ _ _ _ _ Q1 Q2) Q3) Q4)|].
  split; [discriminate|]. intros _.
  subst b1 b2 b3 b4.
  rewrite ?(quiet_burned _ _ _ Q3), ?(quiet_burned _ _ _ Q2),
    ?(quiet_burned _ _ _ Q1).
  reflexivity.
Qed.

Lemma begin_eq (hw : efuse_hw) :
  esp_efuse_batch_write_begin hw
  = let e := hd ESP_OK (faults hw) in
    if nonzero e
    then (e, mk_hw (burned hw) (staged hw) (in_batch hw) (tl (faults hw))
                   (oplog hw ++ [OpBatchBegin e]))
    else (ESP_OK, mk_hw (burned hw) no_bits true (tl (faults hw))
                        (oplog hw ++ [OpBatchBegin ESP_OK])).
Proof.
  unfold esp_efuse_batch_write_begin, bind, next_result, record_op, ret.
  cbn zeta. destruct (nonzero (hd ESP_OK (faults hw))); reflexivity.
Qed.

Lemma commit_eq (hw : efuse_hw) :
  in_batch hw = true ->
  esp_efuse_batch_write_commit hw
  = let e := hd ESP_OK (faults hw) in
    if nonzero e
    then (e, mk_hw (burned hw) no_bits false (tl (faults hw))
                   (oplog hw ++ [OpBatchCommit e]))
    else (ESP_OK, mk_hw (or_bits (burned hw) (staged hw)) no_bits false
                        (tl (faults hw)) (oplog hw ++ [OpBatchCommit ESP_OK])).
Proof.
  intros Hb. unfold esp_efuse_batch_write_commit, next_result.
  rewrite Hb. cbn zeta. reflexivity.
Qed.

Lemma stage_eq (need : bool) (f : efuse_field) (delta : list Z) (bits : Z)
  (k : M esp_err_t) (hw : efuse_hw) :
  (field_bits f <? bits) = false ->
  in_batch hw = true ->
  stage need f delta bits k hw
  = if need then
      let e := hd ESP_OK (faults hw) in
      let v := le_val (firstn (Z.to_nat (bits / 8)) delta) in
      if nonzero e
      then (e, mk_hw (burned hw) no_bits false (tl (faults hw))
                     (oplog hw ++ [OpWrite f delta e; OpBatchCancel ESP_OK]))
      else if nonzero (Z.land (get_field f (burned hw)) v)
      then (ESP_ERR_EFUSE_REPEATED_PROG,
            mk_hw (burned hw) no_bits false (tl (faults hw))
                  (oplog hw ++ [OpWrite f delta ESP_ERR_EFUSE_REPEATED_PROG;
                                OpBatchCancel ESP_OK]))
      else k (mk_hw (burned hw) (or_field f v (staged hw)) true
                    (tl (faults hw)) (oplog hw ++ [OpWrite f delta ESP_OK]))
    else k hw.
Proof.
  intros Hs Hb. unfold stage. destruct need; [|reflexivity].
  destruct hw as [b st ib fs log]. cbn [in_batch] in Hb. subst ib.
  unfold esp_efuse_write_field_blob, esp_efuse_batch_write_cancel.
  unfold bind, next_result, record_op, ret.
  cbn [burned staged in_batch faults oplog].
  destruct (nonzero (hd ESP_OK fs)) eqn:E;
    cbn [burned staged in_batch faults oplog]; rewrite ?E;
    cbn [burned staged in_batch faults oplog].
  - rewrite <- app_assoc. reflexivity.
  - rewrite Hs. cbn [burned staged in_batch faults oplog].
    destruct (nonzero (Z.land _ _)) eqn:R;
      cbn [burned staged in_batch faults oplog nonzero Z.eqb negb
           ESP_ERR_EFUSE_REPEATED_PROG ESP_OK];
      [rewrite <- app_assoc|]; reflexivity.
Qed.

Lemma ok_writes_cons (it : work_item) (items : list work_item) :
  ok_writes (it :: items)
  = if w_need it
    then OpWrite (w_field it) (w_delta it) ESP_OK :: ok_writes items
    else ok_writes items.
Proof.
  unfold ok_writes, needed. cbn [filter]. destruct (w_need it); reflexivity.
Qed.

Lemma stage_value_cons (it : work_item) (items : list work_item)
  (st : efuse_bits) :
  stage_value (it :: items) st
  = if w_need it
    then stage_value items (or_field (w_field it) (item_value it) st)
    else stage_value items st.
Proof.
  unfold stage_value, needed. cbn [filter]. destruct (w_need it); reflexivity.
Qed.

(** The chain of [if (need_x)] blocks either stops at a write that failed,
    with the batch cancelled, or reaches what follows with every needed
    delta staged. *)
Lemma stage_all_cases (items : list work_item) (k : M esp_err_t)
  (hw : efuse_hw) :
  in_batch hw = true ->
  sizes_ok items ->
  (exists pre it post e hw',
      items = pre ++ it :: post /\ w_need it = true /\ nonzero e = true
      /\ (faults hw <> []
          \/ nonzero (Z.land (get_field (w_field it) (burned hw))
                             (item_value it)) = true)
      /\ stage_all items k hw = (e, hw')
      /\ burned hw' = burned hw /\ staged hw' = no_bits
      /\ in_batch hw' = false
      /\ oplog hw' = oplog hw ++ ok_writes pre
                       ++ [OpWrite (w_field it) (w_delta it) e;
                           OpBatchCancel ESP_OK])
  \/ (exists hw1,
         stage_all items k hw = k hw1
         /\ burned hw1 = burned hw
         /\ staged hw1 = stage_value items (staged hw)
         /\ in_batch hw1 = true
         /\ oplog hw1 = oplog hw ++ ok_writes items
         /\ (faults hw = [] -> faults hw1 = [])).
Proof.
  revert hw. induction items as [|it rest IH]; intros hw Hb Hs.
  - right. exists hw. cbn. rewrite app_nil_r. splits; auto.
  - inversion Hs as [|? ? Hit Hrest]; subst.
    cbn [stage_all]. rewrite stage_eq by assumption.
    rewrite ok_writes_cons, stage_value_cons.
    destruct (w_need it) eqn:N.
    + cbn zeta. destruct (nonzero (hd ESP_OK (faults hw))) eqn:E.
      { left. exists [], it, rest, (hd ESP_OK (faults hw)). eexists.
        splits; try first [reflexivity | assumption].
        left. exact (fault_pending _ E). }
      destruct (nonzero (Z.land _ _)) eqn:R.
      { left. exists [], it, rest, ESP_ERR_EFUSE_REPEATED_PROG. eexists.
        splits; try first [reflexivity | assumption].
        right. exact R. }
      match goal with
      | |- context [stage_all rest k ?h] => destruct (IH h eq_refl Hrest)
          as [(pre & it' & post & e & hw' & I & N' & Ne & W & Ek & B & S & Ib & L)
             |(hw1 & Ek & B & S & Ib & L & F)]
      end.
      * left. exists (it :: pre), it', post, e, hw'.
        rewrite ok_writes_cons, N.
        splits; try assumption.
        -- rewrite I. reflexivity.
        -- destruct W as [W|W]; [left | right; exact W].
           intros F0. apply W. cbn [faults]. rewrite F0. reflexivity.
        -- rewrite L. cbn [oplog]. rewrite <- app_assoc. reflexivity.
      * right. exists hw1.
        splits; try assumption.
        -- rewrite L. cbn [oplog]. rewrite <- app_assoc. reflexivity.
        -- intros F0. apply F. cbn [faults]. rewrite F0. reflexivity.
    + destruct (IH hw Hb Hrest)
        as [(pre & it' & post & e & hw' & I & N' & Ne & W & Ek & B & S & Ib & L)
           |(hw1 & Ek & B & S & Ib & L & F)].
      * left. exists (it :: pre), it', post, e, hw'.
        rewrite ok_writes_cons, N.
        splits; try assumption. rewrite I. reflexivity.
      * right. exists hw1. splits; assumption.
Qed.

Lemma batch_items_sizes ns nh nf nc ds dh df dc :
  sizes_ok (batch_items ns nh nf nc ds dh df dc).
Proof. repeat constructor. Qed.

Lemma stage_and_commit_unfold ns nh nf nc ds dh df dc :
  stage_and_commit ns nh nf nc ds dh df dc
  = bind esp_efuse_batch_write_begin
      (fun err =>
         if nonzero err then ret err
         else stage_all (batch_items ns nh nf nc ds dh df dc)
                (bind esp_efuse_batch_write_commit
                   (fun err => if nonzero err then ret err else ret ESP_OK))).
Proof. reflexivity. Qed.

Lemma stage_and_commit_cases ns nh nf nc ds dh df dc (hw : efuse_hw) :
  exists e hw',
    stage_and_commit ns nh nf nc ds dh df dc hw = (e, hw')
    /\ batch_result (batch_items ns nh nf nc ds dh df dc) hw e hw'.
Proof.
  rewrite stage_and_commit_unfold. unfold bind at 1. rewrite begin_eq.
  cbn zeta. destruct (nonzero (hd ESP_OK (faults hw))) eqn:E; rewrite ?E.
  { do 2 eexists. split; [reflexivity|].
    apply batch_begin_failed;
      [exact E | exact (fault_pending _ E) | reflexivity | reflexivity]. }
  change (nonzero ESP_OK) with false. cbv iota.
  match goal with
  | |- context [stage_all ?items ?k ?h] =>
      destruct (stage_all_cases items k h eq_refl
                  (batch_items_sizes ns nh nf nc ds dh df dc))
        as [(pre & it & post & e & hw' & I & N & Ne & W & Ek & B & S & Ib & L)
           |(hw1 & Ek & B & S & Ib & L & F)]
  end.
  - cbn [burned staged in_batch faults oplog] in *.
    exists e, hw'. split; [exact Ek|].
    eapply batch_write_failed; try eassumption.
    { destruct W as [W|W]; [left | right; exact W].
      intros F0. apply W. rewrite F0. reflexivity. }
    rewrite L. rewrite <- app_assoc. reflexivity.
  - cbn [burned staged in_batch faults oplog] in *.
    rewrite Ek. unfold bind. rewrite commit_eq by exact Ib. cbn zeta.
    destruct (nonzero (hd ESP_OK (faults hw1))) eqn:E1; rewrite ?E1.
    + do 2 eexists. split; [reflexivity|].
      apply batch_commit_failed; [exact E1 | | exact B |].
      { intros F0. apply (fault_pending _ E1), F. rewrite F0. reflexivity. }
      cbn [oplog]. rewrite L, <- !app_assoc. reflexivity.
    + change (nonzero ESP_OK) with false. cbv iota.
      do 2 eexists. split; [reflexivity|].
      apply batch_committed.
      * cbn [burned]. rewrite B, S. reflexivity.
      * cbn [oplog]. rewrite L, <- !app_assoc. reflexivity.
Qed.

Lemma l_items_batch (s : string) (h fl : Z) (c : cur_fields) :
  l_items s h fl c
  = let d := desired_payload s h fl in
    let dc := le_bytes2 (crc16_ccitt_false d) in
    let ds := delta_loop 16 (cur_serial c) d 0 in
    let dh := delta_loop 2 (le_bytes2 (cur_hw_rev c)) d 16 in
    let df := delta_loop 4 (le_bytes4 (cur_flags c)) d 18 in
    let dk := delta_loop 2 (le_bytes2 (cur_crc16 c)) dc 0 in
    batch_items (need_loop ds) (need_loop dh) (need_loop df) (need_loop dk)
                ds dh df dk.
Proof. reflexivity. Qed.

Lemma needed_batch_items ns nh nf nc ds dh df dc :
  needed (batch_items ns nh nf nc ds dh df dc) = []
  <-> negb ns && negb nh && negb nf && negb nc = true.
Proof.
  unfold needed, batch_items. cbn [filter w_need].
  destruct ns, nh, nf, nc; cbn; split; intros H; try reflexivity;
    discriminate H.
Qed.

Lemma program_cases (s : string) (h fl : Z) (hw : efuse_hw) :
  exists e hw',
    efuse_program_custom_fields (Some s) h fl hw = (e, hw')
    /\ program_result s h fl hw e hw'.
Proof.
  unfold efuse_program_custom_fields. unfold bind at 1.
  destruct (is_provisioned_cases hw) as (ok & hw1 & ops1 & E1 & Q1 & P1).
  rewrite E1. cbn [fst snd]. destruct ok; cbn [andb].
  { exists ESP_OK, hw1. split; [reflexivity|].
    eapply program_skipped; [exact Q1 | exact (P1 eq_refl)]. }
  assert (NP : faults hw = [] -> crc_matches (read_view (burned hw)) = false).
  { intros F. rewrite (is_provisioned_no_fault hw F) in E1. congruence. }
  unfold bind at 1.
  destruct (read_current_cases hw1) as (e & c & hw2 & ops2 & E2 & Q2 & F2 & V2).
  rewrite E2. cbn [fst snd].
  pose proof (quiet_trans _ _ _ _ _ Q1 Q2) as Q.
  destruct (nonzero e) eqn:Ne.
  { exists e, hw2. split; [reflexivity|].
    eapply program_read_failed; [exact Q | exact Ne |].
    intros F. apply (F2 eq_refl). exact (quiet_faults _ _ _ Q1 F). }
  specialize (V2 eq_refl). rewrite (quiet_burned _ _ _ Q1) in V2. subst c.
  destruct (l_conflict s h fl (read_view (burned hw))) eqn:LC.
  { exists ESP_ERR_INVALID_STATE, hw2. split.
    - unfold l_conflict, l_desired_crc_le, l_desired in LC.
      do 4 (let X := fresh "X" in case_if X; [reflexivity|]).
      discriminate LC.
    - eapply program_conflict; [exact Q | exact NP | exact LC]. }
  unfold l_conflict, l_desired_crc_le, l_desired in LC.
  apply orb_false_iff in LC. destruct LC as [LC L4].
  apply orb_false_iff in LC. destruct LC as [LC L3].
  apply orb_false_iff in LC. destruct LC as [L1 L2].
  rewrite L1, L2, L3, L4.
  assert (LC : l_conflict s h fl (read_view (burned hw)) = false).
  { unfold l_conflict, l_desired_crc_le, l_desired. rewrite L1, L2, L3, L4.
    reflexivity. }
  pose proof (l_items_batch s h fl (read_view (burned hw))) as LI.
  cbv zeta in LI.
  case_if Hn.
  { exists ESP_OK, hw2. split; [reflexivity|].
    eapply program_nothing_new; [exact Q | exact NP | exact LC |].
    rewrite LI. apply needed_batch_items. exact Hn. }
  match goal with
  | |- context [stage_and_commit ?a ?b ?c ?d ?x ?y ?z ?t hw2] =>
      destruct (stage_and_commit_cases a b c d x y z t hw2)
        as (e' & hw' & E3 & B3)
  end.
  exists e', hw'. split; [exact E3|].
  eapply program_batch;
    [exact Q | exact NP | exact LC | | rewrite LI; exact B3].
  rewrite LI. intros H. apply needed_batch_items in H.
  rewrite H in Hn. discriminate Hn.
Qed.

(** *** The loops of the code against conflict and delta bytes *)

Lemma in_byte_range_mod (x : Z) : 0 <= x < 256 -> x mod 2 ^ 8 = x.
Proof. intros H. apply Z.mod_small. lia. Qed.

Lemma conflict_exists_ldiff (c d : Z) :
  0 <= c < 256 -> EFUSE_CONFLICT_EXISTS c d = nonzero (Z.ldiff c d).
Proof.
  intros Hc. unfold EFUSE_CONFLICT_EXISTS, u8. f_equal.
  rewrite <- (in_byte_range_mod c Hc). bits.
Qed.

Lemma delta_byte_ldiff (c d : Z) :
  0 <= d < 256 -> u8 (Z.land d (u8 (Z.lnot c))) = Z.ldiff d c.
Proof.
  intros Hd. unfold u8. rewrite <- (in_byte_range_mod d Hd). bits.
Qed.

Lemma existsb_ext_in {A} (f g : A -> bool) (l : list A) :
  (forall x, In x l -> f x = g x) -> existsb f l = existsb g l.
Proof.
  induction l as [|a l IH]; intros H; [reflexivity|]. cbn [existsb].
  rewrite (H a (or_introl eq_refl)), IH; [reflexivity|].
  intros x Hx. apply H. right. exact Hx.
Qed.

Lemma need_loop_all_zero (l : list Z) : need_loop l = negb (all_zero l).
Proof.
  unfold need_loop, all_zero.
  assert (G : forall acc,
             fold_left (fun need d => need || nonzero d) l acc
             = acc || negb (forallb (Z.eqb 0) l)).
  { induction l as [|d l IH]; intros acc; cbn [fold_left forallb].
    - rewrite orb_false_r. reflexivity.
    - rewrite IH. unfold nonzero. rewrite (Z.eqb_sym 0 d).
      destruct acc, (d =? 0), (forallb (Z.eqb 0) l); reflexivity. }
  apply G.
Qed.

Lemma Forall_prefix {A} (P : A -> Prop) (n : nat) (l : list A) :
  Forall P l -> Forall P (firstn n l).
Proof.
  revert l. induction n as [|n IH]; intros l H; [constructor|].
  destruct H as [|x l Hx Hl]; cbn [firstn]; constructor; auto.
Qed.

Lemma byte_of_ascii_range (c : ascii) : 0 <= byte_of_ascii c < 256.
Proof.
  unfold byte_of_ascii. pose proof (N_ascii_bounded c). lia.
Qed.

Lemma desired_payload_range (s : string) (h fl : Z) (k : nat) :
  0 <= nth k (desired_payload s h fl) 0 < 256.
Proof.
  assert (F : Forall (fun x => 0 <= x < 256) (desired_payload s h fl)).
  { unfold desired_payload. cbv zeta.
    apply Forall_app. split; [|apply Forall_app; split].
    - apply Forall_prefix. unfold bytes_of_string. apply Forall_map.
      apply Forall_forall. intros c _. apply byte_of_ascii_range.
    - apply Forall_forall. intros x Hx. apply repeat_spec in Hx. lia.
    - unfold payload_tail.
      repeat (apply Forall_cons; [apply u8_range|]). apply Forall_nil. }
  destruct (Nat.lt_ge_cases k (List.length (desired_payload s h fl))) as [L|L].
  - exact (proj1 (Forall_nth _ _) F k 0 L).
  - rewrite nth_overflow by exact L. lia.
Qed.

Lemma le_bytes2_range (v : Z) (k : nat) : 0 <= nth k (le_bytes2 v) 0 < 256.
Proof.
  unfold le_bytes2.
  destruct k as [|[|[|k]]]; cbn [nth]; try apply u8_range; lia.
Qed.

Lemma cur_list_view (f : efuse_field) (b : efuse_bits) :
  cur_list f (read_view b) = blob_of (field_bytes f) (get_field f b).
Proof.
  destruct f; cbn [cur_list read_view cur_serial cur_hw_rev cur_flags
                   cur_crc16 field_bytes get_field];
    rewrite ?le_bytes2_blob, ?le_bytes4_blob, ?blob_as_uint; reflexivity.
Qed.

Lemma nth_cur_list (f : efuse_field) (b : efuse_bits) (i : nat) :
  (i < field_bytes f)%nat ->
  nth i (cur_list f (read_view b)) 0 = current_byte b f i.
Proof. intros H. rewrite cur_list_view. apply nth_blob_of. exact H. Qed.

Lemma nth_desired_list (s : string) (h fl : Z) (f : efuse_field) (i : nat) :
  (i < field_bytes f)%nat ->
  nth (desired_off f + i) (desired_list s h fl f) 0 = desired_byte s h fl f i.
Proof.
  intros H. unfold desired_byte, desired_bytes.
  destruct f; cbn [desired_list desired_off field_bytes] in *.
  - rewrite nth_firstn. apply Nat.ltb_lt in H. rewrite H. reflexivity.
  - rewrite nth_firstn, nth_skipn. apply Nat.ltb_lt in H. rewrite H.
    reflexivity.
  - rewrite nth_firstn, nth_skipn. apply Nat.ltb_lt in H. rewrite H.
    reflexivity.
  - rewrite little_endian_blob, le_bytes2_blob. reflexivity.
Qed.

Lemma desired_list_range (s : string) (h fl : Z) (f : efuse_field) (k : nat) :
  0 <= nth k (desired_list s h fl f) 0 < 256.
Proof.
  destruct f; cbn [desired_list];
    first [apply desired_payload_range | apply le_bytes2_range].
Qed.

Lemma desired_byte_range (s : string) (h fl : Z) (f : efuse_field) (i : nat) :
  (i < field_bytes f)%nat -> 0 <= desired_byte s h fl f i < 256.
Proof.
  intros H. rewrite <- nth_desired_list by exact H. apply desired_list_range.
Qed.

Lemma conflict_loop_spec (b : efuse_bits) (s : string) (h fl : Z)
  (f : efuse_field) :
  conflict_loop (field_bytes f) (cur_list f (read_view b))
                (desired_list s h fl f) (desired_off f)
  = existsb (fun i => nonzero (conflict_byte b s h fl f i))
            (seq 0 (field_bytes f)).
Proof.
  unfold conflict_loop. apply existsb_ext_in. intros i Hi.
  apply in_seq in Hi. unfold conflict_byte.
  rewrite nth_cur_list, nth_desired_list by lia.
  apply conflict_exists_ldiff, byte_at_range.
Qed.

Lemma delta_loop_spec (b : efuse_bits) (s : string) (h fl : Z)
  (f : efuse_field) :
  delta_loop (field_bytes f) (cur_list f (read_view b))
             (desired_list s h fl f) (desired_off f)
  = field_delta b s h fl f.
Proof.
  unfold delta_loop, field_delta. apply map_ext_in. intros i Hi.
  apply in_seq in Hi.
  rewrite nth_cur_list, nth_desired_list by lia.
  apply delta_byte_ldiff, desired_byte_range. lia.
Qed.

Lemma l_conflict_spec (b : efuse_bits) (s : string) (h fl : Z) :
  l_conflict s h fl (read_view b)
  = existsb (field_conflict b s h fl) all_fields.
Proof.
  unfold field_conflict, all_fields. cbn [existsb].
  rewrite <- !conflict_loop_spec, orb_false_r, !orb_assoc. reflexivity.
Qed.

Lemma l_items_spec (b : efuse_bits) (s : string) (h fl : Z) :
  l_items s h fl (read_view b) = map (spec_item b s h fl) all_fields.
Proof.
  unfold spec_item, all_fields. cbn [map].
  rewrite <- !delta_loop_spec, <- !need_loop_all_zero. reflexivity.
Qed.

(** *** What a committed batch leaves in the fields *)

Lemma get_field_or_bits (f : efuse_field) (a b : efuse_bits) :
  get_field f (or_bits a b) = Z.lor (get_field f a) (get_field f b).
Proof. destruct f; reflexivity. Qed.

Lemma all_zero_le_val (l : list Z) : all_zero l = true -> le_val l = 0.
Proof.
  unfold all_zero. induction l as [|d l IH]; cbn [forallb le_val]; intros H.
  - reflexivity.
  - apply andb_true_iff in H. destruct H as [Hd Hl].
    apply Z.eqb_eq in Hd. subst d. rewrite IH by exact Hl. reflexivity.
Qed.

Lemma field_delta_length b s h fl f :
  List.length (field_delta b s h fl f) = field_bytes f.
Proof. unfold field_delta. rewrite length_map, length_seq. reflexivity. Qed.

Lemma item_value_spec b s h fl f :
  item_value (spec_item b s h fl f) = le_val (field_delta b s h fl f).
Proof.
  unfold item_value, spec_item. cbn [w_bits w_delta].
  replace (Z.to_nat (8 * Z.of_nat (field_bytes f) / 8)) with (field_bytes f)
    by (destruct f; reflexivity).
  rewrite <- (field_delta_length b s h fl f) at 1.
  rewrite firstn_all. reflexivity.
Qed.

Lemma get_field_stage_value b s h fl f :
  get_field f (stage_value (map (spec_item b s h fl) all_fields) no_bits)
  = le_val (field_delta b s h fl f).
Proof.
  assert (G : get_field f (stage_value (map (spec_item b s h fl) all_fields)
                                       no_bits)
              = if negb (all_zero (field_delta b s h fl f))
                then item_value (spec_item b s h fl f) else 0).
  { unfold stage_value, needed, all_fields.
    cbn [map filter w_need spec_item].
    destruct f;
      destruct (all_zero (field_delta b s h fl USER_DATA_SERIAL_NUMBER)),
        (all_zero (field_delta b s h fl USER_DATA_HW_REV)),
        (all_zero (field_delta b s h fl USER_DATA_FEATURE_FLAGS)),
        (all_zero (field_delta b s h fl USER_DATA_PROVISIONING_CRC16));
      reflexivity. }
  rewrite G, item_value_spec.
  destruct (all_zero (field_delta b s h fl f)) eqn:E; cbn [negb].
  - symmetry. apply all_zero_le_val. exact E.
  - reflexivity.
Qed.

Lemma nth_field_delta b s h fl f (i : nat) :
  (i < field_bytes f)%nat ->
  nth i (field_delta b s h fl f) 0
  = Z.ldiff (desired_byte s h fl f i) (current_byte b f i).
Proof.
  intros H. unfold field_delta.
  rewrite (nth_indep _ 0
             (Z.ldiff (desired_byte s h fl f 0) (current_byte b f 0)))
    by (rewrite length_map, length_seq; exact H).
  rewrite (map_nth (fun i => Z.ldiff (desired_byte s h fl f i)
                                     (current_byte b f i))).
  rewrite seq_nth by exact H. reflexivity.
Qed.

Lemma lor_ldiff (c d : Z) : Z.lor c (Z.ldiff d c) = Z.lor c d.
Proof. bits. Qed.

Lemma u8_ldiff (c d : Z) : 0 <= d < 256 -> u8 (Z.ldiff d c) = Z.ldiff d c.
Proof.
  intros Hd. unfold u8. rewrite <- (in_byte_range_mod d Hd). bits.
Qed.

Lemma lor_no_conflict (c d : Z) : Z.ldiff c d = 0 -> Z.lor c d = d.
Proof.
  intros H. apply Z.bits_inj'. intros n Hn.
  apply (f_equal (fun x => Z.testbit x n)) in H.
  rewrite Z.ldiff_spec, Z.testbit_0_l in H. rewrite Z.lor_spec.
  destruct (Z.testbit c n), (Z.testbit d n); try reflexivity; discriminate H.
Qed.

Lemma committed_byte b s h fl f (i : nat) :
  (i < field_bytes f)%nat ->
  conflict_byte b s h fl f i = 0 ->
  current_byte
    (or_bits b (stage_value (map (spec_item b s h fl) all_fields) no_bits)) f i
  = desired_byte s h fl f i.
Proof.
  intros Hi Hc. unfold current_byte.
  rewrite get_field_or_bits, get_field_stage_value, byte_at_lor,
    byte_at_le_val, nth_field_delta by exact Hi.
  fold (current_byte b f i).
  rewrite u8_ldiff by (apply desired_byte_range; exact Hi).
  rewrite lor_ldiff. apply lor_no_conflict. exact Hc.
Qed.

Lemma existsb_false {A} (f : A -> bool) (l : list A) :
  existsb f l = false <-> (forall x, In x l -> f x = false).
Proof.
  induction l as [|a l IH]; cbn [existsb In].
  - split; [intros _ x []|reflexivity].
  - rewrite orb_false_iff, IH. split.
    + intros [Ha Hl] x [<-|Hx]; auto.
    + intros H. split; [apply H; left; reflexivity|].
      intros x Hx. apply H. right. exact Hx.
Qed.

Lemma all_fields_complete (f : efuse_field) : In f all_fields.
Proof. destruct f; cbn; tauto. Qed.

Lemma no_conflict_bytes b s h fl :
  l_conflict s h fl (read_view b) = false
  <-> (forall f i, (i < field_bytes f)%nat -> conflict_byte b s h fl f i = 0).
Proof.
  rewrite l_conflict_spec, existsb_false. split.
  - intros H f i Hi. specialize (H f (all_fields_complete f)).
    unfold field_conflict in H. rewrite existsb_false in H.
    apply nonzero_false, H, in_seq. lia.
  - intros H f _. unfold field_conflict. apply existsb_false.
    intros i Hi. apply in_seq in Hi. rewrite H by lia. reflexivity.
Qed.

Lemma needed_spec b s h fl :
  needed (map (spec_item b s h fl) all_fields) = []
  <-> (forall f, all_zero (field_delta b s h fl f) = true).
Proof.
  unfold needed, all_fields. cbn [map filter w_need spec_item]. split.
  - intros H f.
    destruct (all_zero (field_delta b s h fl USER_DATA_SERIAL_NUMBER)) eqn:E1,
      (all_zero (field_delta b s h fl USER_DATA_HW_REV)) eqn:E2,
      (all_zero (field_delta b s h fl USER_DATA_FEATURE_FLAGS)) eqn:E3,
      (all_zero (field_delta b s h fl USER_DATA_PROVISIONING_CRC16)) eqn:E4;
      cbn [negb] in H; try discriminate H.
    destruct f; assumption.
  - intros H. rewrite !H. reflexivity.
Qed.

Lemma settled_no_conflict b s h fl :
  settled b s h fl -> l_conflict s h fl (read_view b) = false.
Proof.
  intros H. apply no_conflict_bytes. intros f i Hi.
  unfold conflict_byte. rewrite (H f i Hi). apply Z.ldiff_diag.
Qed.

Lemma settled_nothing_needed b s h fl :
  settled b s h fl -> needed (l_items s h fl (read_view b)) = [].
Proof.
  intros H. rewrite l_items_spec. apply needed_spec. intros f.
  unfold all_zero. apply forallb_forall. intros x Hx.
  unfold field_delta in Hx. apply in_map_iff in Hx.
  destruct Hx as (i & <- & Hi). apply in_seq in Hi.
  rewrite (H f i) by lia. rewrite Z.ldiff_diag. reflexivity.
Qed.

Lemma nothing_needed_settled b s h fl :
  l_conflict s h fl (read_view b) = false ->
  needed (l_items s h fl (read_view b)) = [] ->
  settled b s h fl.
Proof.
  intros C N f i Hi.
  pose proof (proj1 (no_conflict_bytes b s h fl) C f i Hi) as Hc.
  rewrite l_items_spec in N.
  pose proof (proj1 (needed_spec b s h fl) N f) as Hz.
  unfold all_zero in Hz. rewrite forallb_forall in Hz.
  assert (Hd : Z.ldiff (desired_byte s h fl f i) (current_byte b f i) = 0).
  { rewrite <- nth_field_delta by exact Hi. symmetry. apply Z.eqb_eq, Hz.
    apply nth_In. rewrite field_delta_length. exact Hi. }
  unfold conflict_byte in Hc.
  rewrite <- (lor_no_conflict _ _ Hc). rewrite Z.lor_comm.
  symmetry. apply lor_no_conflict. exact Hd.
Qed.

Lemma committed_settled b s h fl :
  l_conflict s h fl (read_view b) = false ->
  settled (or_bits b (stage_value (l_items s h fl (read_view b)) no_bits))
          s h fl.
Proof.
  intros C f i Hi. rewrite l_items_spec. apply committed_byte; [exact Hi|].
  apply (proj1 (no_conflict_bytes b s h fl) C f i Hi).
Qed.

(** *** Monotone growth of the fields *)

Lemma no_bit_cleared_pointwise (a b : Z) :
  no_bit_cleared a b
  <-> (forall n, 0 <= n -> Z.testbit a n = true -> Z.testbit b n = true).
Proof.
  unfold no_bit_cleared. split.
  - intros H n Hn Ha.
    apply (f_equal (fun x => Z.testbit x n)) in H.
    rewrite Z.land_spec, Z.lnot_spec, Z.testbit_0_l, Ha in H by exact Hn.
    destruct (Z.testbit b n); [reflexivity | discriminate H].
  - intros H. apply Z.bits_inj'. intros n Hn.
    rewrite Z.land_spec, Z.lnot_spec, Z.testbit_0_l by exact Hn.
    destruct (Z.testbit a n) eqn:Ha; [|reflexivity].
    rewrite (H n Hn Ha). reflexivity.
Qed.

Lemma no_bit_cleared_refl (a : Z) : no_bit_cleared a a.
Proof. apply no_bit_cleared_pointwise. auto. Qed.

Lemma no_bit_cleared_trans (a b c : Z) :
  no_bit_cleared a b -> no_bit_cleared b c -> no_bit_cleared a c.
Proof. rewrite !no_bit_cleared_pointwise. auto. Qed.

Lemma no_bit_cleared_lor (a x : Z) : no_bit_cleared a (Z.lor a x).
Proof.
  apply no_bit_cleared_pointwise. intros n _ Ha.
  rewrite Z.lor_spec, Ha. reflexivity.
Qed.

(** The two ways the specification writes "no bit cleared" agree. *)
Lemma no_bit_cleared_xor (old new : Z) :
  no_bit_cleared old new <-> Z.land new (Z.lnot old) = Z.lxor new old.
Proof.
  rewrite no_bit_cleared_pointwise. split.
  - intros H. apply Z.bits_inj'. intros n Hn.
    rewrite Z.land_spec, Z.lnot_spec, Z.lxor_spec by exact Hn.
    destruct (Z.testbit old n) eqn:Ho; [rewrite (H n Hn Ho)|];
      destruct (Z.testbit new n); reflexivity.
  - intros H n Hn Ho.
    apply (f_equal (fun x => Z.testbit x n)) in H.
    rewrite Z.land_spec, Z.lnot_spec, Z.lxor_spec, Ho in H by exact Hn.
    destruct (Z.testbit new n); [reflexivity | discriminate H].
Qed.

Lemma testbit_byte_at (a : Z) (i : nat) (k : Z) :
  0 <= k ->
  Z.testbit (byte_at a i) k = (k <? 8) && Z.testbit a (k + 8 * Z.of_nat i).
Proof.
  intros Hk. unfold byte_at.
  rewrite land_ff, Z.testbit_mod_pow2, Z.shiftr_spec by lia. reflexivity.
Qed.

Lemma no_bit_cleared_bytes (old new : Z) (i : nat) :
  no_bit_cleared old new -> no_bit_cleared (byte_at old i) (byte_at new i).
Proof.
  rewrite !no_bit_cleared_pointwise. intros H k Hk.
  rewrite !testbit_byte_at by exact Hk.
  destruct (k <? 8); cbn [andb]; [|discriminate]. apply H. lia.
Qed.

Lemma batch_mono items hw e hw' (f : efuse_field) :
  batch_result items hw e hw' ->
  no_bit_cleared (get_field f (burned hw)) (get_field f (burned hw')).
Proof.
  intros [e0 h0 _ _ B _ | pre it post e0 h0 _ _ _ _ B _ _ _
         | e0 h0 _ _ B _ | h0 B _]; rewrite B.
  1-3: apply no_bit_cleared_refl.
  rewrite get_field_or_bits. apply no_bit_cleared_lor.
Qed.

Lemma program_mono serial h fl hw (f : efuse_field) :
  no_bit_cleared
    (get_field f (burned hw))
    (get_field f (burned (snd (efuse_program_custom_fields serial h fl hw)))).
Proof.
  destruct serial as [s|]; [|apply no_bit_cleared_refl].
  destruct (program_cases s h fl hw) as (e & hw' & E & R). rewrite E.
  cbn [snd].
  destruct R as [h0 ops Q _ | e0 h0 ops Q _ _ | h0 ops Q _ _
                | h0 ops Q _ _ _ | h1 ops e0 h0 Q _ _ _ B].
  1-4: rewrite (quiet_burned _ _ _ Q); apply no_bit_cleared_refl.
  rewrite <- (quiet_burned _ _ _ Q). exact (batch_mono _ _ _ _ f B).
Qed.

(** *** Reading the log *)

Lemma ops_between_app (hw hw' : efuse_hw) (ops : list efuse_op) :
  oplog hw' = oplog hw ++ ops -> ops_between hw hw' = ops.
Proof.
  intros H. unfold ops_between. rewrite H, skipn_app, skipn_all, Nat.sub_diag.
  reflexivity.
Qed.

Lemma reads_no_writes (ops : list efuse_op) :
  forallb is_read_op ops = true -> filter is_write_op ops = [].
Proof.
  induction ops as [|op ops IH]; cbn [forallb filter]; intros H.
  - reflexivity.
  - apply andb_true_iff in H. destruct H as [Hop Hops].
    destruct op; try discriminate Hop. cbn [is_write_op]. auto.
Qed.

(** *** Two calls in a row *)

Lemma first_call_outcome s h fl hw hw1 :
  efuse_program_custom_fields (Some s) h fl hw = (ESP_OK, hw1) ->
  crc_matches (read_view (burned hw1)) = true \/ settled (burned hw1) s h fl.
Proof.
  intros E. destruct (program_cases s h fl hw) as (e & hw' & E' & R).
  rewrite E in E'. injection E' as <- <-.
  inversion R as [h0 ops Q P | e0 h0 ops Q Ne _ | h0 ops Q _ _
                 | h0 ops Q _ C N | h1 ops e0 h0 Q _ C N B]; subst.
  - left. rewrite (quiet_burned _ _ _ Q). exact P.
  - discriminate Ne.
  - right. rewrite (quiet_burned _ _ _ Q).
    apply nothing_needed_settled; assumption.
  - right.
    inversion B as [e0 h0 Ne _ _ _ | pre it post e0 h0 _ _ Ne _ _ _ _ _
                   | e0 h0 Ne _ _ _ | h0 Bu _]; subst; try discriminate Ne.
    rewrite Bu, (quiet_burned _ _ _ Q). apply committed_settled. exact C.
Qed.

Lemma settled_call_quiet s h fl hw :
  faults hw = [] ->
  crc_matches (read_view (burned hw)) = true \/ settled (burned hw) s h fl ->
  exists hw' ops,
    efuse_program_custom_fields (Some s) h fl hw = (ESP_OK, hw')
    /\ quiet hw hw' ops.
Proof.
  intros F S. destruct (program_cases s h fl hw) as (e & hw' & E & R).
  rewrite E.
  inversion R as [h0 ops Q P | e0 h0 ops Q Ne NF | h0 ops Q NP C
                 | h0 ops Q NP C N | h1 ops e0 h0 Q NP C N B]; subst.
  - exists hw', ops. auto.
  - contradiction.
  - exfalso. specialize (NP F). destruct S as [S|S]; [congruence|].
    rewrite (settled_no_conflict _ _ _ _ S) in C. discriminate C.
  - exists hw', ops. auto.
  - exfalso. specialize (NP F). destruct S as [S|S]; [congruence|].
    apply N, settled_nothing_needed, S.
Qed.

(** *** A batch when the driver reports no failure *)

Lemma land_by_bytes (a b : Z) :
  (forall i, Z.land (byte_at a i) (byte_at b i) = 0) -> Z.land a b = 0.
Proof.
  intros H. apply Z.bits_inj'. intros n Hn.
  rewrite Z.land_spec, Z.testbit_0_l.
  specialize (H (Z.to_nat (n / 8))).
  apply (f_equal (fun x => Z.testbit x (n mod 8))) in H.
  pose proof (Z.mod_pos_bound n 8 ltac:(lia)) as Hm.
  rewrite Z.land_spec, Z.testbit_0_l, !testbit_byte_at in H by lia.
  replace (n mod 8 + 8 * Z.of_nat (Z.to_nat (n / 8))) with n in H.
  2:{ rewrite Z2Nat.id by (apply Z.div_pos; lia).
      pose proof (Z.div_mod n 8 ltac:(lia)). lia. }
  destruct (Z.ltb_spec (n mod 8) 8) as [_|]; [|lia].
  destruct (Z.testbit a n), (Z.testbit b n); try reflexivity; discriminate H.
Qed.

Lemma delta_disjoint b s h fl (f : efuse_field) :
  Z.land (get_field f b) (le_val (field_delta b s h fl f)) = 0.
Proof.
  apply land_by_bytes. intros i. rewrite byte_at_le_val.
  destruct (Nat.lt_ge_cases i (field_bytes f)) as [Hi|Hi].
  - rewrite nth_field_delta by exact Hi.
    rewrite u8_ldiff by (apply desired_byte_range; exact Hi).
    unfold current_byte. bits.
  - rewrite nth_overflow by (rewrite field_delta_length; exact Hi).
    apply Z.land_0_r.
Qed.

Lemma ok_writes_spec b s h fl :
  ok_writes (map (spec_item b s h fl) all_fields)
  = map (fun f => OpWrite f (field_delta b s h fl f) ESP_OK)
        (filter (fun f => negb (all_zero (field_delta b s h fl f))) all_fields).
Proof.
  unfold ok_writes, needed, all_fields. cbn [map filter w_need spec_item].
  destruct (all_zero (field_delta b s h fl USER_DATA_SERIAL_NUMBER)),
    (all_zero (field_delta b s h fl USER_DATA_HW_REV)),
    (all_zero (field_delta b s h fl USER_DATA_FEATURE_FLAGS)),
    (all_zero (field_delta b s h fl USER_DATA_PROVISIONING_CRC16));
    reflexivity.
Qed.

Lemma no_conflict_iff b s h fl :
  no_conflict b s h fl = true <-> l_conflict s h fl (read_view b) = false.
Proof.
  rewrite no_conflict_bytes. unfold no_conflict. rewrite forallb_forall.
  split.
  - intros H f i Hi. specialize (H f (all_fields_complete f)).
    rewrite forallb_forall in H. apply Z.eqb_eq, H, in_seq. lia.
  - intros H f _. apply forallb_forall. intros i Hi. apply in_seq in Hi.
    apply Z.eqb_eq, H. lia.
Qed.

(** With no failure reported and no conflict, the batch commits. *)
Lemma batch_no_fault b s h fl hw1 e hw' :
  faults hw1 = [] ->
  burned hw1 = b ->
  batch_result (map (spec_item b s h fl) all_fields) hw1 e hw' ->
  e = ESP_OK
  /\ oplog hw' = oplog hw1 ++ OpBatchBegin ESP_OK
                   :: ok_writes (map (spec_item b s h fl) all_fields)
                   ++ [OpBatchCommit ESP_OK].
Proof.
  intros F Hb R.
  inversion R as [e0 h0 _ NF _ _ | pre it post e0 h0 I _ _ W _ _ _ _
                 | e0 h0 _ NF _ _ | h0 _ L]; subst.
  - contradiction.
  - exfalso. destruct W as [W|W]; [contradiction|].
    assert (Hin : In it (map (spec_item (burned hw1) s h fl) all_fields)).
    { rewrite I. apply in_elt. }
    apply in_map_iff in Hin. destruct Hin as (f & <- & _).
    rewrite item_value_spec in W. cbn [w_field spec_item] in W.
    rewrite delta_disjoint in W. discriminate W.
  - contradiction.
  - split; [reflexivity | exact L].
Qed.

(** *** A write that failed *)

Lemma all_fine_app (l1 l2 : list efuse_op) :
  all_fine (l1 ++ l2) = all_fine l1 && all_fine l2.
Proof. apply forallb_app. Qed.

Lemma all_fine_both (l1 l2 : list efuse_op) :
  all_fine l1 = true -> all_fine l2 = true -> all_fine (l1 ++ l2) = true.
Proof. intros H1 H2. rewrite all_fine_app, H1, H2. reflexivity. Qed.

Lemma all_fine_reads (ops : list efuse_op) :
  forallb is_read_op ops = true -> all_fine ops = true.
Proof.
  unfold all_fine. rewrite !forallb_forall. intros H op Hop.
  specialize (H op Hop). destruct op; try discriminate H. reflexivity.
Qed.

Lemma all_fine_ok_writes (items : list work_item) :
  all_fine (ok_writes items) = true.
Proof.
  unfold all_fine, ok_writes. apply forallb_forall. intros op Hop.
  apply in_map_iff in Hop. destruct Hop as (it & <- & _). reflexivity.
Qed.

Lemma all_fine_no_failure (l pre post : list efuse_op) (y : efuse_op) :
  all_fine l = true -> l = pre ++ y :: post -> failed_write y = false.
Proof.
  intros H ->. rewrite all_fine_app in H. apply andb_true_iff in H.
  destruct H as [_ H]. unfold all_fine in H. cbn [forallb] in H.
  apply andb_true_iff in H. destruct H as [H _].
  apply negb_true_iff in H. exact H.
Qed.

(** The only failed write of a log splits it in one way. *)
Lemma split_at_failure (l1 l2 pre post : list efuse_op) (x y : efuse_op) :
  all_fine l1 = true ->
  all_fine l2 = true ->
  failed_write y = true ->
  l1 ++ x :: l2 = pre ++ y :: post ->
  pre = l1 /\ y = x /\ post = l2.
Proof.
  intros H1 H2 Hy. revert pre. induction l1 as [|a l1 IH]; intros pre E.
  - destruct pre as [|p pre]; cbn [app] in E.
    + injection E as -> ->. auto.
    + injection E as -> E.
      rewrite (all_fine_no_failure _ _ _ _ H2 E) in Hy. discriminate Hy.
  - cbn [all_fine forallb] in H1. apply andb_true_iff in H1.
    destruct H1 as [Ha H1]. destruct pre as [|p pre]; cbn [app] in E.
    + injection E as -> _. rewrite Hy in Ha. discriminate Ha.
    + injection E as -> E. destruct (IH H1 pre E) as (-> & -> & ->). auto.
Qed.

Lemma no_commit_reads (ops : list efuse_op) :
  forallb is_read_op ops = true -> existsb is_commit_op ops = false.
Proof.
  intros H. apply existsb_false. intros op Hop.
  rewrite forallb_forall in H. specialize (H op Hop).
  destruct op; try discriminate H. reflexivity.
Qed.

Lemma no_commit_ok_writes (items : list work_item) :
  existsb is_commit_op (ok_writes items) = false.
Proof.
  apply existsb_false. intros op Hop. unfold ok_writes in Hop.
  apply in_map_iff in Hop. destruct Hop as (it & <- & _). reflexivity.
Qed.

(** *** Main results *)

(** C4: when its four reads succeed, [efuse_is_provisioned] returns [true]
    (and stores [true] through [out_is_ok_crc]) if and only if the stored
    16-bit CRC is non-zero and equals CRC-16/CCITT-FALSE (poly 0x1021,
    init 0xFFFF, no reflection, xorout 0) of the 22-byte payload: serial
    at 0..15, [hw_rev] little-endian at 16..17, flags little-endian at
    18..21. *)
Theorem C4_is_provisioned_crc (hw : efuse_hw) :
  faults hw = [] ->
  exists ok : bool,
    fst (efuse_is_provisioned hw) = (ok, ok)
    /\ (ok = true
        <-> stored_crc (burned hw) <> 0
            /\ stored_crc (burned hw)
               = crc16_ccitt_false_model (stored_payload (burned hw))).
Proof.
  intros Hf. exists (crc_matches (read_view (burned hw))).
  rewrite is_provisioned_no_fault by exact Hf.
  split; [reflexivity | apply crc_matches_iff].
Qed.

Lemma C4_is_provisioned_crc_witness :
  let hw := mk_hw (mk_bits 255399919590907027361477604034825811 1 15 13061)
                  no_bits false [] [] in
  exists ok : bool,
    fst (efuse_is_provisioned hw) = (ok, ok)
    /\ (ok = true
        <-> stored_crc (burned hw) <> 0
            /\ stored_crc (burned hw)
               = crc16_ccitt_false_model (stored_payload (burned hw))).
Proof.
  apply (C4_is_provisioned_crc
           (mk_hw (mk_bits 255399919590907027361477604034825811 1 15 13061)
                  no_bits false [] [])).
  reflexivity.
Defined.

(** C10: with a NULL [serial_ascii] the function returns
    [ESP_ERR_INVALID_ARG] at once: no operation is asked of the driver, so
    no field is read or written, and the driver state is the one the call
    started in. *)
Theorem C10_null_serial (hw_rev flags : Z) (hw : efuse_hw) :
  let r := efuse_program_custom_fields None hw_rev flags hw in
  fst r = ESP_ERR_INVALID_ARG
  /\ ops_between hw (snd r) = []
  /\ snd r = hw.
Proof.
  cbv zeta. cbn [efuse_program_custom_fields ret fst snd]. splits.
  - reflexivity.
  - unfold ops_between. apply skipn_all.
  - reflexivity.
Qed.

(** C1: if [efuse_program_custom_fields serial hw_rev flags] succeeds and
    the driver reports no failure afterwards, a second call with the same
    arguments succeeds too, leaves every burned field as it is, and issues
    no batch begin, no field write and no commit. *)
Theorem C1_program_idempotent (serial : option string) (hw_rev flags : Z)
  (hw hw1 : efuse_hw) :
  efuse_program_custom_fields serial hw_rev flags hw = (ESP_OK, hw1) ->
  faults hw1 = [] ->
  exists hw2,
    efuse_program_custom_fields serial hw_rev flags hw1 = (ESP_OK, hw2)
    /\ burned hw2 = burned hw1
    /\ filter is_write_op (ops_between hw1 hw2) = [].
Proof.
  intros E F. destruct serial as [s|]; [|discriminate E].
  destruct (settled_call_quiet s hw_rev flags hw1 F
              (first_call_outcome _ _ _ _ _ E)) as (hw2 & ops & E2 & Q).
  exists hw2. split; [exact E2|]. split; [exact (quiet_burned _ _ _ Q)|].
  rewrite (ops_between_app _ _ _ (quiet_log _ _ _ Q)).
  apply reads_no_writes, (quiet_reads _ _ _ Q).
Qed.

Lemma C1_program_idempotent_witness :
  exists hw2,
    efuse_program_custom_fields (Some demo_serial) demo_hw_rev demo_flags
      (snd (efuse_program_custom_fields (Some demo_serial) demo_hw_rev
              demo_flags blank))
    = (ESP_OK, hw2)
    /\ burned hw2
       = burned (snd (efuse_program_custom_fields (Some demo_serial)
                        demo_hw_rev demo_flags blank))
    /\ filter is_write_op
         (ops_between
            (snd (efuse_program_custom_fields (Some demo_serial) demo_hw_rev
                    demo_flags blank)) hw2) = [].
Proof.
  apply (C1_program_idempotent (Some demo_serial) demo_hw_rev demo_flags blank).
  - vm_compute. reflexivity.
  - vm_compute. reflexivity.
Defined.

(** C2: over any sequence of calls of [efuse_program_custom_fields], every
    field only gains bits: an earlier value AND NOT a later value is zero,
    for the field and for each of its bytes, and, what is the same, the
    later value AND NOT the earlier one is their XOR. *)
Theorem C2_no_bit_cleared (old new : efuse_hw) (f : efuse_field) :
  later old new ->
  let old_value := get_field f (burned old) in
  let new_value := get_field f (burned new) in
  Z.land old_value (Z.lnot new_value) = 0
  /\ Z.land new_value (Z.lnot old_value) = Z.lxor new_value old_value
  /\ (forall i,
        Z.land (byte_at old_value i) (Z.lnot (byte_at new_value i)) = 0).
Proof.
  intros L. cbv zeta.
  assert (M : no_bit_cleared (get_field f (burned old))
                             (get_field f (burned new))).
  { induction L as [|hw serial h fl L IH].
    - apply no_bit_cleared_refl.
    - eapply no_bit_cleared_trans; [exact IH | apply program_mono]. }
  split; [exact M|]. split; [apply no_bit_cleared_xor; exact M|].
  intros i. apply no_bit_cleared_bytes. exact M.
Qed.

Lemma C2_no_bit_cleared_witness :
  let new :=
    snd (efuse_program_custom_fields (Some demo_serial) demo_hw_rev demo_flags
           (mk_hw (mk_bits 0 0 1 0) no_bits false [] [])) in
  let old_value := 1 in
  let new_value := get_field USER_DATA_FEATURE_FLAGS (burned new) in
  Z.land old_value (Z.lnot new_value) = 0
  /\ Z.land new_value (Z.lnot old_value) = Z.lxor new_value old_value
  /\ (forall i,
        Z.land (byte_at old_value i) (Z.lnot (byte_at new_value i)) = 0).
Proof.
  apply (C2_no_bit_cleared (mk_hw (mk_bits 0 0 1 0) no_bits false [] []) _
           USER_DATA_FEATURE_FLAGS).
  apply later_call. apply later_now.
Defined.

(** C3: when the reads succeed, the device does not look provisioned and
    some byte of some field has a bit set that the desired byte lacks
    ([current AND NOT desired] is not zero), the call fails with
    [ESP_ERR_INVALID_STATE], burns nothing and issues no batch begin, no
    field write and no commit. *)
Theorem C3_conflict_rejected (s : string) (h fl : Z) (hw : efuse_hw)
  (f : efuse_field) (i : nat) :
  faults hw = [] ->
  fst (fst (efuse_is_provisioned hw)) = false ->
  (i < field_bytes f)%nat ->
  Z.land (current_byte (burned hw) f i) (Z.lnot (desired_byte s h fl f i))
  <> 0 ->
  let r := efuse_program_custom_fields (Some s) h fl hw in
  fst r = ESP_ERR_INVALID_STATE
  /\ burned (snd r) = burned hw
  /\ filter is_write_op (ops_between hw (snd r)) = [].
Proof.
  intros F NP Hi Hc. cbv zeta.
  rewrite (is_provisioned_no_fault hw F) in NP. cbn [fst] in NP.
  assert (C : l_conflict s h fl (read_view (burned hw)) = true).
  { destruct (l_conflict s h fl (read_view (burned hw))) eqn:C; [reflexivity|].
    exfalso. apply Hc. rewrite <- Z.ldiff_land.
    exact (proj1 (no_conflict_bytes _ _ _ _) C f i Hi). }
  destruct (program_cases s h fl hw) as (e & hw' & E & R). rewrite E.
  cbn [fst snd].
  inversion R as [h0 ops Q P | e0 h0 ops Q Ne NF | h0 ops Q _ _
                 | h0 ops Q _ C' _ | h1 ops e0 h0 Q _ C' _ _]; subst;
    try congruence.
  split; [reflexivity|]. split; [exact (quiet_burned _ _ _ Q)|].
  rewrite (ops_between_app _ _ _ (quiet_log _ _ _ Q)).
  apply reads_no_writes, (quiet_reads _ _ _ Q).
Qed.

(** The specification's example: a fused [0b1010_0000] against a desired
    [0b0000_1111]. *)
Lemma C3_conflict_rejected_witness :
  let hw := mk_hw (mk_bits 0xA0 0 0 0) no_bits false [] [] in
  let r := efuse_program_custom_fields
             (Some (String (ascii_of_nat 0x0F) EmptyString)) 0 0 hw in
  fst r = ESP_ERR_INVALID_STATE
  /\ burned (snd r) = burned hw
  /\ filter is_write_op (ops_between hw (snd r)) = [].
Proof.
  apply (C3_conflict_rejected (String (ascii_of_nat 0x0F) EmptyString) 0 0
           (mk_hw (mk_bits 0xA0 0 0 0) no_bits false [] [])
           USER_DATA_SERIAL_NUMBER 0).
  - reflexivity.
  - vm_compute. reflexivity.
  - vm_compute. lia.
  - vm_compute. lia.
Defined.

(** C5: when the reads succeed, the device does not look provisioned and
    no byte is in conflict, the call succeeds and what it asks of the
    driver besides reads is: nothing at all if the delta
    [desired AND NOT current] of every field is zero (and then the burned
    bits, the staged bits and the batch flag are untouched); otherwise one
    batch begin, one write of its delta for exactly the fields whose delta
    is not all zero, in field order, and one commit. *)
Theorem C5_only_new_bits_staged (s : string) (h fl : Z) (hw : efuse_hw) :
  faults hw = [] ->
  fst (fst (efuse_is_provisioned hw)) = false ->
  no_conflict (burned hw) s h fl = true ->
  let delta := field_delta (burned hw) s h fl in
  let r := efuse_program_custom_fields (Some s) h fl hw in
  fst r = ESP_OK
  /\ filter (fun op => negb (is_read_op op)) (ops_between hw (snd r))
     = (if forallb (fun f => all_zero (delta f)) all_fields then []
        else OpBatchBegin ESP_OK
               :: map (fun f => OpWrite f (delta f) ESP_OK)
                      (filter (fun f => negb (all_zero (delta f))) all_fields)
               ++ [OpBatchCommit ESP_OK])
  /\ (forallb (fun f => all_zero (delta f)) all_fields = true ->
      burned (snd r) = burned hw /\ staged (snd r) = staged hw
      /\ in_batch (snd r) = in_batch hw).
Proof.
  intros F NP NC. cbv zeta.
  rewrite (is_provisioned_no_fault hw F) in NP. cbn [fst] in NP.
  apply no_conflict_iff in NC.
  assert (Z0 : forall ops, forallb is_read_op ops = true ->
                 filter (fun op => negb (is_read_op op)) ops = []).
  { intros ops H. induction ops as [|op ops IH]; [reflexivity|].
    cbn [forallb] in H. apply andb_true_iff in H. destruct H as [Ho H].
    cbn [filter]. rewrite Ho. cbn [negb]. auto. }
  assert (ZF : forallb (fun f => all_zero (field_delta (burned hw) s h fl f))
                 all_fields = true
               <-> needed (l_items s h fl (read_view (burned hw))) = []).
  { rewrite l_items_spec, needed_spec, forallb_forall. split.
    - intros H f. apply H, all_fields_complete.
    - intros H f _. apply H. }
  destruct (program_cases s h fl hw) as (e & hw' & E & R). rewrite E.
  cbn [fst snd].
  inversion R as [h0 ops Q P | e0 h0 ops Q Ne NF | h0 ops Q _ C'
                 | h0 ops Q _ _ N | h1 ops e0 h0 Q _ _ N B]; subst;
    try congruence.
  - rewrite (proj2 ZF N).
    rewrite (ops_between_app _ _ _ (quiet_log _ _ _ Q)).
    split; [reflexivity|]. split; [exact (Z0 _ (quiet_reads _ _ _ Q))|].
    intros _. destruct Q; auto.
  - rewrite l_items_spec in B.
    destruct (batch_no_fault _ s h fl _ _ _ (quiet_faults _ _ _ Q F)
                (quiet_burned _ _ _ Q) B) as (-> & L).
    destruct (forallb _ all_fields) eqn:Z.
    { exfalso. apply N, ZF. reflexivity. }
    split; [reflexivity|]. split; [|discriminate].
    rewrite (quiet_log _ _ _ Q), <- app_assoc in L.
    rewrite (ops_between_app _ _ _ L), filter_app, (Z0 _ (quiet_reads _ _ _ Q)).
    rewrite ok_writes_spec. cbn [app filter is_read_op negb].
    rewrite filter_app. cbn [filter is_read_op negb]. f_equal. f_equal.
    apply forallb_filter_id. apply forallb_forall. intros op Hop.
    apply in_map_iff in Hop. destruct Hop as (f & <- & _). reflexivity.
Qed.

Lemma C5_only_new_bits_staged_witness :
  let hw := mk_hw (mk_bits 0 0 0x0F 0) no_bits false [] [] in
  let delta := field_delta (burned hw) demo_serial demo_hw_rev demo_flags in
  let r := efuse_program_custom_fields (Some demo_serial) demo_hw_rev
             demo_flags hw in
  fst r = ESP_OK
  /\ filter (fun op => negb (is_read_op op)) (ops_between hw (snd r))
     = (if forallb (fun f => all_zero (delta f)) all_fields then []
        else OpBatchBegin ESP_OK
               :: map (fun f => OpWrite f (delta f) ESP_OK)
                      (filter (fun f => negb (all_zero (delta f))) all_fields)
               ++ [OpBatchCommit ESP_OK])
  /\ (forallb (fun f => all_zero (delta f)) all_fields = true ->
      burned (snd r) = burned hw /\ staged (snd r) = staged hw
      /\ in_batch (snd r) = in_batch hw).
Proof.
  apply (C5_only_new_bits_staged demo_serial demo_hw_rev demo_flags
           (mk_hw (mk_bits 0 0 0x0F 0) no_bits false [] [])).
  - reflexivity.
  - vm_compute. reflexivity.
  - vm_compute. reflexivity.
Defined.

(** C6: if a field write inside the batch reports an error, that error is
    what the call returns; the next and last thing asked of the driver is
    the cancellation of the batch (so no further write and no commit);
    nothing stays staged, the batch is closed, and the burned fields are
    what they were before the call. *)
Theorem C6_failed_write_cancels (serial : option string) (h fl : Z)
  (hw : efuse_hw) (pre post : list efuse_op) (f : efuse_field)
  (d : list Z) (err : esp_err_t) :
  let r := efuse_program_custom_fields serial h fl hw in
  ops_between hw (snd r) = pre ++ OpWrite f d err :: post ->
  err <> ESP_OK ->
  fst r = err
  /\ post = [OpBatchCancel ESP_OK]
  /\ existsb is_commit_op pre = false
  /\ burned (snd r) = burned hw
  /\ staged (snd r) = no_bits
  /\ in_batch (snd r) = false.
Proof.
  cbv zeta. intros O Herr.
  assert (Hy : failed_write (OpWrite f d err) = true).
  { apply nonzero_true. exact Herr. }
  assert (Fine : forall l, all_fine l = true ->
                   l = pre ++ OpWrite f d err :: post -> False).
  { intros l Hl El. rewrite (all_fine_no_failure _ _ _ _ Hl El) in Hy.
    discriminate Hy. }
  destruct serial as [s|].
  2:{ exfalso. apply (Fine [] eq_refl). rewrite <- O.
      unfold ops_between. cbn [efuse_program_custom_fields ret snd].
      symmetry. apply skipn_all. }
  destruct (program_cases s h fl hw) as (e & hw' & E & R).
  rewrite E in O |- *. cbn [fst snd] in O |- *.
  destruct R as [h0 ops Q _ | e0 h0 ops Q _ _ | h0 ops Q _ _
                | h0 ops Q _ _ _ | h1 ops e0 h0 Q _ _ _ B].
  1-4: exfalso; apply (Fine ops (all_fine_reads _ (quiet_reads _ _ _ Q)));
       rewrite <- O; symmetry; apply ops_between_app, (quiet_log _ _ _ Q).
  pose proof (all_fine_reads _ (quiet_reads _ _ _ Q)) as Fr.
  destruct B as [e1 h2 _ _ _ L | pre' it post' e1 h2 _ _ Ne _ Bu St Ib L
                | e1 h2 _ _ _ L | h2 _ L];
    rewrite (quiet_log _ _ _ Q), <- app_assoc in L;
    rewrite (ops_between_app _ _ _ L) in O.
  - exfalso.
    exact (Fine _ (all_fine_both ops [OpBatchBegin e1] Fr eq_refl) O).
  - change (ops ++ (OpBatchBegin ESP_OK :: ok_writes pre')
                   ++ OpWrite (w_field it) (w_delta it) e1
                        :: [OpBatchCancel ESP_OK]
            = pre ++ OpWrite f d err :: post) in O.
    rewrite app_assoc in O.
    apply split_at_failure in O; [| |reflexivity|exact Hy].
    2:{ apply all_fine_both; [exact Fr|].
        apply (all_fine_both [OpBatchBegin ESP_OK]); [reflexivity|].
        apply all_fine_ok_writes. }
    destruct O as (-> & Ey & ->). injection Ey as _ _ ->.
    rewrite existsb_app, (no_commit_reads _ (quiet_reads _ _ _ Q)).
    cbn [existsb is_commit_op orb]. rewrite no_commit_ok_writes.
    rewrite Bu, (quiet_burned _ _ _ Q). auto 7.
  - exfalso. refine (Fine _ (all_fine_both _ _ Fr _) O).
    apply (all_fine_both [OpBatchBegin ESP_OK]); [reflexivity|].
    apply all_fine_both; [apply all_fine_ok_writes | reflexivity].
  - exfalso. refine (Fine _ (all_fine_both _ _ Fr _) O).
    apply (all_fine_both [OpBatchBegin ESP_OK]); [reflexivity|].
    apply all_fine_both; [apply all_fine_ok_writes | reflexivity].
Qed.

Lemma C6_failed_write_cancels_witness :
  let hw := mk_hw no_bits no_bits false [0; 0; 0; 0; 0; 0; 0; 0; 0; 0; 7] [] in
  let r := efuse_program_custom_fields (Some demo_serial) demo_hw_rev
             demo_flags hw in
  fst r = 7
  /\ [OpBatchCancel ESP_OK] = [OpBatchCancel ESP_OK]
  /\ existsb is_commit_op
       (reads_ok ++ reads_ok
        ++ [OpBatchBegin 0;
            OpWrite USER_DATA_SERIAL_NUMBER
              (desired_bytes demo_serial demo_hw_rev demo_flags
                 USER_DATA_SERIAL_NUMBER) 0]) = false
  /\ burned (snd r) = burned hw
  /\ staged (snd r) = no_bits
  /\ in_batch (snd r) = false.
Proof.
  apply (C6_failed_write_cancels (Some demo_serial) demo_hw_rev demo_flags
           (mk_hw no_bits no_bits false [0; 0; 0; 0; 0; 0; 0; 0; 0; 0; 7] [])
           _ _ USER_DATA_HW_REV [1; 0] 7).
  - vm_compute. reflexivity.
  - unfold ESP_OK. lia.
Defined.

End EfuseFacts.

(** ** Properties of the OTA decision loop *)

Module OtaFacts.
Import C Ota.

Section Bind.
Context {W : Type}.
Variable env : forall X, call X -> W -> X * W.

Lemma run_pbind {A B} (p : prog A) (k : A -> prog B) (w : W) :
  run env (pbind p k) w
  = match run env p w with
    | (Returned r, w1, t1) =>
        let '(o, w2, t2) := run env (k r) w1 in (o, w2, t1 ++ t2)
    | (Rebooted, w1, t1) => (Rebooted, w1, t1)
    end.
Proof.
  revert w. induction p as [r|X c k' IH|f p IH|]; intros w; cbn [run pbind].
  - destruct (run env (k r) w) as [[o w2] t2]. reflexivity.
  - destruct (env X c w) as [x w1]. rewrite IH.
    destruct (run env (k' x) w1) as [[[r|] w2] t1]; [|reflexivity].
    destruct (run env (k r) w2) as [[o w3] t2]. reflexivity.
  - rewrite IH. destruct (run env p w) as [[[r|] w2] t1]; [|reflexivity].
    destruct (run env (k r) w2) as [[o w3] t2]. reflexivity.
  - reflexivity.
Qed.

End Bind.

Section Cycle.
Context {W : Type}.
Variable env : forall X, call X -> W -> X * W.
Variable cfg : app_cfg.

(** Follow one run: answer the next call, split on the next test. *)
Ltac step :=
  cbn [run pbind perform fst snd negb] in *;
  match goal with
  | |- context [env ?X ?c ?w] =>
      let x := fresh "x" in
      let w' := fresh "w" in
      let E := fresh "E" in
      destruct (env X c w) as [x w'] eqn:E
  | |- context [if ?b then _ else _] =>
      let B := fresh "B" in destruct b eqn:B
  | |- context [match parse_https_host ?u ?n with _ => _ end] =>
      destruct (parse_https_host u n)
  end.

(** C7: [in_maintenance_window] returns the fallback
    [APP_OTA_ALLOW_NO_TIME ? true : false] when the local year read by
    [is_time_set] is before 2024.  Otherwise, with [h] the hour read
    next: it returns [true] if start = end; if start < end it returns
    [true] exactly when start <= h < end; if start > end exactly when
    h >= start or h < end.  So for the window 22..6 hour 23 is inside
    and hour 10 is not, and for 9..9 every hour is inside. *)
Theorem C7_in_maintenance_window (w : W) :
  let year := tm_year (fst (env _ localtime_now w)) + 1900 in
  let h := tm_hour (fst (env _ localtime_now (snd (env _ localtime_now w)))) in
  let start := APP_OTA_MAINT_START_HOUR cfg in
  let end_ := APP_OTA_MAINT_END_HOUR cfg in
  exists r : bool,
    fst (fst (run env (in_maintenance_window cfg) w)) = Returned r
    /\ (year < 2024 -> r = nonzero (APP_OTA_ALLOW_NO_TIME cfg))
    /\ (2024 <= year -> start = end_ -> r = true)
    /\ (2024 <= year -> start < end_ -> (r = true <-> start <= h < end_))
    /\ (2024 <= year -> start > end_ -> (r = true <-> h >= start \/ h < end_))
    /\ (2024 <= year -> start = 22 -> end_ = 6 ->
        (h = 23 -> r = true) /\ (h = 10 -> r = false))
    /\ (2024 <= year -> start = 9 -> end_ = 9 -> r = true).
Proof.
  cbv zeta. unfold in_maintenance_window, is_time_set.
  cbn [run pbind perform].
  destruct (env tm localtime_now w) as [t1 w1].
  cbn [fst snd].
  destruct (Z.leb_spec 2024 (tm_year t1 + 1900)) as [Y|Y]; cbn [negb].
  2:{ cbn [run fst]. eexists. split; [reflexivity|].
      splits; intros; try lia; reflexivity. }
  cbn [run pbind].
  destruct (env tm localtime_now w1) as [t2 w2]. cbn [fst snd].
  destruct (Z.eqb_spec (APP_OTA_MAINT_START_HOUR cfg)
              (APP_OTA_MAINT_END_HOUR cfg)) as [Eq|Ne].
  { cbn [run fst]. eexists. split; [reflexivity|].
    splits; intros; try lia; try reflexivity. }
  destruct (Z.ltb_spec (APP_OTA_MAINT_START_HOUR cfg)
              (APP_OTA_MAINT_END_HOUR cfg)) as [Lt|Ge];
    cbn [run fst]; eexists; (split; [reflexivity|]);
    splits; intros; try lia;
    rewrite ?andb_true_iff, ?orb_true_iff, ?Z.leb_le, ?Z.ltb_lt;
    try lia.
  all: split; [intros ->|intros ->];
    first [apply orb_true_iff; rewrite Z.leb_le, Z.ltb_lt; lia
          | apply orb_false_iff; rewrite Z.leb_gt, Z.ltb_ge; lia].
Qed.

(** The update-request gate only makes its own calls. *)
Lemma update_requested_events (w : W) :
  forallb request_event (snd (run env (update_requested cfg) w)) = true.
Proof.
  unfold update_requested, ota_button_pressed, cloud_trigger_requested.
  repeat step; reflexivity.
Qed.

(** It never restarts the device. *)
Lemma update_requested_returns (w : W) :
  exists r, fst (fst (run env (update_requested cfg) w)) = Returned r.
Proof.
  unfold update_requested, ota_button_pressed, cloud_trigger_requested.
  repeat step; eexists; reflexivity.
Qed.

(** Its run is the same under any configuration and environment that
    agree on what it reads. *)
Lemma update_requested_agree (cfg' : app_cfg)
  (env' : forall X, call X -> W -> X * W) (w : W) :
  same_request_cfg cfg cfg' ->
  (forall X (c : call X) w, request_call c = true -> env' X c w = env X c w) ->
  run env' (update_requested cfg') w = run env (update_requested cfg) w.
Proof.
  intros (G & U & _) A.
  unfold update_requested, ota_button_pressed, cloud_trigger_requested.
  rewrite <- G, <- U.
  repeat (cbn [run pbind perform fst snd];
          match goal with
          | |- context [env' ?X ?c ?w] => rewrite (A X c w eq_refl)
          | |- context [env ?X ?c ?w] =>
              let x := fresh "x" in
              let w' := fresh "w" in
              destruct (env X c w) as [x w']
          | |- context [if ?b then _ else _] => destruct b
          end);
    reflexivity.
Qed.

Lemma not_request_event (t : list event) (e : event) :
  forallb request_event t = true -> request_event e = false -> ~ In e t.
Proof.
  intros H He Hin. rewrite forallb_forall in H. rewrite (H e Hin) in He.
  discriminate He.
Qed.

(** C9: if the update-request gate ([ota_button_pressed() ||
    cloud_trigger_requested()]) evaluates to false, the cycle enters
    neither [in_maintenance_window] nor [read_battery_mv] nor
    [network_ready_check] (nor [https_ota_run]); it ends, returning to
    the loop, with the poll delay; and its whole run (outcome, state of
    the environment, trace) is the same under any other configuration of
    the window, the battery and the firmware URL and any other answers
    to the calls those gates would have made. *)
Theorem C9_request_gate_short_circuit (w : W) :
  fst (fst (run env (update_requested cfg) w)) = Returned false ->
  let '(o, w', t) := run env (ota_poll_cycle cfg) w in
  o = Returned tt
  /\ ~ In (Entered fn_in_maintenance_window) t
  /\ ~ In (Entered fn_read_battery_mv) t
  /\ ~ In (Entered fn_network_ready_check) t
  /\ ~ In (Entered fn_https_ota_run) t
  /\ (exists pre, t = pre ++ [Called (vTaskDelay (APP_OTA_POLL_PERIOD_MS cfg))])
  /\ (forall (cfg' : app_cfg) (env' : forall X, call X -> W -> X * W),
        same_request_cfg cfg cfg' ->
        (forall X (c : call X) w,
            request_call c = true -> env' X c w = env X c w) ->
        run env' (ota_poll_cycle cfg') w = (o, w', t)).
Proof.
  intros Hreq.
  pose proof (update_requested_events w) as Hev.
  assert (Hcycle : forall (cfg' : app_cfg)
                     (env' : forall X, call X -> W -> X * W),
             same_request_cfg cfg cfg' ->
             (forall X (c : call X) w,
                 request_call c = true -> env' X c w = env X c w) ->
             run env' (ota_poll_cycle cfg') w
             = (let '(o, w1, t1) := run env (update_requested cfg) w in
                let '(x, w2) :=
                  env unit (vTaskDelay (APP_OTA_POLL_PERIOD_MS cfg)) w1 in
                (Returned tt, w2,
                 t1 ++ [Called (vTaskDelay (APP_OTA_POLL_PERIOD_MS cfg))]))).
  { intros cfg' env' S A. unfold ota_poll_cycle.
    rewrite run_pbind, (update_requested_agree cfg' env' w S A).
    destruct (run env (update_requested cfg) w) as [[o1 w1] t1].
    cbn [fst] in Hreq. subst o1. cbn [negb poll_delay perform run].
    destruct S as (_ & _ & <-).
    rewrite (A unit (vTaskDelay (APP_OTA_POLL_PERIOD_MS cfg)) w1 eq_refl).
    destruct (env unit (vTaskDelay (APP_OTA_POLL_PERIOD_MS cfg)) w1)
      as [[] w2].
    reflexivity. }
  assert (Same : same_request_cfg cfg cfg) by (repeat split).
  rewrite (Hcycle cfg env Same (fun _ _ _ _ => eq_refl)).
  destruct (run env (update_requested cfg) w) as [[o1 w1] t1].
  cbn [snd] in Hev.
  destruct (env unit (vTaskDelay (APP_OTA_POLL_PERIOD_MS cfg)) w1)
    as [x w2] eqn:Ed.
  assert (Hev' : forallb request_event
                   (t1 ++ [Called (vTaskDelay (APP_OTA_POLL_PERIOD_MS cfg))])
                 = true).
  { rewrite forallb_app, Hev. reflexivity. }
  split; [reflexivity|].
  do 4 (split; [apply not_request_event; [exact Hev' | reflexivity]|]).
  split; [exists t1; reflexivity|].
  intros cfg' env' S A. rewrite (Hcycle cfg' env' S A). reflexivity.
Qed.

(** Membership in the trace of one path. *)
Ltac in_trace :=
  solve [cbn [In]; repeat (first [left; reflexivity | right])].

Ltac not_in_trace H :=
  cbn [In app] in H; repeat (destruct H as [H|H]; [discriminate H|]);
  exact H.

Ltac order_facts :=
  repeat match goal with
         | H : (_ <? _) = true |- _ => apply Z.ltb_lt in H
         | H : (_ <? _) = false |- _ => apply Z.ltb_ge in H
         end.

Lemma cycle_from_battery_gate :
  ota_poll_cycle cfg
  = (update_req <- update_requested cfg ;;
     if negb update_req then poll_delay cfg else
     w <- in_maintenance_window cfg ;;
     if negb w then poll_delay cfg else from_battery_gate cfg).
Proof. reflexivity. Qed.

Lemma window_events (w : W) :
  forallb window_event (snd (run env (in_maintenance_window cfg) w)) = true.
Proof.
  unfold in_maintenance_window, is_time_set. repeat step; reflexivity.
Qed.

Lemma from_battery_gate_run (w : W) :
  forall r, run env (from_battery_gate cfg) w = r ->
    (In (Entered fn_network_ready_check) (snd r)
     <-> APP_BATT_MIN_MV cfg <= APP_BATT_FAKE_MV cfg)
    /\ (APP_BATT_FAKE_MV cfg < APP_BATT_MIN_MV cfg ->
        fst (fst r) = Returned tt
        /\ snd r = [Entered fn_read_battery_mv;
                    Called (vTaskDelay (APP_OTA_POLL_PERIOD_MS cfg))]).
Proof.
  unfold from_battery_gate, read_battery_mv, network_ready_check,
    https_ota_run, poll_delay.
  repeat step.
  all: intros r <-; cbn [fst snd]; order_facts.
  all: split;
    [split; intros Hx; first [lia | in_trace | exfalso; not_in_trace Hx]|].
  all: intros Hx; try lia.
  all: repeat match goal with u : unit |- _ => destruct u end.
  all: split; reflexivity.
Qed.

(** One cycle either ends before the battery gate, never entering
    [read_battery_mv], or is a prefix free of later-gate entries followed
    by a run of [from_battery_gate]. *)
Lemma cycle_shape (w : W) :
  ~ In (Entered fn_read_battery_mv) (snd (run env (ota_poll_cycle cfg) w))
  \/ exists t0 w0,
       (forall f, f = fn_read_battery_mv \/ f = fn_network_ready_check
                  \/ f = fn_https_ota_run -> ~ In (Entered f) t0)
       /\ run env (ota_poll_cycle cfg) w
          = (fst (fst (run env (from_battery_gate cfg) w0)),
             snd (fst (run env (from_battery_gate cfg) w0)),
             t0 ++ snd (run env (from_battery_gate cfg) w0)).
Proof.
  rewrite cycle_from_battery_gate, run_pbind.
  pose proof (update_requested_events w) as Hreq.
  destruct (run env (update_requested cfg) w) as [[[req|] w1] t1];
    cbn [snd] in Hreq.
  2:{ left. cbn [snd].
      apply not_request_event; [exact Hreq | reflexivity]. }
  assert (N1 : forall f, f = fn_read_battery_mv
                         \/ f = fn_network_ready_check
                         \/ f = fn_https_ota_run -> ~ In (Entered f) t1).
  { intros f [->|[->| ->]];
      (apply not_request_event; [exact Hreq | reflexivity]). }
  destruct req; cbn [negb].
  2:{ left. unfold poll_delay. cbn [run perform].
      destruct (env unit _ w1) as [x w2]. cbn [snd]. intros Hin.
      apply in_app_or in Hin. destruct Hin as [Hin|Hin].
      - exact (N1 _ (or_introl eq_refl) Hin).
      - not_in_trace Hin. }
  rewrite run_pbind.
  pose proof (window_events w1) as Hwin.
  destruct (run env (in_maintenance_window cfg) w1) as [[[win|] w2] t2];
    cbn [snd] in Hwin.
  2:{ left. cbn [snd]. intros Hin.
      apply in_app_or in Hin. destruct Hin as [Hin|Hin].
      - exact (N1 _ (or_introl eq_refl) Hin).
      - rewrite forallb_forall in Hwin. specialize (Hwin _ Hin).
        discriminate Hwin. }
  assert (N2 : forall f, f = fn_read_battery_mv
                         \/ f = fn_network_ready_check
                         \/ f = fn_https_ota_run -> ~ In (Entered f) t2).
  { intros f Hf Hin. rewrite forallb_forall in Hwin.
    specialize (Hwin _ Hin). destruct Hf as [->|[->| ->]]; discriminate Hwin. }
  destruct win; cbn [negb].
  2:{ left. unfold poll_delay. cbn [run perform].
      destruct (env unit _ w2) as [x w3]. cbn [snd]. intros Hin.
      apply in_app_or in Hin. destruct Hin as [Hin|Hin].
      - exact (N1 _ (or_introl eq_refl) Hin).
      - apply in_app_or in Hin. destruct Hin as [Hin|Hin].
        + exact (N2 _ (or_introl eq_refl) Hin).
        + not_in_trace Hin. }
  right. exists (t1 ++ t2), w2. split.
  - intros f Hf Hin. apply in_app_or in Hin.
    destruct Hin as [Hin|Hin]; [exact (N1 f Hf Hin) | exact (N2 f Hf Hin)].
  - destruct (run env (from_battery_gate cfg) w2) as [[o w3] t3].
    cbn [fst snd]. rewrite app_assoc. reflexivity.
Qed.

(** What the battery gate measures. *)
Lemma read_battery_mv_value (w : W) :
  run env (read_battery_mv cfg) w
  = (Returned (APP_BATT_FAKE_MV cfg), w, [Entered fn_read_battery_mv]).
Proof. reflexivity. Qed.

(** C8: in a cycle that reaches the battery gate (the update was
    requested and the maintenance window is open), the cycle goes on to
    [network_ready_check] exactly when [read_battery_mv()], which is
    [APP_BATT_FAKE_MV], is at least [APP_BATT_MIN_MV].  At the threshold
    it goes on; below it, and so one millivolt below, it enters neither
    [network_ready_check] nor [https_ota_run] and ends with the poll
    delay right after the battery read. *)
Theorem C8_battery_gate (w : W) :
  In (Entered fn_read_battery_mv) (snd (run env (ota_poll_cycle cfg) w)) ->
  let o := fst (fst (run env (ota_poll_cycle cfg) w)) in
  let t := snd (run env (ota_poll_cycle cfg) w) in
  (In (Entered fn_network_ready_check) t
   <-> APP_BATT_MIN_MV cfg <= APP_BATT_FAKE_MV cfg)
  /\ (APP_BATT_FAKE_MV cfg = APP_BATT_MIN_MV cfg ->
      In (Entered fn_network_ready_check) t)
  /\ (APP_BATT_FAKE_MV cfg < APP_BATT_MIN_MV cfg -> gate_skipped cfg o t)
  /\ (APP_BATT_FAKE_MV cfg = APP_BATT_MIN_MV cfg - 1 -> gate_skipped cfg o t).
Proof.
  intros Hb. cbv zeta.
  destruct (cycle_shape w) as [N|(t0 & w0 & N0 & E)]; [contradiction|].
  rewrite E. cbn [fst snd].
  destruct (from_battery_gate_run w0 _ eq_refl) as (Hnet & Hlow).
  assert (Hin : In (Entered fn_network_ready_check)
                  (t0 ++ snd (run env (from_battery_gate cfg) w0))
                <-> APP_BATT_MIN_MV cfg <= APP_BATT_FAKE_MV cfg).
  { rewrite <- Hnet, in_app_iff. split; [|auto].
    intros [Hin|Hin]; [|exact Hin].
    exfalso. exact (N0 _ (or_intror (or_introl eq_refl)) Hin). }
  assert (Hskip : APP_BATT_FAKE_MV cfg < APP_BATT_MIN_MV cfg ->
                  gate_skipped cfg
                    (fst (fst (run env (from_battery_gate cfg) w0)))
                    (t0 ++ snd (run env (from_battery_gate cfg) w0))).
  { intros Hlt. destruct (Hlow Hlt) as (Ho & Ht). unfold gate_skipped.
    rewrite Ho, Ht. splits.
    - intros Hx. apply in_app_or in Hx. destruct Hx as [Hx|Hx].
      + exact (N0 _ (or_intror (or_introl eq_refl)) Hx).
      + not_in_trace Hx.
    - intros Hx. apply in_app_or in Hx. destruct Hx as [Hx|Hx].
      + exact (N0 _ (or_intror (or_intror eq_refl)) Hx).
      + not_in_trace Hx.
    - reflexivity.
    - exists t0. reflexivity. }
  split; [exact Hin|]. split; [intros Heq; apply Hin; lia|].
  split; [exact Hskip|]. intros Heq. apply Hskip. lia.
Qed.

End Cycle.

Lemma C8_battery_gate_witness :
  let w := mk_world 0 (mk_tm 126 23) in
  let o := fst (fst (run demo_env (ota_poll_cycle demo_cfg) w)) in
  let t := snd (run demo_env (ota_poll_cycle demo_cfg) w) in
  (In (Entered fn_network_ready_check) t
   <-> APP_BATT_MIN_MV demo_cfg <= APP_BATT_FAKE_MV demo_cfg)
  /\ (APP_BATT_FAKE_MV demo_cfg = APP_BATT_MIN_MV demo_cfg ->
      In (Entered fn_network_ready_check) t)
  /\ (APP_BATT_FAKE_MV demo_cfg < APP_BATT_MIN_MV demo_cfg ->
      gate_skipped demo_cfg o t)
  /\ (APP_BATT_FAKE_MV demo_cfg = APP_BATT_MIN_MV demo_cfg - 1 ->
      gate_skipped demo_cfg o t).
Proof.
  apply (C8_battery_gate demo_env demo_cfg (mk_world 0 (mk_tm 126 23))).
  vm_compute. repeat (first [left; reflexivity | right]).
Defined.

Lemma C9_request_gate_short_circuit_witness :
  let w := mk_world 1 (mk_tm 126 23) in
  let '(o, w', t) := run demo_env (ota_poll_cycle demo_cfg) w in
  o = Returned tt
  /\ ~ In (Entered fn_in_maintenance_window) t
  /\ ~ In (Entered fn_read_battery_mv) t
  /\ ~ In (Entered fn_network_ready_check) t
  /\ ~ In (Entered fn_https_ota_run) t
  /\ (exists pre,
        t = pre ++ [Called (vTaskDelay (APP_OTA_POLL_PERIOD_MS demo_cfg))])
  /\ (forall (cfg' : app_cfg)
             (env' : forall X, call X -> demo_world -> X * demo_world),
        same_request_cfg demo_cfg cfg' ->
        (forall X (c : call X) w,
            request_call c = true -> env' X c w = demo_env X c w) ->
        run env' (ota_poll_cycle cfg') w = (o, w', t)).
Proof.
  apply (C9_request_gate_short_circuit demo_env demo_cfg
           (mk_world 1 (mk_tm 126 23))).
  vm_compute. reflexivity.
Defined.

End OtaFacts.

(** ** More properties of the eFuse demo *)

Module EfuseMore.
Import C Efuse EfuseSpec EfuseDemo EfuseFacts.

(** *** The CRC as a check *)

Lemma crc16_unshift_shift (c : Z) :
  0 <= c < 2 ^ 16 -> crc16_unshift (crc16_shift c) = c.
Proof.
  intros H. unfold crc16_shift, crc16_unshift. rewrite top_bit.
  assert (Hi : forall i, 16 <= i -> Z.testbit c i = false).
  { intros i Hi. rewrite <- (Z.mod_small c (2 ^ 16)) by lia.
    apply Z.mod_pow2_bits_high. lia. }
  unfold u16.
  destruct (Z.testbit c 15) eqn:T.
  - replace (Z.testbit (Z.lxor (Z.shiftl c 1) 0x1021 mod 2 ^ 16) 0) with true.
    2:{ rewrite Z.mod_pow2_bits_low, Z.lxor_spec, Z.shiftl_spec_low by lia.
        reflexivity. }
    apply Z.bits_inj'. intros i Hi0.
    rewrite Z.lor_spec, Z.shiftr_spec, Z.lxor_spec by lia.
    change 0x8000 with (2 ^ 15). rewrite Z.pow2_bits_eqb by lia.
    destruct (Z.eqb_spec 15 i) as [<-|Ne].
    + rewrite T. apply orb_true_r.
    + rewrite orb_false_r.
      destruct (Z.ltb_spec i 15).
      * rewrite Z.mod_pow2_bits_low, Z.lxor_spec, Z.shiftl_spec by lia.
        replace (i + 1 - 1) with i by lia.
        destruct (Z.testbit c i), (Z.testbit 4129 (i + 1)); reflexivity.
      * rewrite Z.mod_pow2_bits_high, Hi by lia.
        change 4129 with (4129 mod 2 ^ 16).
        rewrite Z.mod_pow2_bits_high by lia. reflexivity.
  - replace (Z.testbit (Z.shiftl c 1 mod 2 ^ 16) 0) with false.
    2:{ rewrite Z.mod_pow2_bits_low, Z.shiftl_spec_low by lia. reflexivity. }
    apply Z.bits_inj'. intros i Hi0.
    rewrite Z.shiftr_spec by lia.
    destruct (Z.ltb_spec i 15).
    + rewrite Z.mod_pow2_bits_low, Z.shiftl_spec by lia. f_equal. lia.
    + rewrite Z.mod_pow2_bits_high by lia.
      destruct (Z.eqb_spec 15 i) as [<-|Ne]; [symmetry; exact T|].
      symmetry. apply Hi. lia.
Qed.

Lemma crc16_shift_inj (a b : Z) :
  0 <= a < 2 ^ 16 -> 0 <= b < 2 ^ 16 ->
  crc16_shift a = crc16_shift b -> a = b.
Proof.
  intros Ha Hb E.
  rewrite <- (crc16_unshift_shift a Ha), <- (crc16_unshift_shift b Hb), E.
  reflexivity.
Qed.

Lemma crc16_iter_range (k : nat) (c : Z) :
  0 <= c < 2 ^ 16 -> 0 <= Nat.iter k crc16_shift c < 2 ^ 16.
Proof.
  intros H. destruct k; [exact H|]. rewrite Nat.iter_succ.
  apply crc16_shift_range.
Qed.

Lemma crc16_iter_inj (k : nat) (a b : Z) :
  0 <= a < 2 ^ 16 -> 0 <= b < 2 ^ 16 ->
  Nat.iter k crc16_shift a = Nat.iter k crc16_shift b -> a = b.
Proof.
  intros Ha Hb. induction k as [|k IH]; [intros E; exact E|].
  rewrite !Nat.iter_succ. intros E. apply IH.
  apply crc16_shift_inj;
    [apply crc16_iter_range, Ha | apply crc16_iter_range, Hb | exact E].
Qed.

(** How [crc16_byte] mixes a byte in: into the high half of the
    register. *)
Lemma crc16_byte_mix (crc d : Z) :
  0 <= crc < 2 ^ 16 ->
  u16 (Z.lxor crc (Z.shiftl (u16 d) 8)) = Z.lxor crc (Z.shiftl (d mod 2 ^ 8) 8).
Proof.
  intros H. unfold u16.
  rewrite <- (Z.mod_small crc (2 ^ 16)) at 2 by lia. bits.
Qed.

Lemma crc16_mix_range (crc d : Z) :
  0 <= crc < 2 ^ 16 -> 0 <= Z.lxor crc (Z.shiftl (d mod 2 ^ 8) 8) < 2 ^ 16.
Proof.
  intros H. rewrite <- crc16_byte_mix by exact H. apply Z.mod_pos_bound. lia.
Qed.

Lemma crc16_byte_inj_crc (a b d : Z) :
  0 <= a < 2 ^ 16 -> 0 <= b < 2 ^ 16 ->
  crc16_byte a d = crc16_byte b d -> a = b.
Proof.
  intros Ha Hb E. unfold crc16_byte in E.
  rewrite !crc16_byte_mix in E by assumption.
  apply crc16_iter_inj in E; try (apply crc16_mix_range; assumption).
  apply (f_equal (fun x => Z.lxor x (Z.shiftl (d mod 2 ^ 8) 8))) in E.
  rewrite !Z.lxor_assoc, Z.lxor_nilpotent, !Z.lxor_0_r in E. exact E.
Qed.

Lemma crc16_byte_inj_data (crc d d' : Z) :
  0 <= crc < 2 ^ 16 ->
  crc16_byte crc d = crc16_byte crc d' -> d mod 2 ^ 8 = d' mod 2 ^ 8.
Proof.
  intros Hc E. unfold crc16_byte in E.
  rewrite !crc16_byte_mix in E by assumption.
  apply crc16_iter_inj in E; try (apply crc16_mix_range; assumption).
  apply (f_equal (Z.lxor crc)) in E.
  rewrite <- !Z.lxor_assoc, Z.lxor_nilpotent, !Z.lxor_0_l in E.
  apply (f_equal (fun x => Z.shiftr x 8)) in E.
  rewrite !Z.shiftr_shiftl_l, !Z.shiftl_0_r in E by lia. exact E.
Qed.

Lemma crc16_fold_range (data : list Z) (crc : Z) :
  0 <= crc < 2 ^ 16 -> 0 <= fold_left crc16_byte data crc < 2 ^ 16.
Proof.
  revert crc. induction data as [|d data IH]; intros crc H; [exact H|].
  cbn [fold_left]. apply IH, crc16_byte_range.
Qed.

Lemma crc16_range (data : list Z) : 0 <= crc16_ccitt_false data < 2 ^ 16.
Proof. apply crc16_fold_range. lia. Qed.

Lemma crc16_fold_inj (data : list Z) (a b : Z) :
  0 <= a < 2 ^ 16 -> 0 <= b < 2 ^ 16 ->
  fold_left crc16_byte data a = fold_left crc16_byte data b -> a = b.
Proof.
  revert a b. induction data as [|d data IH]; intros a b Ha Hb E; [exact E|].
  cbn [fold_left] in E. apply IH in E; try apply crc16_byte_range.
  exact (crc16_byte_inj_crc a b d Ha Hb E).
Qed.

(** X1: [crc16_ccitt_false] tells apart any two buffers that differ
    in one byte only, the bytes before and after it being the same: a
    corruption confined to one byte always changes the CRC.  Bytes count
    as [uint8_t], modulo 256. *)
Theorem crc16_detects_one_byte (pre post : list Z) (d d' : Z) :
  d mod 256 <> d' mod 256 ->
  crc16_ccitt_false (pre ++ d :: post) <> crc16_ccitt_false (pre ++ d' :: post).
Proof.
  intros Hd E. apply Hd. unfold crc16_ccitt_false in E.
  rewrite !fold_left_app in E. cbn [fold_left] in E.
  apply crc16_fold_inj in E; try apply crc16_byte_range.
  apply crc16_byte_inj_data in E; [exact E|].
  apply crc16_fold_range. lia.
Qed.

Lemma crc16_detects_one_byte_witness :
  0x2D mod 256 <> 0x2F mod 256
  /\ crc16_ccitt_false ([0x53; 0x4E] ++ 0x2D :: [0x45])
     <> crc16_ccitt_false ([0x53; 0x4E] ++ 0x2F :: [0x45]).
Proof.
  assert (H : 0x2D mod 256 <> 0x2F mod 256) by (vm_compute; discriminate).
  split; [exact H|].
  exact (crc16_detects_one_byte [0x53; 0x4E] [0x45] 0x2D 0x2F H).
Defined.

(** Eight shifts of a register whose high byte is clear move the low
    byte up. *)
Lemma crc16_shift_low_byte (k : nat) (v : Z) :
  (k <= 8)%nat -> 0 <= v < 2 ^ 8 ->
  Nat.iter k crc16_shift v = Z.shiftl v (Z.of_nat k).
Proof.
  intros Hk Hv. induction k as [|k IH].
  - symmetry. apply Z.shiftl_0_r.
  - rewrite Nat.iter_succ, IH by lia. unfold crc16_shift. rewrite top_bit.
    assert (B : 0 <= Z.shiftl v (Z.of_nat k) < 2 ^ 15).
    { rewrite Z.shiftl_mul_pow2 by lia.
      assert (2 ^ Z.of_nat k <= 2 ^ 7) by (apply Z.pow_le_mono_r; lia).
      nia. }
    replace (Z.testbit (Z.shiftl v (Z.of_nat k)) 15) with false.
    2:{ symmetry. rewrite <- (Z.mod_small _ (2 ^ 15)) by exact B.
        apply Z.mod_pow2_bits_high. lia. }
    unfold u16. rewrite Z.shiftl_shiftl by lia. rewrite Z.mod_small.
    + f_equal. lia.
    + rewrite Z.shiftl_mul_pow2 in * by lia. rewrite Z.pow_add_r by lia. lia.
Qed.

Lemma crc16_mix_high_byte (c : Z) :
  0 <= c < 2 ^ 16 ->
  Z.lxor c (Z.shiftl (Z.shiftr c 8 mod 2 ^ 8) 8) = c mod 2 ^ 8.
Proof.
  intros H. rewrite <- (Z.mod_small c (2 ^ 16)) by lia.
  clear H. Z.bitblast. rewrite Z.mod_pow2_bits_low by lia.
  destruct (Z.testbit c l); reflexivity.
Qed.

(** X2: a buffer followed by its own CRC, high byte first, has CRC
    zero: the residue of CRC-16/CCITT-FALSE, which lets a receiver check
    payload and checksum in one pass. *)
Theorem crc16_residue (data : list Z) :
  let crc := crc16_ccitt_false data in
  crc16_ccitt_false (data ++ [Z.shiftr crc 8; Z.land crc 0xFF]) = 0.
Proof.
  cbv zeta. unfold crc16_ccitt_false at 1. rewrite fold_left_app.
  cbn [fold_left]. fold (crc16_ccitt_false data).
  pose proof (crc16_range data) as R.
  set (crc := crc16_ccitt_false data) in *.
  unfold crc16_byte.
  rewrite (crc16_byte_mix crc) by exact R.
  rewrite crc16_mix_high_byte by exact R.
  rewrite (crc16_shift_low_byte 8 (crc mod 2 ^ 8))
    by (try lia; apply Z.mod_pos_bound; lia).
  change (Z.of_nat 8) with 8.
  replace (u16 (Z.lxor (Z.shiftl (crc mod 2 ^ 8) 8)
                       (Z.shiftl (u16 (Z.land crc 0xFF)) 8))) with 0.
  2:{ unfold u16. change 0xFF with (Z.ones 8). rewrite Z.land_ones by lia.
      symmetry. bits. }
  rewrite (crc16_shift_low_byte 8 0) by lia. reflexivity.
Qed.

(** *** Reading the fields back *)

Lemma blob_of_length (n : nat) (v : Z) : List.length (blob_of n v) = n.
Proof. unfold blob_of. rewrite length_map, length_seq. reflexivity. Qed.

Lemma le_val_blob (n : nat) (v : Z) :
  le_val (blob_of n v) = v mod 2 ^ (8 * Z.of_nat n).
Proof.
  apply Z.bits_inj'. intros K HK.
  pose proof (Z.div_mod K 8 ltac:(lia)) as D.
  pose proof (Z.mod_pos_bound K 8 ltac:(lia)) as B.
  assert (P : 0 <= K / 8) by (apply Z.div_pos; lia).
  replace K with (K mod 8 + 8 * Z.of_nat (Z.to_nat (K / 8)))
    by (rewrite Z2Nat.id by exact P; lia).
  set (k := K mod 8) in *. set (i := Z.to_nat (K / 8)).
  assert (T : forall a, Z.testbit a (k + 8 * Z.of_nat i)
                        = Z.testbit (byte_at a i) k).
  { intros a. rewrite testbit_byte_at by lia.
    destruct (Z.ltb_spec k 8); [reflexivity | lia]. }
  rewrite T, byte_at_le_val.
  destruct (Nat.lt_ge_cases i n) as [L|L].
  - rewrite nth_blob_of by exact L.
    rewrite u8_small by apply byte_at_range.
    rewrite Z.mod_pow2_bits_low by lia. symmetry. apply T.
  - rewrite nth_overflow by (rewrite blob_of_length; exact L).
    rewrite Z.mod_pow2_bits_high by lia. apply Z.testbit_0_l.
Qed.

Lemma as_uint_blob4 (v : Z) : as_uint (blob_of 4 v) = v mod 2 ^ 32.
Proof. exact (le_val_blob 4 v). Qed.

Lemma c_string_nul (l : list Z) : c_string (l ++ [0]) = c_string l.
Proof.
  induction l as [|b l IH]; [reflexivity|]. cbn [app c_string].
  rewrite IH. reflexivity.
Qed.

(** What the read step prints once its four reads succeeded. *)
Lemma printed_view (b : efuse_bits) :
  let c := read_view b in
  let crc16_calc :=
    crc16_ccitt_false (cur_serial c ++ payload_tail (cur_hw_rev c) (cur_flags c))
  in
  [ LOGI_SERIAL_NUMBER (c_string (firstn 16 (cur_serial c) ++ [0]));
    LOGI_HW_REV (cur_hw_rev c);
    LOGI_FEATURE_FLAGS (cur_flags c);
    LOGI_PROVISIONING_CRC16 (cur_crc16 c);
    LOGI_CRC16_recalculated crc16_calc;
    if cur_crc16 c =? 0 then LOGW_CRC16_stored_is_zero
    else if negb (cur_crc16 c =? crc16_calc) then LOGW_CRC16_mismatch
    else LOGI_CRC16_check_OK ]
  = printed b.
Proof.
  cbv zeta. rewrite read_view_payload. unfold printed, read_view, stored_crc.
  cbn [cur_serial cur_hw_rev cur_flags cur_crc16].
  rewrite c_string_nul, !as_uint_blob2, as_uint_blob4, little_endian_blob.
  rewrite <- (blob_of_length 16 (serial_number b)) at 1. rewrite firstn_all.
  destruct (provisioning_crc16 b mod 2 ^ 16 =? 0); [reflexivity|].
  destruct (_ =? _); reflexivity.
Qed.

Lemma read_custom_fields_cases (hw : efuse_hw) :
  exists e log hw' pre f,
    efuse_read_custom_fields hw = ((e, log), hw')
    /\ quiet hw hw' (pre ++ [OpRead f e])
    /\ forallb read_succeeded pre = true
    /\ (nonzero e = true -> log = [] /\ faults hw <> [])
    /\ (nonzero e = false -> e = ESP_OK /\ log = printed (burned hw)).
Proof.
  unfold efuse_read_custom_fields, bind, ret.
  read_step hw e1 b1 hw1 Q1 V1.
  case_if E1.
  { eexists _, _, _, [], USER_DATA_SERIAL_NUMBER.
    split; [reflexivity|]. split; [exact Q1|]. split; [reflexivity|].
    split; [intros _; split; [reflexivity | exact (fault_pending _ E1)]|].
    congruence. }
  apply nonzero_false in E1.
  read_step hw1 e2 b2 hw2 Q2 V2.
  pose proof (quiet_trans _ _ _ _ _ Q1 Q2) as Q12.
  case_if E2.
  { eexists _, _, _, [OpRead USER_DATA_SERIAL_NUMBER _], USER_DATA_HW_REV.
    split; [reflexivity|]. split; [exact Q12|].
    split; [rewrite E1; reflexivity|].
    split; [|congruence]. intros _. split; [reflexivity|].
    intros F. apply (fault_pending _ E2). exact (quiet_faults _ _ _ Q1 F). }
  apply nonzero_false in E2.
  read_step hw2 e3 b3 hw3 Q3 V3.
  pose proof (quiet_trans _ _ _ _ _ Q12 Q3) as Q123.
  case_if E3.
  { eexists _, _, _,
      ([OpRead USER_DATA_SERIAL_NUMBER _] ++ [OpRead USER_DATA_HW_REV _]),
      USER_DATA_FEATURE_FLAGS.
    split; [reflexivity|]. split; [exact Q123|].
    split; [rewrite E1, E2; reflexivity|].
    split; [|congruence]. intros _. split; [reflexivity|].
    intros F. apply (fault_pending _ E3).
    exact (quiet_faults _ _ _ Q12 F). }
  apply nonzero_false in E3.
  read_step hw3 e4 b4 hw4 Q4 V4.
  pose proof (quiet_trans _ _ _ _ _ Q123 Q4) as Q1234.
  case_if E4.
  { eexists _, _, _,
      (([OpRead USER_DATA_SERIAL_NUMBER _] ++ [OpRead USER_DATA_HW_REV _])
         ++ [OpRead USER_DATA_FEATURE_FLAGS _]),
      USER_DATA_PROVISIONING_CRC16.
    split; [reflexivity|]. split; [exact Q1234|].
    split; [rewrite E1, E2, E3; reflexivity|].
    split; [|congruence]. intros _. split; [reflexivity|].
    intros F. apply (fault_pending _ E4).
    exact (quiet_faults _ _ _ Q123 F). }
  pose proof (nonzero_false _ E4) as E4'.
  eexists ESP_OK, _, _,
    (([OpRead USER_DATA_SERIAL_NUMBER _] ++ [OpRead USER_DATA_HW_REV _])
       ++ [OpRead USER_DATA_FEATURE_FLAGS _]),
    USER_DATA_PROVISIONING_CRC16.
  split; [reflexivity|]. split; [rewrite E4' in Q1234; exact Q1234|].
  split; [rewrite E1, E2, E3; reflexivity|].
  split; [discriminate|]. intros _. split; [reflexivity|].
  subst b1 b2 b3 b4.
  rewrite ?(quiet_burned _ _ _ Q3), ?(quiet_burned _ _ _ Q2),
    ?(quiet_burned _ _ _ Q1).
  exact (printed_view (burned hw)).
Qed.

Lemma is_provisioned_reads (hw : efuse_hw) :
  exists ok hw' pre f e,
    efuse_is_provisioned hw = ((ok, ok), hw')
    /\ quiet hw hw' (pre ++ [OpRead f e])
    /\ forallb read_succeeded pre = true
    /\ (nonzero e = true -> ok = false)
    /\ (nonzero e = false ->
        ok = crc_matches (read_view (burned hw))
        /\ pre ++ [OpRead f e] = reads_ok).
Proof.
  unfold efuse_is_provisioned, bind, ret.
  read_step hw e1 b1 hw1 Q1 V1.
  case_if E1.
  { eexists _, _, [], USER_DATA_SERIAL_NUMBER, _.
    split; [reflexivity|]. split; [exact Q1|]. split; [reflexivity|].
    split; [reflexivity | congruence]. }
  apply nonzero_false in E1.
  read_step hw1 e2 b2 hw2 Q2 V2.
  pose proof (quiet_trans _ _ _ _ _ Q1 Q2) as Q12.
  case_if E2.
  { eexists _, _, [OpRead USER_DATA_SERIAL_NUMBER _], USER_DATA_HW_REV, _.
    split; [reflexivity|]. split; [exact Q12|].
    split; [rewrite E1; reflexivity|].
    split; [reflexivity | congruence]. }
  apply nonzero_false in E2.
  read_step hw2 e3 b3 hw3 Q3 V3.
  pose proof (quiet_trans _ _ _ _ _ Q12 Q3) as Q123.
  case_if E3.
  { eexists _, _,
      ([OpRead USER_DATA_SERIAL_NUMBER _] ++ [OpRead USER_DATA_HW_REV _]),
      USER_DATA_FEATURE_FLAGS, _.
    split; [reflexivity|]. split; [exact Q123|].
    split; [rewrite E1, E2; reflexivity|].
    split; [reflexivity | congruence]. }
  apply nonzero_false in E3.
  read_step hw3 e4 b4 hw4 Q4 V4.
  pose proof (quiet_trans _ _ _ _ _ Q123 Q4) as Q1234.
  case_if E4.
  { eexists _, _,
      (([OpRead USER_DATA_SERIAL_NUMBER _] ++ [OpRead USER_DATA_HW_REV _])
         ++ [OpRead USER_DATA_FEATURE_FLAGS _]),
      USER_DATA_PROVISIONING_CRC16, _.
    split; [reflexivity|]. split; [exact Q1234|].
    split; [rewrite E1, E2, E3; reflexivity|].
    split; [reflexivity | congruence]. }
  pose proof (nonzero_false _ E4) as E4'.
  eexists _, _,
    (([OpRead USER_DATA_SERIAL_NUMBER _] ++ [OpRead USER_DATA_HW_REV _])
       ++ [OpRead USER_DATA_FEATURE_FLAGS _]),
    USER_DATA_PROVISIONING_CRC16, _.
  split; [reflexivity|]. split; [exact Q1234|].
  split; [rewrite E1, E2, E3; reflexivity|].
  split; [congruence|]. intros _. subst b1 b2 b3 b4.
  rewrite ?(quiet_burned _ _ _ Q3), ?(quiet_burned _ _ _ Q2),
    ?(quiet_burned _ _ _ Q1).
  split; [reflexivity|]. rewrite E1, E2, E3, E4'. reflexivity.
Qed.

Lemma ops_between_quiet (hw hw' : efuse_hw) (ops : list efuse_op) :
  quiet hw hw' ops -> ops_between hw hw' = ops.
Proof. intros Q. apply ops_between_app, (quiet_log _ _ _ Q). Qed.

Lemma read_succeeded_reads (ops : list efuse_op) :
  forallb read_succeeded ops = true -> forallb is_read_op ops = true.
Proof.
  rewrite !forallb_forall. intros H op Hop. specialize (H op Hop).
  destruct op; try discriminate H. reflexivity.
Qed.

(** X3: [efuse_read_custom_fields], whatever the driver answers,
    burns nothing, stages nothing and opens no batch; it only reads, every
    read but possibly the last succeeded, the result of the last read is
    the value returned, and when that is an error nothing is printed. *)
Theorem read_custom_fields_only_reads (hw : efuse_hw) :
  let r := efuse_read_custom_fields hw in
  let ops := ops_between hw (snd r) in
  burned (snd r) = burned hw
  /\ staged (snd r) = staged hw
  /\ in_batch (snd r) = in_batch hw
  /\ forallb is_read_op ops = true
  /\ (exists pre f,
         ops = pre ++ [OpRead f (fst (fst r))]
         /\ forallb read_succeeded pre = true)
  /\ (fst (fst r) <> ESP_OK -> snd (fst r) = []).
Proof.
  cbv zeta.
  destruct (read_custom_fields_cases hw)
    as (e & log & hw' & pre & f & E & Q & P & Bad & Good).
  rewrite E. cbn [fst snd]. rewrite (ops_between_quiet _ _ _ Q).
  split; [exact (quiet_burned _ _ _ Q)|].
  split; [exact (quiet_staged _ _ _ Q)|].
  split; [exact (quiet_batch _ _ _ Q)|].
  split; [exact (quiet_reads _ _ _ Q)|].
  split; [exists pre, f; split; [reflexivity | exact P]|].
  intros Ne. apply Bad, nonzero_true. exact Ne.
Qed.

(** X4: [efuse_is_provisioned], whatever the driver answers: the
    flag it writes through its argument is the value it returns, the device
    is left as it was, only reads are made, and the answer is [true] exactly
    when the four reads (serial number, revision, flags, CRC) all succeeded,
    the stored CRC is not zero and it is the CRC of the stored payload.  A
    failed read makes the answer [false]. *)
Theorem is_provisioned_needs_four_reads (hw : efuse_hw) :
  let r := efuse_is_provisioned hw in
  let ops := ops_between hw (snd r) in
  snd (fst r) = fst (fst r)
  /\ burned (snd r) = burned hw
  /\ staged (snd r) = staged hw
  /\ in_batch (snd r) = in_batch hw
  /\ forallb is_read_op ops = true
  /\ (fst (fst r) = true
      <-> ops = reads_ok
          /\ stored_crc (burned hw) <> 0
          /\ stored_crc (burned hw)
             = crc16_ccitt_false (stored_payload (burned hw))).
Proof.
  cbv zeta.
  destruct (is_provisioned_reads hw)
    as (ok & hw' & pre & f & e & E & Q & P & Bad & Good).
  rewrite E. cbn [fst snd]. rewrite (ops_between_quiet _ _ _ Q).
  split; [reflexivity|].
  split; [exact (quiet_burned _ _ _ Q)|].
  split; [exact (quiet_staged _ _ _ Q)|].
  split; [exact (quiet_batch _ _ _ Q)|].
  split; [exact (quiet_reads _ _ _ Q)|].
  pose proof (crc_matches_iff (burned hw)) as M.
  rewrite <- crc16_ccitt_false_refines in M.
  destruct (nonzero e) eqn:Ne.
  - rewrite (Bad eq_refl). split; [discriminate|].
    intros (R & _). exfalso.
    apply (f_equal (fun l => forallb read_succeeded l)) in R.
    rewrite forallb_app, P in R. cbn in R.
    apply nonzero_true in Ne. apply Z.eqb_neq in Ne.
    unfold ESP_OK in R. rewrite Ne in R. discriminate R.
  - destruct (Good eq_refl) as (-> & R). rewrite R, M. tauto.
Qed.

(** *** What a settled device stores *)

Lemma little_endian_length (n : nat) (v : Z) :
  List.length (little_endian n v) = n.
Proof. unfold little_endian. rewrite length_map, length_seq. reflexivity. Qed.

Lemma desired_bytes_length (s : string) (h fl : Z) (f : efuse_field) :
  List.length (desired_bytes s h fl f) = field_bytes f.
Proof.
  destruct (desired_payload_layout s h fl) as (L & _ & _).
  destruct (desired_bytes_layout s h fl) as (H & F & C).
  destruct f; rewrite ?H, ?F, ?C, ?little_endian_length; try reflexivity.
  exact L.
Qed.

Lemma settled_field (b : efuse_bits) (s : string) (h fl : Z)
  (f : efuse_field) :
  settled b s h fl ->
  blob_of (field_bytes f) (get_field f b) = desired_bytes s h fl f.
Proof.
  intros S. apply (nth_ext _ _ 0 0).
  - rewrite blob_of_length, desired_bytes_length. reflexivity.
  - rewrite blob_of_length. intros i Hi. rewrite nth_blob_of by exact Hi.
    exact (S f i Hi).
Qed.

Lemma settled_stored (b : efuse_bits) (s : string) (h fl : Z) :
  settled b s h fl ->
  stored_payload b = desired_payload s h fl
  /\ stored_crc b = crc16_ccitt_false (desired_payload s h fl).
Proof.
  intros S.
  pose proof (settled_field b s h fl USER_DATA_SERIAL_NUMBER S) as Hs.
  pose proof (settled_field b s h fl USER_DATA_HW_REV S) as Hh.
  pose proof (settled_field b s h fl USER_DATA_FEATURE_FLAGS S) as Hf.
  pose proof (settled_field b s h fl USER_DATA_PROVISIONING_CRC16 S) as Hc.
  cbn [field_bytes get_field] in Hs, Hh, Hf, Hc.
  destruct (desired_payload_layout s h fl) as (_ & T & _).
  destruct (desired_bytes_layout s h fl) as (H & F & _).
  split.
  - unfold stored_payload. rewrite !little_endian_blob, Hs, Hh, Hf, H, F.
    rewrite <- T. unfold desired_bytes. apply firstn_skipn.
  - unfold stored_crc.
    change 16 with (8 * Z.of_nat 2). rewrite <- le_val_blob, Hc.
    unfold desired_bytes. rewrite little_endian_blob, le_val_blob.
    apply Z.mod_small. apply crc16_range.
Qed.

(** *** How a call ends, whatever the driver reports *)

Lemma program_outcome (s : string) (h fl : Z) (hw hw' : efuse_hw)
  (e : esp_err_t) :
  efuse_program_custom_fields (Some s) h fl hw = (e, hw') ->
  (burned hw' = burned hw
   /\ (e = ESP_OK ->
       crc_matches (read_view (burned hw)) = true
       \/ settled (burned hw) s h fl))
  \/ (e = ESP_OK /\ settled (burned hw') s h fl).
Proof.
  intros E. destruct (program_cases s h fl hw) as (e' & hw1 & E' & R).
  rewrite E in E'. injection E' as <- <-.
  inversion R as [h0 ops Q P | e0 h0 ops Q Ne _ | h0 ops Q _ _
                 | h0 ops Q _ C N | h1 ops e0 h0 Q _ C N B]; subst.
  - left. split; [exact (quiet_burned _ _ _ Q)|]. intros _. left. exact P.
  - left. split; [exact (quiet_burned _ _ _ Q)|]. intros ->. discriminate Ne.
  - left. split; [exact (quiet_burned _ _ _ Q)|]. discriminate.
  - left. split; [exact (quiet_burned _ _ _ Q)|]. intros _. right.
    apply nothing_needed_settled; assumption.
  - inversion B as [e0 h0 Ne _ Bu _ | pre it post e0 h0 _ _ Ne _ Bu _ _ _
                   | e0 h0 Ne _ Bu _ | h0 Bu _]; subst.
    1-3: left; split; [rewrite Bu; exact (quiet_burned _ _ _ Q)|];
      intros ->; discriminate Ne.
    right. split; [reflexivity|].
    rewrite Bu, (quiet_burned _ _ _ Q). apply committed_settled. exact C.
Qed.

(** X5: every call of [efuse_program_custom_fields], whatever its
    arguments, the state of the device and the failures of the driver, ends
    in one of two ways: the burned bits are what they were, or the call
    returns [ESP_OK] and the device holds exactly the requested payload and
    its CRC.  No exit leaves a part of the payload burned. *)
Theorem program_all_or_nothing (serial : option string) (h fl : Z)
  (hw : efuse_hw) :
  let r := efuse_program_custom_fields serial h fl hw in
  burned (snd r) = burned hw
  \/ (fst r = ESP_OK
      /\ exists s,
           serial = Some s
           /\ stored_payload (burned (snd r)) = desired_payload s h fl
           /\ stored_crc (burned (snd r))
              = crc16_ccitt_false (desired_payload s h fl)).
Proof.
  cbv zeta. destruct serial as [s|]; [|left; reflexivity].
  destruct (efuse_program_custom_fields (Some s) h fl hw) as [e hw'] eqn:E.
  cbn [fst snd].
  destruct (program_outcome s h fl hw hw' e E) as [(B & _)|(-> & S)].
  - left. exact B.
  - right. split; [reflexivity|]. exists s. split; [reflexivity|].
    apply settled_stored. exact S.
Qed.

(** *** Pending failures *)

Lemma nf_ret {A} (a : A) : no_fault (ret a).
Proof. intros hw F. exact F. Qed.

Lemma nf_bind {A B} (m : M A) (k : A -> M B) :
  no_fault m -> (forall a, no_fault (k a)) -> no_fault (bind m k).
Proof.
  intros Hm Hk hw F. unfold bind. specialize (Hm hw F).
  destruct (m hw) as [a hw1]. cbn [snd] in Hm. exact (Hk a hw1 Hm).
Qed.

Lemma nf_quiet {A} (m : M A) :
  (forall hw, exists ops, quiet hw (snd (m hw)) ops) -> no_fault m.
Proof. intros H hw F. destruct (H hw) as (ops & Q). exact (quiet_faults _ _ _ Q F). Qed.

Lemma nf_is_provisioned : no_fault efuse_is_provisioned.
Proof.
  apply nf_quiet. intros hw.
  destruct (is_provisioned_cases hw) as (ok & hw' & ops & E & Q & _).
  rewrite E. exists ops. exact Q.
Qed.

Lemma nf_read_current : no_fault read_current_fields.
Proof.
  apply nf_quiet. intros hw.
  destruct (read_current_cases hw) as (e & c & hw' & ops & E & Q & _).
  rewrite E. exists ops. exact Q.
Qed.

Lemma nf_read_custom : no_fault efuse_read_custom_fields.
Proof.
  apply nf_quiet. intros hw.
  destruct (read_custom_fields_cases hw)
    as (e & log & hw' & pre & f & E & Q & _).
  rewrite E. eexists. exact Q.
Qed.

Lemma nf_begin : no_fault esp_efuse_batch_write_begin.
Proof.
  intros hw F. rewrite begin_eq. cbv zeta. rewrite F.
  reflexivity.
Qed.

Lemma nf_write (f : efuse_field) (src : list Z) (bits : Z) :
  no_fault (esp_efuse_write_field_blob f src bits).
Proof.
  intros [b st ib fs log] F. cbn [faults] in F. subst fs.
  unfold esp_efuse_write_field_blob, bind, next_result, record_op, ret.
  cbn [burned staged in_batch faults oplog hd tl].
  change (nonzero ESP_OK) with false. cbv iota.
  destruct (field_bits f <? bits); [reflexivity|].
  cbn [burned staged in_batch faults oplog].
  destruct (nonzero (Z.land _ _)); [reflexivity|].
  destruct ib; reflexivity.
Qed.

Lemma nf_cancel : no_fault esp_efuse_batch_write_cancel.
Proof.
  intros [b st ib fs log] F. cbn [faults] in F. subst fs.
  unfold esp_efuse_batch_write_cancel. cbn [in_batch].
  destruct ib; reflexivity.
Qed.

Lemma nf_commit : no_fault esp_efuse_batch_write_commit.
Proof.
  intros [b st ib fs log] F. cbn [faults] in F. subst fs.
  unfold esp_efuse_batch_write_commit. cbn [in_batch].
  destruct ib; reflexivity.
Qed.

Ltac nf_step :=
  first
    [ apply nf_ret | apply nf_is_provisioned | apply nf_read_current
    | apply nf_read_custom | apply nf_begin | apply nf_write
    | apply nf_cancel | apply nf_commit
    | apply nf_bind; [|intros ?]
    | match goal with
      | |- no_fault (if ?c then _ else _) => destruct c
      end ].

Lemma nf_stage_and_commit ns nh nf' nc ds dh df dc :
  no_fault (stage_and_commit ns nh nf' nc ds dh df dc).
Proof. unfold stage_and_commit, stage. repeat nf_step. Qed.

Ltac nf := repeat first [apply nf_stage_and_commit | nf_step].

Lemma nf_program (serial : option string) (h fl : Z) :
  no_fault (efuse_program_custom_fields serial h fl).
Proof.
  destruct serial as [s|]; [|apply nf_ret].
  unfold efuse_program_custom_fields. cbv zeta.
  nf.
Qed.

Ltac nf_all :=
  repeat first [apply nf_program | apply nf_stage_and_commit | nf_step].

Lemma nf_app_main : no_fault app_main.
Proof. unfold app_main. nf_all. Qed.

(** *** The verdict of the read step *)

Lemma printed_ok (b : efuse_bits) :
  In LOGI_CRC16_check_OK (printed b)
  <-> stored_crc b <> 0
      /\ stored_crc b = crc16_ccitt_false (stored_payload b).
Proof.
  unfold printed. cbv zeta. cbn [In].
  destruct (Z.eqb_spec (stored_crc b) 0) as [Z0|Z0];
    destruct (Z.eqb_spec (stored_crc b)
                (crc16_ccitt_false (stored_payload b))) as [M|M].
  all: split;
    [ intros [H|[H|[H|[H|[H|[H|[]]]]]]]; try discriminate H; tauto
    | intros (H1 & H2); try contradiction ].
  do 5 right. left. reflexivity.
Qed.

Lemma read_custom_no_fault (hw : efuse_hw) :
  faults hw = [] ->
  fst (efuse_read_custom_fields hw) = (ESP_OK, printed (burned hw)).
Proof.
  intros F.
  destruct (read_custom_fields_cases hw)
    as (e & log & hw' & pre & f & E & Q & P & Bad & Good).
  rewrite E. cbn [fst].
  destruct (nonzero e) eqn:Ne.
  - destruct (Bad eq_refl) as (_ & NF). contradiction.
  - destruct (Good eq_refl) as (-> & ->). reflexivity.
Qed.

(** X6: with a driver that reports no failure,
    [efuse_read_custom_fields] returns [ESP_OK] and prints the stored
    fields; the line [CRC16 check: OK] is among them exactly when
    [efuse_is_provisioned] answers [true].  The two functions agree on
    every device. *)
Theorem read_custom_fields_verdict (hw : efuse_hw) :
  faults hw = [] ->
  fst (efuse_read_custom_fields hw) = (ESP_OK, printed (burned hw))
  /\ (In LOGI_CRC16_check_OK (snd (fst (efuse_read_custom_fields hw)))
      <-> fst (fst (efuse_is_provisioned hw)) = true).
Proof.
  intros F. rewrite (read_custom_no_fault hw F).
  split; [reflexivity|]. cbn [fst snd].
  rewrite (is_provisioned_no_fault hw F). cbn [fst].
  rewrite printed_ok, crc_matches_iff, crc16_ccitt_false_refines.
  reflexivity.
Qed.

Lemma read_custom_fields_verdict_witness :
  let hw := mk_hw (mk_bits 255399919590907027361477604034825811 1 15 13061)
                  no_bits false [] [] in
  fst (efuse_read_custom_fields hw) = (ESP_OK, printed (burned hw))
  /\ (In LOGI_CRC16_check_OK (snd (fst (efuse_read_custom_fields hw)))
      <-> fst (fst (efuse_is_provisioned hw)) = true).
Proof.
  apply (read_custom_fields_verdict
           (mk_hw (mk_bits 255399919590907027361477604034825811 1 15 13061)
                  no_bits false [] [])).
  reflexivity.
Defined.

(** *** A corrupted payload *)

Lemma stored_payload_range (b : efuse_bits) (x : Z) :
  In x (stored_payload b) -> 0 <= x < 256.
Proof.
  unfold stored_payload, little_endian. rewrite !in_app_iff, !in_map_iff.
  intros [(i & <- & _)|[(i & <- & _)|(i & <- & _)]];
    apply Z.mod_pos_bound; lia.
Qed.

(** X7: take a device that reads as provisioned and another whose
    stored payload differs from it in one byte, the stored CRC being the
    same: [efuse_is_provisioned] answers [false] for the second. *)
Theorem corrupted_byte_not_provisioned (hw hw' : efuse_hw)
  (pre post : list Z) (d d' : Z) :
  faults hw = [] ->
  faults hw' = [] ->
  fst (fst (efuse_is_provisioned hw)) = true ->
  stored_payload (burned hw) = pre ++ d :: post ->
  stored_payload (burned hw') = pre ++ d' :: post ->
  stored_crc (burned hw') = stored_crc (burned hw) ->
  d <> d' ->
  fst (fst (efuse_is_provisioned hw')) = false.
Proof.
  intros F F' P S S' C Hd.
  rewrite (is_provisioned_no_fault hw F) in P.
  rewrite (is_provisioned_no_fault hw' F'). cbn [fst] in *.
  apply crc_matches_iff in P. destruct P as (_ & P).
  apply not_true_is_false. intros P'.
  apply crc_matches_iff in P'. destruct P' as (_ & P').
  rewrite <- crc16_ccitt_false_refines in P, P'.
  rewrite C, P, S, S' in P'. unfold crc16_ccitt_false in P'.
  rewrite !fold_left_app in P'. cbn [fold_left] in P'.
  apply crc16_fold_inj in P'; try apply crc16_byte_range.
  apply crc16_byte_inj_data in P'; [|apply crc16_fold_range; lia].
  assert (R : 0 <= d < 256).
  { apply (stored_payload_range (burned hw)). rewrite S. apply in_elt. }
  assert (R' : 0 <= d' < 256).
  { apply (stored_payload_range (burned hw')). rewrite S'. apply in_elt. }
  rewrite !Z.mod_small in P' by (simpl; lia). exact (Hd P').
Qed.

Lemma corrupted_byte_not_provisioned_witness :
  let good := mk_hw (mk_bits 255399919590907027361477604034825811 1 15 13061)
                    no_bits false [] [] in
  let bad := mk_hw (mk_bits (255399919590907027361477604034825811 + 128)
                            1 15 13061)
                   no_bits false [] [] in
  fst (fst (efuse_is_provisioned good)) = true
  /\ fst (fst (efuse_is_provisioned bad)) = false.
Proof.
  cbv zeta. split; [vm_compute; reflexivity|].
  apply (corrupted_byte_not_provisioned
           (mk_hw (mk_bits 255399919590907027361477604034825811 1 15 13061)
                  no_bits false [] [])
           (mk_hw (mk_bits (255399919590907027361477604034825811 + 128)
                           1 15 13061)
                  no_bits false [] [])
           [] (tl (stored_payload
                     (mk_bits 255399919590907027361477604034825811 1 15 13061)))
           0x53 0xD3).
  - reflexivity.
  - reflexivity.
  - vm_compute. reflexivity.
  - vm_compute. reflexivity.
  - vm_compute. reflexivity.
  - reflexivity.
  - discriminate.
Defined.

(** *** Programming, then reading back *)

Lemma min16 (n : nat) : (if (16 <? n)%nat then 16%nat else n) = Nat.min 16 n.
Proof. destruct (Nat.ltb_spec 16 n); lia. Qed.

Lemma list_ascii_length (s : string) :
  List.length (list_ascii_of_string s) = String.length s.
Proof.
  induction s as [|c s IH]; cbn [list_ascii_of_string List.length String.length];
    congruence.
Qed.

Lemma serial_prefix_length (s : string) :
  List.length (serial_prefix s) = Nat.min 16 (strlen s).
Proof.
  unfold serial_prefix. pose proof (strlen_le s).
  rewrite firstn_length_le; [reflexivity|]. rewrite list_ascii_length. lia.
Qed.

Lemma desired_payload_prefix (s : string) (h fl : Z) :
  desired_payload s h fl
  = map byte_of_ascii (serial_prefix s)
      ++ repeat 0 (16 - List.length (serial_prefix s))
      ++ payload_tail h fl.
Proof.
  unfold desired_payload. cbv zeta.
  rewrite serial_prefix_length, min16. unfold serial_prefix, bytes_of_string.
  rewrite firstn_map. reflexivity.
Qed.

Lemma c_string_zeros (k : nat) : c_string (repeat 0 k) = [].
Proof. destruct k; reflexivity. Qed.

Lemma c_string_serial (s : string) (n k : nat) :
  (n <= strlen s)%nat ->
  c_string (firstn n (bytes_of_string s) ++ repeat 0 k)
  = firstn n (bytes_of_string s).
Proof.
  revert s. induction n as [|n IH]; intros s H.
  - cbn [firstn app]. apply c_string_zeros.
  - destruct s as [|c r]; cbn [strlen] in H; [lia|].
    unfold bytes_of_string in *. cbn [list_ascii_of_string map firstn app c_string].
    destruct (byte_of_ascii c =? 0); [lia|].
    rewrite IH by lia. reflexivity.
Qed.

Lemma settled_printed (b : efuse_bits) (s : string) (h fl : Z) :
  settled b s h fl ->
  let crc := crc16_ccitt_false (desired_payload s h fl) in
  printed b
  = [ LOGI_SERIAL_NUMBER (map byte_of_ascii (serial_prefix s));
      LOGI_HW_REV (h mod 2 ^ 16);
      LOGI_FEATURE_FLAGS (fl mod 2 ^ 32);
      LOGI_PROVISIONING_CRC16 crc;
      LOGI_CRC16_recalculated crc;
      if crc =? 0 then LOGW_CRC16_stored_is_zero else LOGI_CRC16_check_OK ].
Proof.
  intros S. cbv zeta.
  destruct (settled_stored b s h fl S) as (P & C).
  pose proof (settled_field b s h fl USER_DATA_SERIAL_NUMBER S) as Hs.
  pose proof (settled_field b s h fl USER_DATA_HW_REV S) as Hh.
  pose proof (settled_field b s h fl USER_DATA_FEATURE_FLAGS S) as Hf.
  cbn [field_bytes get_field] in Hs, Hh, Hf.
  destruct (desired_bytes_layout s h fl) as (H & F & _).
  rewrite H in Hh. rewrite F in Hf. rewrite little_endian_blob in Hh, Hf.
  unfold printed. cbv zeta. rewrite P, C, Z.eqb_refl.
  f_equal; [|f_equal; [|f_equal]].
  - f_equal. rewrite little_endian_blob, Hs. unfold desired_bytes.
    pose proof (desired_serial_length s) as L. cbv zeta in L.
    unfold desired_payload. cbv zeta. rewrite app_assoc.
    rewrite firstn_app, L, Nat.sub_diag, firstn_O, app_nil_r.
    rewrite <- L at 1. rewrite firstn_all.
    rewrite c_string_serial by (rewrite min16; lia).
    rewrite min16. unfold serial_prefix, bytes_of_string.
    apply firstn_map.
  - f_equal. change 16 with (8 * Z.of_nat 2).
    rewrite <- !le_val_blob, Hh. reflexivity.
  - f_equal. change 32 with (8 * Z.of_nat 4).
    rewrite <- !le_val_blob, Hf. reflexivity.
Qed.

Lemma programmed_settled (s : string) (h fl : Z) (hw hw1 : efuse_hw) :
  faults hw = [] ->
  fst (fst (efuse_is_provisioned hw)) = false ->
  efuse_program_custom_fields (Some s) h fl hw = (ESP_OK, hw1) ->
  faults hw1 = [] /\ settled (burned hw1) s h fl.
Proof.
  intros F NP E. split.
  - pose proof (nf_program (Some s) h fl hw F) as N. rewrite E in N. exact N.
  - rewrite (is_provisioned_no_fault hw F) in NP. cbn [fst] in NP.
    destruct (program_outcome s h fl hw hw1 ESP_OK E) as [(B & H)|(_ & S)];
      [|exact S].
    rewrite B. destruct (H eq_refl) as [P|S]; [congruence | exact S].
Qed.

(** X8: round trip.  On a device that does not read as provisioned,
    after a call of [efuse_program_custom_fields] that returned [ESP_OK],
    [efuse_read_custom_fields] prints the serial number cut at 16
    characters and at its first NUL, the revision modulo 2^16, the flags
    modulo 2^32, and the CRC of that payload both as stored and as
    recalculated; the check is reported OK unless that CRC is zero. *)
Theorem program_then_read (s : string) (h fl : Z) (hw hw1 : efuse_hw) :
  faults hw = [] ->
  fst (fst (efuse_is_provisioned hw)) = false ->
  efuse_program_custom_fields (Some s) h fl hw = (ESP_OK, hw1) ->
  let crc := crc16_ccitt_false (desired_payload s h fl) in
  fst (efuse_read_custom_fields hw1)
  = (ESP_OK,
     [ LOGI_SERIAL_NUMBER (map byte_of_ascii (serial_prefix s));
       LOGI_HW_REV (h mod 2 ^ 16);
       LOGI_FEATURE_FLAGS (fl mod 2 ^ 32);
       LOGI_PROVISIONING_CRC16 crc;
       LOGI_CRC16_recalculated crc;
       if crc =? 0 then LOGW_CRC16_stored_is_zero else LOGI_CRC16_check_OK ]).
Proof.
  intros F NP E.
  destruct (programmed_settled s h fl hw hw1 F NP E) as (F1 & S).
  cbv zeta. rewrite (read_custom_no_fault hw1 F1).
  f_equal. exact (settled_printed _ s h fl S).
Qed.

Lemma program_then_read_witness :
  let hw1 := snd (efuse_program_custom_fields
                    (Some "SN-ESP32S3-0001-rev-B"%string) 0x10002 (-1) blank) in
  fst (efuse_read_custom_fields hw1)
  = (ESP_OK,
     [ LOGI_SERIAL_NUMBER (bytes_of_string "SN-ESP32S3-0001-");
       LOGI_HW_REV 2;
       LOGI_FEATURE_FLAGS 0xFFFFFFFF;
       LOGI_PROVISIONING_CRC16 0x3438;
       LOGI_CRC16_recalculated 0x3438;
       LOGI_CRC16_check_OK ]).
Proof.
  apply (program_then_read "SN-ESP32S3-0001-rev-B" 0x10002 (-1) blank
           (snd (efuse_program_custom_fields
                   (Some "SN-ESP32S3-0001-rev-B"%string) 0x10002 (-1) blank))).
  - reflexivity.
  - vm_compute. reflexivity.
  - vm_compute. reflexivity.
Defined.

(** X9: after such a successful call the device reads as
    provisioned exactly when the CRC of the requested payload is not
    0x0000.  A payload whose CRC is zero is programmed with [ESP_OK] and
    never reads as provisioned. *)
Theorem provisioned_after_programming (s : string) (h fl : Z)
  (hw hw1 : efuse_hw) :
  faults hw = [] ->
  fst (fst (efuse_is_provisioned hw)) = false ->
  efuse_program_custom_fields (Some s) h fl hw = (ESP_OK, hw1) ->
  (fst (fst (efuse_is_provisioned hw1)) = true
   <-> crc16_ccitt_false (desired_payload s h fl) <> 0).
Proof.
  intros F NP E.
  destruct (programmed_settled s h fl hw hw1 F NP E) as (F1 & S).
  rewrite (is_provisioned_no_fault hw1 F1). cbn [fst].
  rewrite crc_matches_iff, <- crc16_ccitt_false_refines.
  destruct (settled_stored _ s h fl S) as (-> & ->). tauto.
Qed.

Lemma provisioned_after_programming_witness :
  let r := efuse_program_custom_fields (Some EmptyString) 0 0xB8F60000 blank in
  fst r = ESP_OK
  /\ crc16_ccitt_false (desired_payload EmptyString 0 0xB8F60000) = 0
  /\ fst (fst (efuse_is_provisioned (snd r))) = false.
Proof.
  cbv zeta. split; [vm_compute; reflexivity|].
  split; [vm_compute; reflexivity|].
  apply not_true_is_false. intros P.
  apply (provisioned_after_programming EmptyString 0 0xB8F60000 blank
           (snd (efuse_program_custom_fields (Some EmptyString) 0 0xB8F60000
                                             blank))) in P.
  - apply P. vm_compute. reflexivity.
  - reflexivity.
  - vm_compute. reflexivity.
  - vm_compute. reflexivity.
Defined.

(** X10: on a device that reads as provisioned,
    [efuse_program_custom_fields] returns [ESP_OK] for every serial number,
    revision and flags, also when they differ from what is stored, after
    its four reads and nothing else: the request is not compared with the
    device. *)
Theorem provisioned_device_is_frozen (s : string) (h fl : Z) (hw : efuse_hw) :
  faults hw = [] ->
  fst (fst (efuse_is_provisioned hw)) = true ->
  efuse_program_custom_fields (Some s) h fl hw = (ESP_OK, logged reads_ok hw).
Proof.
  intros F P. rewrite (is_provisioned_no_fault hw F) in P. cbn [fst] in P.
  unfold efuse_program_custom_fields. unfold bind at 1.
  rewrite (is_provisioned_no_fault hw F). cbn [fst snd]. rewrite P.
  reflexivity.
Qed.

Lemma provisioned_device_is_frozen_witness :
  let hw := mk_hw (mk_bits 255399919590907027361477604034825811 1 15 13061)
                  no_bits false [] [] in
  efuse_program_custom_fields (Some "SN-OTHER-DEVICE"%string) 7 0 hw
  = (ESP_OK, logged reads_ok hw).
Proof.
  apply (provisioned_device_is_frozen "SN-OTHER-DEVICE" 7 0
           (mk_hw (mk_bits 255399919590907027361477604034825811 1 15 13061)
                  no_bits false [] [])).
  - reflexivity.
  - vm_compute. reflexivity.
Defined.

(** X11: two serial strings with the same first 16 characters, up to
    their first NUL, are programmed alike: same result, same final state.
    What follows the 16th character is dropped without an error. *)
Theorem serial_beyond_16_ignored (s1 s2 : string) (h fl : Z) (hw : efuse_hw) :
  serial_prefix s1 = serial_prefix s2 ->
  efuse_program_custom_fields (Some s1) h fl hw
  = efuse_program_custom_fields (Some s2) h fl hw.
Proof.
  intros H.
  assert (D : desired_payload s1 h fl = desired_payload s2 h fl).
  { rewrite !desired_payload_prefix, H. reflexivity. }
  unfold efuse_program_custom_fields. cbv zeta. rewrite D. reflexivity.
Qed.

Lemma serial_beyond_16_ignored_witness :
  efuse_program_custom_fields (Some "SN-ESP32S3-0001-A"%string) 1 15 blank
  = efuse_program_custom_fields (Some "SN-ESP32S3-0001-B"%string) 1 15 blank.
Proof.
  apply (serial_beyond_16_ignored "SN-ESP32S3-0001-A" "SN-ESP32S3-0001-B"
           1 15 blank).
  reflexivity.
Defined.

(** *** A blank device *)

Lemma program_no_fault_result (s : string) (h fl : Z) (hw hw' : efuse_hw)
  (e : esp_err_t) :
  faults hw = [] ->
  efuse_program_custom_fields (Some s) h fl hw = (e, hw') ->
  e = ESP_OK
  \/ (e = ESP_ERR_INVALID_STATE /\ burned hw' = burned hw
      /\ l_conflict s h fl (read_view (burned hw)) = true).
Proof.
  intros F E. destruct (program_cases s h fl hw) as (e' & hw1 & E' & R).
  rewrite E in E'. injection E' as <- <-.
  inversion R as [h0 ops Q P | e0 h0 ops Q Ne NF | h0 ops Q _ C
                 | h0 ops Q _ C N | h1 ops e0 h0 Q _ C N B]; subst.
  - left. reflexivity.
  - contradiction.
  - right. split; [reflexivity|].
    split; [exact (quiet_burned _ _ _ Q) | exact C].
  - left. reflexivity.
  - left. rewrite l_items_spec in B.
    exact (proj1 (batch_no_fault _ s h fl _ _ _ (quiet_faults _ _ _ Q F)
                    (quiet_burned _ _ _ Q) B)).
Qed.

Lemma blank_stored_crc (b : efuse_bits) : blank_fields b -> stored_crc b = 0.
Proof.
  intros B. unfold stored_crc. change 16 with (8 * Z.of_nat 2).
  rewrite <- le_val_blob. unfold blob_of. cbn [seq map].
  change (byte_at (provisioning_crc16 b) 0)
    with (current_byte b USER_DATA_PROVISIONING_CRC16 0).
  change (byte_at (provisioning_crc16 b) 1)
    with (current_byte b USER_DATA_PROVISIONING_CRC16 1).
  rewrite !B by (cbn; lia). reflexivity.
Qed.

(** X12: on a device whose four fields are blank, with a driver that
    reports no failure, every request succeeds: the call returns [ESP_OK]
    and the device then holds the payload and its CRC. *)
Theorem blank_device_takes_any_payload (s : string) (h fl : Z)
  (hw : efuse_hw) :
  faults hw = [] ->
  blank_fields (burned hw) ->
  let r := efuse_program_custom_fields (Some s) h fl hw in
  fst r = ESP_OK
  /\ stored_payload (burned (snd r)) = desired_payload s h fl
  /\ stored_crc (burned (snd r)) = crc16_ccitt_false (desired_payload s h fl).
Proof.
  intros F B. cbv zeta.
  destruct (efuse_program_custom_fields (Some s) h fl hw) as [e hw'] eqn:E.
  cbn [fst snd].
  assert (NP : crc_matches (read_view (burned hw)) = false).
  { apply not_true_is_false. intros P. apply crc_matches_iff in P.
    destruct P as (P & _). exact (P (blank_stored_crc _ B)). }
  assert (NC : l_conflict s h fl (read_view (burned hw)) = false).
  { apply no_conflict_bytes. intros f i Hi. unfold conflict_byte.
    rewrite (B f i Hi). apply Z.ldiff_0_l. }
  destruct (program_no_fault_result s h fl hw hw' e F E) as [->|(_ & _ & C)];
    [|congruence].
  split; [reflexivity|]. apply settled_stored.
  destruct (program_outcome s h fl hw hw' ESP_OK E) as [(Bu & H)|(_ & S)];
    [|exact S].
  rewrite Bu. destruct (H eq_refl) as [P|S]; [congruence | exact S].
Qed.

Lemma blank_device_takes_any_payload_witness :
  let r := efuse_program_custom_fields (Some "SN-0042"%string) 3 0x80000001
             blank in
  fst r = ESP_OK
  /\ stored_payload (burned (snd r)) = desired_payload "SN-0042" 3 0x80000001
  /\ stored_crc (burned (snd r))
     = crc16_ccitt_false (desired_payload "SN-0042" 3 0x80000001).
Proof.
  apply (blank_device_takes_any_payload "SN-0042" 3 0x80000001 blank).
  - reflexivity.
  - intros f i _. destruct f; apply byte_at_0.
Defined.

(** *** Batches *)

Lemma batch_open_app (a b : list efuse_op) (open : bool) :
  batch_open (a ++ b) open
  = match batch_open a open with
    | Some open' => batch_open b open'
    | None => None
    end.
Proof.
  revert open. induction a as [|op a IH]; intros open; [reflexivity|].
  cbn [app batch_open].
  destruct op as [f e|e|f d e|e|e].
  - apply IH.
  - destruct (nonzero e); [apply IH|]. destruct open; [reflexivity | apply IH].
  - destruct open; [apply IH | reflexivity].
  - destruct open; [apply IH | reflexivity].
  - destruct open; [apply IH | reflexivity].
Qed.

Lemma batch_open_reads (ops : list efuse_op) (open : bool) :
  forallb is_read_op ops = true -> batch_open ops open = Some open.
Proof.
  induction ops as [|op ops IH]; cbn [forallb]; intros H; [reflexivity|].
  apply andb_true_iff in H. destruct H as [Ho H].
  destruct op; try discriminate Ho. cbn [batch_open]. exact (IH H).
Qed.

Lemma batch_open_ok_writes (items : list work_item) :
  batch_open (ok_writes items) true = Some true.
Proof.
  unfold ok_writes. induction (needed items) as [|it l IH]; [reflexivity|].
  cbn [map batch_open]. exact IH.
Qed.

(** X13: in every call of [efuse_program_custom_fields] the driver
    calls are well bracketed: a field is written only inside a batch, no
    batch is begun inside another, and every batch begun is committed or
    cancelled before the function returns. *)
Theorem program_batches_bracketed (serial : option string) (h fl : Z)
  (hw : efuse_hw) :
  let r := efuse_program_custom_fields serial h fl hw in
  batch_open (ops_between hw (snd r)) false = Some false.
Proof.
  cbv zeta. destruct serial as [s|].
  2:{ cbn [efuse_program_custom_fields ret snd].
      rewrite (ops_between_app hw hw []) by (symmetry; apply app_nil_r).
      reflexivity. }
  destruct (program_cases s h fl hw) as (e & hw' & E & R). rewrite E.
  cbn [snd].
  destruct R as [h0 ops Q _ | e0 h0 ops Q _ _ | h0 ops Q _ _
                | h0 ops Q _ _ _ | h1 ops e0 h0 Q _ _ _ B].
  1-4: rewrite (ops_between_quiet _ _ _ Q);
    exact (batch_open_reads _ _ (quiet_reads _ _ _ Q)).
  pose proof (quiet_log _ _ _ Q) as L1.
  pose proof (batch_open_reads _ false (quiet_reads _ _ _ Q)) as R1.
  destruct B as [e1 h2 Ne _ _ L | pre it post e1 h2 _ _ Ne _ _ _ _ L
                | e1 h2 Ne _ _ L | h2 _ L];
    rewrite L1, <- app_assoc in L; rewrite (ops_between_app _ _ _ L);
    rewrite batch_open_app, R1; cbn [batch_open nonzero Z.eqb negb ESP_OK];
    rewrite ?Ne, ?batch_open_app, ?batch_open_ok_writes; reflexivity.
Qed.

(** *** The demo's entry point *)

(** X14: [app_main] with a driver that reports no failure: the read
    step returns [ESP_OK] and prints the fields as they are after the
    provisioning step; and either provisioning returned [ESP_OK] and the
    line [CRC16 check: OK] is printed, or it returned
    [ESP_ERR_INVALID_STATE], bits already burned being in conflict with the
    demo values, and left the device untouched. *)
Theorem app_main_outcome (hw : efuse_hw) :
  faults hw = [] ->
  let '(err, read_err, log) := fst (app_main hw) in
  read_err = ESP_OK
  /\ log = printed (burned (snd (app_main hw)))
  /\ ((err = ESP_OK /\ In LOGI_CRC16_check_OK log)
      \/ (err = ESP_ERR_INVALID_STATE
          /\ burned (snd (app_main hw)) = burned hw)).
Proof.
  intros F. unfold app_main, bind, ret.
  destruct (efuse_program_custom_fields (Some demo_serial) demo_hw_rev
              demo_flags hw) as [err hw1] eqn:E.
  pose proof (nf_program (Some demo_serial) demo_hw_rev demo_flags hw F) as F1.
  rewrite E in F1. cbn [snd] in F1.
  pose proof (read_custom_no_fault hw1 F1) as R.
  destruct (read_custom_fields_cases hw1)
    as (e & log & hw2 & pre & f & E2 & Q & _).
  rewrite E2 in R |- *. cbn [fst snd] in R |- *. injection R as -> ->.
  rewrite (quiet_burned _ _ _ Q).
  split; [reflexivity|]. split; [reflexivity|].
  destruct (program_no_fault_result _ _ _ _ _ _ F E) as [->|(-> & B & _)].
  - left. split; [reflexivity|]. apply printed_ok.
    destruct (first_call_outcome _ _ _ _ _ E) as [P|S].
    + apply crc_matches_iff in P.
      rewrite <- crc16_ccitt_false_refines in P. exact P.
    + destruct (settled_stored _ _ _ _ S) as (-> & ->).
      split; [|reflexivity]. vm_compute. discriminate.
  - right. split; [reflexivity | exact B].
Qed.

Lemma app_main_outcome_witness :
  let '(err, read_err, log) := fst (app_main blank) in
  read_err = ESP_OK
  /\ log = printed (burned (snd (app_main blank)))
  /\ ((err = ESP_OK /\ In LOGI_CRC16_check_OK log)
      \/ (err = ESP_ERR_INVALID_STATE
          /\ burned (snd (app_main blank)) = burned blank)).
Proof. apply (app_main_outcome blank). reflexivity. Defined.

End EfuseMore.

(** ** More properties of the OTA manager *)

(** *** [parse_https_host] *)

Module OtaParse.
Import C Ota OtaMore.
Local Open Scope string_scope.

Lemma append_assoc (a b c : string) : (a ++ b) ++ c = a ++ b ++ c.
Proof. induction a as [|x a IH]; cbn; [reflexivity | rewrite IH; reflexivity]. Qed.

Lemma append_nil_r (a : string) : a ++ "" = a.
Proof. induction a as [|x a IH]; cbn; [reflexivity | rewrite IH; reflexivity]. Qed.

Lemma length_append (a b : string) :
  String.length (a ++ b) = (String.length a + String.length b)%nat.
Proof. induction a as [|x a IH]; cbn; [reflexivity | rewrite IH; reflexivity]. Qed.

Lemma prefix_split (a b : string) :
  String.prefix a b = true -> exists r, b = a ++ r.
Proof.
  revert b. induction a as [|x a IH]; intros b H.
  - exists b. reflexivity.
  - destruct b as [|y b]; cbn [String.prefix] in H; [discriminate H|].
    destruct (ascii_dec x y) as [->|]; [|discriminate H].
    destruct (IH b H) as (r & ->). exists r. reflexivity.
Qed.

Lemma prefix_append (a r : string) : String.prefix a (a ++ r) = true.
Proof.
  induction a as [|x a IH]; cbn; [destruct r; reflexivity|].
  destruct (ascii_dec x x) as [_|N]; [exact IH | contradiction].
Qed.

Lemma strstr_split (hay needle p : string) :
  strstr hay needle = Some p ->
  exists pre, hay = pre ++ p /\ String.prefix needle p = true.
Proof.
  revert p. induction hay as [|c hay IH]; intros p H; cbn [strstr] in H.
  - destruct (String.prefix needle "") eqn:P; [|discriminate H].
    injection H as <-. exists "". split; [reflexivity | exact P].
  - destruct (String.prefix needle (String c hay)) eqn:P.
    + injection H as <-. exists "". split; [reflexivity | exact P].
    + destruct (IH p H) as (pre & -> & Q). exists (String c pre).
      split; [reflexivity | exact Q].
Qed.

Lemma substring_drop (a b : string) :
  String.substring (String.length a) (String.length b) (a ++ b) = b.
Proof.
  induction a as [|x a IH]; cbn [String.length append String.substring].
  - induction b as [|y b IHb]; [reflexivity|].
    cbn [String.length String.substring]. rewrite IHb. reflexivity.
  - exact IH.
Qed.

Lemma substring_take (a b : string) :
  String.substring 0 (String.length a) (a ++ b) = a.
Proof.
  induction a as [|x a IH]; cbn [String.length append String.substring].
  - destruct b; reflexivity.
  - rewrite IH. reflexivity.
Qed.

Lemma strchr_split (s : string) (c : ascii) (off : nat) :
  strchr s c = Some off ->
  exists a b, s = a ++ String c b /\ String.length a = off
              /\ strchr a c = None.
Proof.
  revert off. induction s as [|d s IH]; intros off H; cbn [strchr] in H.
  - discriminate H.
  - destruct (Ascii.eqb_spec d c) as [->|Ne].
    + injection H as <-. exists "", s. repeat split.
    + destruct (strchr s c) as [o|] eqn:E; [|discriminate H].
      cbn [option_map] in H. injection H as <-.
      destruct (IH o eq_refl) as (a & b & -> & L & N).
      exists (String d a), b. cbn [append String.length strchr].
      rewrite L, N. destruct (Ascii.eqb_spec d c); [contradiction|].
      repeat split.
Qed.

Lemma strchr_append (a b : string) (c : ascii) :
  strchr a c = None ->
  strchr (a ++ b) c = option_map (Nat.add (String.length a)) (strchr b c).
Proof.
  induction a as [|d a IH]; intros H; cbn [append strchr String.length].
  - destruct (strchr b c); reflexivity.
  - cbn [strchr] in H. destruct (Ascii.eqb d c); [discriminate H|].
    destruct (strchr a c); [discriminate H|]. rewrite IH by reflexivity.
    destruct (strchr b c); reflexivity.
Qed.

Lemma c_str_all (s : string) :
  all_chars (fun d => negb (byte_of_ascii d =? 0)%Z) (c_str s) = true.
Proof.
  induction s as [|c s IH]; cbn [c_str]; [reflexivity|].
  destruct (byte_of_ascii c =? 0)%Z eqn:E; [reflexivity|].
  cbn [all_chars]. rewrite E, IH. reflexivity.
Qed.

Lemma all_chars_append (p : ascii -> bool) (a b : string) :
  all_chars p (a ++ b) = all_chars p a && all_chars p b.
Proof.
  induction a as [|c a IH]; cbn [append all_chars]; [reflexivity|].
  rewrite IH. apply andb_assoc.
Qed.

Lemma skip_scheme (q : string) :
  String.substring 8 (String.length ("https://" ++ q) - 8) ("https://" ++ q)
  = q.
Proof.
  replace (String.length ("https://" ++ q) - 8)%nat with (String.length q)
    by (cbn; lia).
  exact (substring_drop "https://" q).
Qed.

(** X15: a host that [parse_https_host] returns is not empty, is
    shorter than [host_out_len] so that it fits the buffer with its NUL,
    contains neither [/] nor NUL, and stands in the URL right after an
    occurrence of [https://], followed by [/] or by the end of the
    string. *)
Theorem parse_https_host_sound (url host : string) (host_out_len : nat) :
  parse_https_host url host_out_len = Some host ->
  (0 < String.length host < host_out_len)%nat
  /\ strchr host "/" = None
  /\ all_chars (fun d => negb (byte_of_ascii d =? 0)%Z) host = true
  /\ exists pre rest,
       c_str url = pre ++ "https://" ++ host ++ rest
       /\ (rest = EmptyString \/ exists r, rest = String "/" r).
Proof.
  unfold parse_https_host. intros H.
  destruct (strstr (c_str url) "https://") as [p|] eqn:S; [|discriminate H].
  destruct (strstr_split _ _ _ S) as (pre & U & P).
  destruct (prefix_split _ _ P) as (q & ->).
  rewrite skip_scheme in H.
  pose proof (c_str_all url) as A. rewrite U, !all_chars_append in A.
  apply andb_true_iff in A. destruct A as (_ & A).
  apply andb_true_iff in A. destruct A as (_ & A).
  destruct (strchr q "/") as [off|] eqn:C.
  - destruct (strchr_split _ _ _ C) as (a & b & -> & L & N).
    destruct ((off =? 0)%nat || (host_out_len <=? off)%nat) eqn:B;
      [discriminate H|].
    apply orb_false_iff in B. destruct B as (B1 & B2).
    apply Nat.eqb_neq in B1. apply Nat.leb_gt in B2.
    rewrite <- L, substring_take in H. injection H as <-.
    rewrite all_chars_append in A. apply andb_true_iff in A.
    split; [lia|]. split; [exact N|]. split; [exact (proj1 A)|].
    exists pre, (String "/" b). split; [exact U|]. right. exists b.
    reflexivity.
  - destruct ((String.length q =? 0)%nat
              || (host_out_len <=? String.length q)%nat) eqn:B;
      [discriminate H|].
    apply orb_false_iff in B. destruct B as (B1 & B2).
    apply Nat.eqb_neq in B1. apply Nat.leb_gt in B2.
    rewrite <- (append_nil_r q) in H at 2. rewrite substring_take in H.
    injection H as <-.
    split; [lia|]. split; [exact C|]. split; [exact A|].
    exists pre, EmptyString. split; [|left; reflexivity].
    rewrite append_nil_r. exact U.
Qed.

Lemma parse_https_host_sound_witness :
  (0 < String.length "example.com" < 128)%nat
  /\ strchr "example.com" "/" = None
  /\ all_chars (fun d => negb (byte_of_ascii d =? 0)%Z) "example.com" = true
  /\ exists pre rest,
       c_str "https://example.com/fw.bin" = pre ++ "https://" ++ "example.com" ++ rest
       /\ (rest = EmptyString \/ exists r, rest = String "/" r).
Proof.
  apply (parse_https_host_sound "https://example.com/fw.bin" "example.com" 128).
  reflexivity.
Defined.

Lemma c_str_clean (s : string) :
  all_chars (fun d => negb (byte_of_ascii d =? 0)%Z) s = true -> c_str s = s.
Proof.
  induction s as [|c s IH]; cbn [all_chars c_str]; intros H; [reflexivity|].
  apply andb_true_iff in H. destruct H as (Hc & Hs).
  apply negb_true_iff in Hc. rewrite Hc, IH by exact Hs. reflexivity.
Qed.

Lemma c_str_append (a b : string) :
  all_chars (fun d => negb (byte_of_ascii d =? 0)%Z) a = true ->
  c_str (a ++ b) = a ++ c_str b.
Proof.
  induction a as [|c a IH]; cbn [all_chars append c_str]; intros H;
    [reflexivity|].
  apply andb_true_iff in H. destruct H as (Hc & Hs).
  apply negb_true_iff in Hc. rewrite Hc, IH by exact Hs. reflexivity.
Qed.

Lemma all_chars_weaken (p q : ascii -> bool) (s : string) :
  (forall c, p c = true -> q c = true) ->
  all_chars p s = true -> all_chars q s = true.
Proof.
  intros I. induction s as [|c s IH]; cbn [all_chars]; [reflexivity|].
  rewrite !andb_true_iff. intros (Hc & Hs). auto.
Qed.

Lemma strstr_here (hay needle : string) :
  String.prefix needle hay = true -> strstr hay needle = Some hay.
Proof. intros H. destruct hay; cbn [strstr]; rewrite H; reflexivity. Qed.

Lemma strstr_skip (pre rest : string) :
  all_chars (other_than "h") pre = true ->
  strstr (pre ++ "https://" ++ rest) "https://" = Some ("https://" ++ rest).
Proof.
  induction pre as [|c pre IH]; intros H.
  - apply strstr_here, prefix_append.
  - cbn [all_chars] in H. apply andb_true_iff in H. destruct H as (Hc & Hs).
    unfold other_than in Hc. apply andb_true_iff in Hc.
    destruct Hc as (Hc & _). apply negb_true_iff in Hc.
    apply Ascii.eqb_neq in Hc.
    cbn [append strstr String.prefix].
    destruct (ascii_dec "h" c) as [E|_]; [symmetry in E; contradiction|].
    exact (IH Hs).
Qed.

Lemma strchr_none (s : string) (c : ascii) :
  all_chars (other_than c) s = true -> strchr s c = None.
Proof.
  induction s as [|d s IH]; cbn [all_chars strchr]; intros H; [reflexivity|].
  apply andb_true_iff in H. destruct H as (Hd & Hs).
  unfold other_than in Hd. apply andb_true_iff in Hd. destruct Hd as (Hd & _).
  apply negb_true_iff in Hd. rewrite Hd, IH by exact Hs. reflexivity.
Qed.

(** X16: conversely, a URL made of a prefix without the letter [h],
    then [https://], a non-empty host without [/] that is shorter than the
    buffer, then nothing or a path, yields that host.  The prefix need not
    be empty: the scheme is looked for with [strstr], anywhere in the
    URL. *)
Theorem parse_https_host_finds (pre host rest : string) (host_out_len : nat) :
  all_chars (other_than "h") pre = true ->
  all_chars (other_than "/") host = true ->
  (0 < String.length host < host_out_len)%nat ->
  rest = EmptyString \/ (exists r, rest = String "/" r) ->
  parse_https_host (pre ++ "https://" ++ host ++ rest) host_out_len
  = Some host.
Proof.
  intros Hp Hh Hl Hr.
  assert (Z : forall c s, all_chars (other_than c) s = true ->
                all_chars (fun d => negb (byte_of_ascii d =? 0)%Z) s = true).
  { intros c s. apply all_chars_weaken. intros d H. unfold other_than in H.
    apply andb_true_iff in H. exact (proj2 H). }
  unfold parse_https_host.
  rewrite c_str_append by exact (Z _ _ Hp).
  change ("https://" ++ host ++ rest) with (("https://" ++ host) ++ rest).
  rewrite (c_str_append ("https://" ++ host)).
  2:{ rewrite all_chars_append, (Z _ _ Hh). reflexivity. }
  rewrite append_assoc, strstr_skip by exact Hp.
  rewrite skip_scheme.
  rewrite strchr_append by exact (strchr_none _ _ Hh).
  assert (E : match option_map (Nat.add (String.length host))
                      (strchr (c_str rest) "/") with
              | Some off => off
              | None => String.length (host ++ c_str rest)
              end = String.length host).
  { destruct Hr as [->|(r & ->)].
    - cbn [c_str strchr option_map]. rewrite append_nil_r. reflexivity.
    - cbn. lia. }
  rewrite E.
  destruct (Nat.eqb_spec (String.length host) 0) as [|_]; [lia|].
  destruct (Nat.leb_spec host_out_len (String.length host)) as [|_]; [lia|].
  cbn [orb]. rewrite substring_take. reflexivity.
Qed.

Lemma parse_https_host_finds_witness :
  parse_https_host
    ("ftp://mirror/?next=" ++ "https://" ++ "updates.example" ++ "/fw.bin") 128
  = Some "updates.example".
Proof.
  apply (parse_https_host_finds "ftp://mirror/?next=" "updates.example"
           "/fw.bin" 128).
  - reflexivity.
  - reflexivity.
  - cbn. lia.
  - right. eexists. reflexivity.
Defined.

End OtaParse.

(** *** What the task holds *)

Module OtaRes.
Import C Ota OtaMore OtaFacts.

Lemma keeps_ret {R} (x : R) : keeps (Ret x).
Proof. intros W env w r. reflexivity. Qed.

Lemma keeps_restart {R} : keeps (@Restart R).
Proof. intros W env w r. reflexivity. Qed.

Lemma keeps_enter {R} (f : fn) (p : prog R) : keeps p -> keeps (Enter f p).
Proof.
  intros H W env w r. cbn [run]. specialize (H W env w r).
  destruct (run (track env) p (w, r)) as [[o w1] t]. exact H.
Qed.

Lemma keeps_bind {A B} (p : prog A) (k : A -> prog B) :
  keeps p -> (forall a, keeps (k a)) -> keeps (pbind p k).
Proof.
  intros Hp Hk W env w r. rewrite run_pbind. specialize (Hp W env w r).
  destruct (run (track env) p (w, r)) as [[[a|] [w1 r1]] t1];
    cbn [fst snd] in Hp; subst r1; [|reflexivity].
  specialize (Hk a W env w1 r).
  destruct (run (track env) (k a) (w1, r)) as [[o w2] t2]. exact Hk.
Qed.

Lemma keeps_do {R X} (c : call X) (k : X -> prog R) :
  (forall x r, account c x r = r) -> (forall x, keeps (k x)) ->
  keeps (Do c k).
Proof.
  intros N Hk W env w r. cbn [run]. unfold track at 1. cbn [fst snd].
  destruct (env X c w) as [x w1]. rewrite N. specialize (Hk x W env w1 r).
  destruct (run (track env) (k x) (w1, r)) as [[o w2] t]. exact Hk.
Qed.

Lemma keeps_perform {X} (c : call X) :
  (forall x r, account c x r = r) -> keeps (perform c).
Proof. intros N. apply keeps_do; [exact N | intros x; apply keeps_ret]. Qed.

Lemma release_after_acquire (r : resources) :
  mk_res (addrinfo_lists r) (sockets r) (http_clients r) (http_connections r)
         (misuse r) = r.
Proof. destruct r. reflexivity. Qed.

(** Follow one run of a tracked program: answer the next call, split on
    the next test. *)
Ltac track_step env :=
  cbn [run pbind perform fst snd negb]; unfold track; cbn [fst snd];
  match goal with
  | |- context [env ?X ?c ?w] =>
      let x := fresh "x" in
      let w' := fresh "w" in
      destruct (env X c w) as [x w']
  | |- context [if ?b then _ else _] =>
      let B := fresh "B" in destruct b eqn:B
  end.

(** At the end of a path: the tests passed on the way decide what was
    acquired. *)
Ltac settle :=
  cbn [run fst snd account];
  repeat match goal with
         | H : negb ?x = _ |- _ =>
             destruct x; cbn [negb] in H; try discriminate H; clear H
         | H : ?c = _ |- context [if ?c then _ else _] => rewrite H
         end;
  cbn [addrinfo_lists sockets http_clients http_connections misuse];
  first [reflexivity | apply release_after_acquire].

Lemma keeps_cloud_trigger (cfg : app_cfg) : keeps (cloud_trigger_requested cfg).
Proof.
  intros W env w r. unfold cloud_trigger_requested.
  repeat track_step env.
  all: settle.
Qed.

Lemma keeps_network_ready (url : string) : keeps (network_ready_check url).
Proof.
  intros W env w r. unfold network_ready_check. cbn [run].
  destruct (parse_https_host url 128) as [host|]; [|reflexivity].
  cbn [run pbind perform]. unfold track at 1. cbn [fst snd].
  destruct (env (Z * bool)%type _ w) as [[err res] w1].
  cbn [account fst snd]. unfold nonzero.
  destruct (err =? 0); cbn [negb orb andb]; [|reflexivity].
  destruct res; cbn [negb]; [|reflexivity].
  cbn [run pbind perform]. unfold track at 1. cbn [fst snd].
  destruct (env Z socket w1) as [s w2]. cbn [account].
  rewrite (Z.leb_antisym s 0).
  destruct (s <? 0); cbn [negb].
  - repeat track_step env.
    cbn [run fst snd account addrinfo_lists sockets http_clients
         http_connections misuse].
    apply release_after_acquire.
  - repeat track_step env.
    cbn [run fst snd account addrinfo_lists sockets http_clients
         http_connections misuse].
    apply release_after_acquire.
Qed.

Ltac keeps_step :=
  first
    [ apply keeps_ret | apply keeps_restart
    | apply keeps_cloud_trigger | apply keeps_network_ready
    | apply keeps_bind; [|intros ?]
    | apply keeps_perform; intros; reflexivity
    | apply keeps_enter
    | match goal with
      | |- keeps (if ?c then _ else _) => destruct c
      end ].

Lemma keeps_cycle (cfg : app_cfg) : keeps (ota_poll_cycle cfg).
Proof.
  unfold ota_poll_cycle, update_requested, poll_delay.
  repeat keeps_step.
  all: unfold ota_button_pressed, in_maintenance_window, is_time_set,
         read_battery_mv, https_ota_run.
  all: repeat keeps_step.
Qed.

(** X17: the decision task leaks nothing.  Counting address lists,
    sockets, HTTP handles and HTTP connections as the system hands them out
    and takes them back, any number of passes of the loop, in any
    environment and however the run ends, leaves the counts as they were,
    and nothing is released that is not held. *)
Theorem ota_task_releases_everything {W}
  (env : forall X, call X -> W -> X * W) (cfg : app_cfg) (cycles : nat)
  (w : W) (r : resources) :
  snd (snd (fst (run (track env) (ota_decision_task cfg cycles) (w, r)))) = r.
Proof.
  revert W env w r. change (keeps (ota_decision_task cfg cycles)).
  unfold ota_decision_task, sntp_start_once.
  repeat keeps_step.
  induction cycles as [|n IH]; [apply keeps_ret|].
  rewrite Nat.iter_succ. apply keeps_bind; [apply keeps_cycle|].
  intros _. exact IH.
Qed.

End OtaRes.

(** *** The gates and the loop *)

Module OtaLoop.
Import C Ota OtaMore OtaFacts.

Section Loop.
Context {W : Type}.
Variable env : forall X, call X -> W -> X * W.
Variable cfg : app_cfg.

(** Follow one run: answer the next call, split on the next test. *)
Ltac step :=
  cbn [run pbind perform fst snd negb] in *;
  match goal with
  | |- context [env ?X ?c ?w] =>
      let x := fresh "x" in
      let w' := fresh "w" in
      let E := fresh "E" in
      destruct (env X c w) as [x w'] eqn:E
  | |- context [if ?b then _ else _] =>
      let B := fresh "B" in destruct b eqn:B
  | |- context [match parse_https_host ?u ?n with _ => _ end] =>
      let P := fresh "P" in destruct (parse_https_host u n) eqn:P
  end.

(** X18: [network_ready_check] always returns; with a URL that
    [parse_https_host] rejects it returns [false] without any call to the
    network; and it returns [true] only after exactly one [getaddrinfo]
    for port 443 of the parsed host, one [socket], one [connect], then
    [close] and [freeaddrinfo]. *)
Theorem network_ready_check_trace (url : string) (w : W) :
  let r := run env (network_ready_check url) w in
  (exists b, fst (fst r) = Returned b)
  /\ (parse_https_host url 128 = None ->
      r = (Returned false, w,
           [Entered fn_network_ready_check; Entered fn_parse_https_host]))
  /\ (fst (fst r) = Returned true ->
      exists host,
        parse_https_host url 128 = Some host
        /\ snd r = [ Entered fn_network_ready_check;
                     Entered fn_parse_https_host;
                     Called (getaddrinfo host "443");
                     Called socket; Called connect; Called close;
                     Called freeaddrinfo ]).
Proof.
  cbv zeta. unfold network_ready_check.
  repeat step.
  all: cbn [fst snd]; split; [eexists; reflexivity|].
  all: split; [intros N; try discriminate N; reflexivity|].
  all: intros T; try discriminate T.
  all: eexists; split; reflexivity.
Qed.

(** X19: [https_ota_run] never returns [ESP_OK].  With a
    certificate shorter than 32 bytes it returns [ESP_ERR_INVALID_SIZE]
    without calling [esp_https_ota]; otherwise it calls it once, with a
    timeout of 15000 ms and keep-alive, and on [ESP_OK] waits 500 ms and
    restarts the device, on an error returns that error. *)
Theorem https_ota_run_returns_only_errors (url : string) (w : W) :
  let r := run env (https_ota_run cfg url) w in
  let err := fst (env _ (esp_https_ota url 15000 true) w) in
  fst (fst r) <> Returned ESP_OK
  /\ (server_root_cert_pem_len cfg < 32 ->
      r = (Returned ESP_ERR_INVALID_SIZE, w, [Entered fn_https_ota_run]))
  /\ (32 <= server_root_cert_pem_len cfg ->
      (err = ESP_OK ->
       fst (fst r) = Rebooted
       /\ snd r = [ Entered fn_https_ota_run;
                    Called (esp_https_ota url 15000 true);
                    Called (vTaskDelay 500); Restarted ])
      /\ (err <> ESP_OK ->
          fst (fst r) = Returned err
          /\ snd r = [ Entered fn_https_ota_run;
                       Called (esp_https_ota url 15000 true) ])).
Proof.
  cbv zeta. unfold https_ota_run. cbn [run].
  destruct (Z.ltb_spec (server_root_cert_pem_len cfg) 32) as [L|L].
  { cbn [run fst snd]. split; [discriminate|].
    split; [reflexivity | lia]. }
  cbn [run pbind perform].
  destruct (env esp_err_t (esp_https_ota url 15000 true) w) as [err w1].
  cbn [fst snd].
  destruct (Z.eqb_spec err ESP_OK) as [->|Ne].
  - cbn [run pbind perform]. destruct (env unit (vTaskDelay 500) w1) as [u w2].
    cbn [run fst snd]. split; [discriminate|]. split; [lia|]. intros _.
    split; [intros _; split; reflexivity | intros N; contradiction].
  - cbn [run fst snd]. split; [intros E; injection E as E; contradiction|].
    split; [lia|]. intros _.
    split; [intros E; contradiction | intros _; split; reflexivity].
Qed.





(** X21: once the time is set and the two hours differ, exchanging
    [APP_OTA_MAINT_START_HOUR] and [APP_OTA_MAINT_END_HOUR] complements the
    window: at every hour exactly one of the two configurations is
    inside. *)
Theorem maintenance_window_complement (w : W) :
  let year := tm_year (fst (env _ localtime_now w)) + 1900 in
  2024 <= year ->
  APP_OTA_MAINT_START_HOUR cfg <> APP_OTA_MAINT_END_HOUR cfg ->
  exists inside : bool,
    fst (fst (run env (in_maintenance_window cfg) w)) = Returned inside
    /\ fst (fst (run env (in_maintenance_window (swap_window cfg)) w))
       = Returned (negb inside).
Proof.
  cbv zeta. intros Y Ne. unfold in_maintenance_window, is_time_set.
  cbn [run pbind perform].
  destruct (env tm localtime_now w) as [t1 w1]. cbn [fst snd] in Y |- *.
  destruct (Z.leb_spec 2024 (tm_year t1 + 1900)) as [_|Lt]; [|lia].
  cbn [negb run pbind perform].
  destruct (env tm localtime_now w1) as [t2 w2]. cbn [fst snd].
  cbn [swap_window APP_OTA_MAINT_START_HOUR APP_OTA_MAINT_END_HOUR].
  destruct (Z.eqb_spec (APP_OTA_MAINT_START_HOUR cfg)
              (APP_OTA_MAINT_END_HOUR cfg)) as [E|_]; [contradiction|].
  destruct (Z.eqb_spec (APP_OTA_MAINT_END_HOUR cfg)
              (APP_OTA_MAINT_START_HOUR cfg)) as [E|_];
    [symmetry in E; contradiction|].
  destruct (Z.ltb_spec (APP_OTA_MAINT_START_HOUR cfg)
              (APP_OTA_MAINT_END_HOUR cfg)) as [L|L];
    destruct (Z.ltb_spec (APP_OTA_MAINT_END_HOUR cfg)
                (APP_OTA_MAINT_START_HOUR cfg)) as [L'|L']; try lia;
    cbn [run fst]; eexists; (split; [reflexivity|]); f_equal.
  - rewrite negb_andb, <- Z.ltb_antisym, <- Z.leb_antisym. apply orb_comm.
  - rewrite negb_orb, <- Z.ltb_antisym, <- Z.leb_antisym. apply andb_comm.
Qed.

(** X22: in one pass, [cloud_trigger_requested] is entered exactly
    when the button does not read pressed, that is unless its level is 0 at
    both reads, 30 ms apart: a pressed button never contacts the trigger
    URL. *)
Theorem button_skips_cloud_trigger (w : W) :
  let gpio := gpio_get_level (APP_OTA_BUTTON_GPIO cfg) in
  let level1 := fst (env _ gpio w) in
  let w1 := snd (env _ (vTaskDelay 30) (snd (env _ gpio w))) in
  let level2 := fst (env _ gpio w1) in
  In (Entered fn_cloud_trigger_requested)
     (snd (run env (ota_poll_cycle cfg) w))
  <-> ~ (level1 = 0 /\ level2 = 0).
Proof.
  cbv zeta.
  assert (G : forall r, run env (ota_poll_cycle cfg) w = r ->
                In (Entered fn_cloud_trigger_requested) (snd r)
                <-> ~ (fst (env _ (gpio_get_level (APP_OTA_BUTTON_GPIO cfg)) w)
                       = 0
                       /\ fst (env _ (gpio_get_level (APP_OTA_BUTTON_GPIO cfg))
                                 (snd (env _ (vTaskDelay 30)
                                         (snd (env _ (gpio_get_level
                                                        (APP_OTA_BUTTON_GPIO cfg))
                                                 w))))) = 0)).
  { unfold ota_poll_cycle, update_requested, ota_button_pressed,
      cloud_trigger_requested, in_maintenance_window, is_time_set,
      read_battery_mv, network_ready_check, https_ota_run, poll_delay.
    repeat step.
    all: intros r <-; cbn [fst snd].
    all: first
           [ apply andb_true_iff in B; destruct B as (Hb1 & Hb2);
             apply Z.eqb_eq in Hb1, Hb2; split;
             [ intros Hx; exfalso;
               cbn [In] in Hx;
               repeat (destruct Hx as [Hx|Hx]; [discriminate Hx|]);
               exact Hx
             | intros N; exfalso; apply N; split; assumption ]
           | apply andb_false_iff in B; split;
             [ intros _ (A1 & A2);
               destruct B as [Hb|Hb]; apply Z.eqb_neq in Hb; contradiction
             | intros _; cbn [In];
               repeat (first [left; reflexivity | right]) ] ]. }
  exact (G _ eq_refl).
Qed.

Lemma no_ota_among (p : event -> bool) (t : list event) :
  (forall e, p e = true -> is_ota_call e = false) ->
  forallb p t = true -> existsb is_ota_call t = false.
Proof.
  intros I H. induction t as [|e t IH]; [reflexivity|].
  cbn [forallb] in H. apply andb_true_iff in H. destruct H as (He & Ht).
  cbn [existsb]. rewrite (I e He), (IH Ht). reflexivity.
Qed.

Lemma request_not_ota (e : event) :
  request_event e = true -> is_ota_call e = false.
Proof.
  destruct e as [X c|f|]; [destruct c|destruct f|]; cbn; intros H;
    first [reflexivity | discriminate H].
Qed.

Lemma window_not_ota (e : event) :
  window_event e = true -> is_ota_call e = false.
Proof.
  destruct e as [X c|f|]; [destruct c|destruct f|]; cbn; intros H;
    first [reflexivity | discriminate H].
Qed.

Lemma network_not_ota (url : string) (w : W) :
  existsb is_ota_call (snd (run env (network_ready_check url) w)) = false.
Proof. unfold network_ready_check. repeat step; reflexivity. Qed.

Lemma existsb_false_in (t : list event) (e : event) :
  existsb is_ota_call t = false -> In e t -> is_ota_call e = true -> False.
Proof.
  intros H Hin He. assert (X : existsb is_ota_call t = true).
  { apply existsb_exists. exists e. split; assumption. }
  congruence.
Qed.

(** What [https_ota_run] and the poll delay add to the trace. *)
Lemma ota_tail (w : W) :
  forall r,
    run env (https_ota_run cfg (APP_OTA_FIRMWARE_URL cfg) ;;; poll_delay cfg) w
    = r ->
    (existsb is_ota_call (snd r) = true <-> 32 <= server_root_cert_pem_len cfg)
    /\ (forall e, In e (snd r) -> is_ota_call e = true ->
        e = Called (esp_https_ota (APP_OTA_FIRMWARE_URL cfg) 15000 true)).
Proof.
  unfold https_ota_run, poll_delay. repeat step.
  all: intros r <-; cbn [snd existsb is_ota_call ota_args orb].
  all: try (apply Z.ltb_lt in B); try (apply Z.ltb_ge in B).
  all: split; [split; intros H; first [reflexivity | lia | discriminate H]|].
  all: intros e Hin He; cbn [In] in Hin.
  all: repeat (destruct Hin as [<-|Hin];
               [first [reflexivity | discriminate He]|]).
  all: contradiction.
Qed.

(** A pass that made no call of [esp_https_ota]. *)
Ltac no_attempt N :=
  split;
  [ rewrite N; split; [discriminate|]
  | intros e Hin He; destruct (existsb_false_in _ _ N Hin He) ].

Ltac gates A1 A2 A3 A4 A5 :=
  intros (? & ? & ? & ? & ? & ? & A1 & A2 & A3 & A4 & A5).

(** X23: one pass calls [esp_https_ota] exactly when all gates pass
    (request, window, battery, network, each evaluated in the state its
    predecessor left) and the certificate has at least 32 bytes; and every
    call of [esp_https_ota] is for [APP_OTA_FIRMWARE_URL], with a timeout
    of 15000 ms and keep-alive. *)
Theorem ota_only_through_all_gates (w : W) :
  let t := snd (run env (ota_poll_cycle cfg) w) in
  (existsb is_ota_call t = true <-> gates_pass env cfg w)
  /\ (forall e, In e t -> is_ota_call e = true ->
      e = Called (esp_https_ota (APP_OTA_FIRMWARE_URL cfg) 15000 true)).
Proof.
  cbv zeta. unfold gates_pass. rewrite cycle_from_battery_gate, run_pbind.
  pose proof (update_requested_events env cfg w) as H1.
  destruct (run env (update_requested cfg) w) as [[[req|] w1] t1] eqn:R1;
    cbn [snd] in H1 |- *;
    apply (no_ota_among _ _ request_not_ota) in H1.
  2:{ no_attempt H1. gates A1 A2 A3 A4 A5. discriminate A1. }
  destruct req; cbn [negb].
  2:{ unfold poll_delay. cbn [run perform].
      destruct (env unit _ w1) as [u w2]. cbn [snd].
      assert (N : existsb is_ota_call
                    (t1 ++ [Called (vTaskDelay (APP_OTA_POLL_PERIOD_MS cfg))])
                  = false).
      { rewrite existsb_app, H1. reflexivity. }
      no_attempt N. gates A1 A2 A3 A4 A5. discriminate A1. }
  rewrite run_pbind.
  pose proof (window_events env cfg w1) as H2.
  destruct (run env (in_maintenance_window cfg) w1) as [[[win|] w2] t2] eqn:R2;
    cbn [snd] in H2 |- *;
    apply (no_ota_among _ _ window_not_ota) in H2.
  2:{ assert (N : existsb is_ota_call (t1 ++ t2) = false).
      { rewrite existsb_app, H1, H2. reflexivity. }
      no_attempt N. gates A1 A2 A3 A4 A5. injection A1 as <- <-.
      rewrite R2 in A2. discriminate A2. }
  destruct win; cbn [negb].
  2:{ unfold poll_delay. cbn [run perform].
      destruct (env unit _ w2) as [u w3]. cbn [snd].
      assert (N : existsb is_ota_call
                    (t1 ++ t2
                     ++ [Called (vTaskDelay (APP_OTA_POLL_PERIOD_MS cfg))])
                  = false).
      { rewrite !existsb_app, H1, H2. reflexivity. }
      no_attempt N. gates A1 A2 A3 A4 A5. injection A1 as <- <-.
      rewrite R2 in A2. discriminate A2. }
  unfold from_battery_gate. rewrite run_pbind, read_battery_mv_value.
  destruct (Z.ltb_spec (APP_BATT_FAKE_MV cfg) (APP_BATT_MIN_MV cfg)) as [L|L].
  { unfold poll_delay. cbn [run perform].
    destruct (env unit _ w2) as [u w3]. cbn [snd].
    assert (N : existsb is_ota_call
                  (t1 ++ t2 ++ [Entered fn_read_battery_mv]
                   ++ [Called (vTaskDelay (APP_OTA_POLL_PERIOD_MS cfg))])
                = false).
    { rewrite !existsb_app, H1, H2. reflexivity. }
    no_attempt N. gates A1 A2 A3 A4 A5. lia. }
  rewrite run_pbind.
  pose proof (network_not_ota (APP_OTA_FIRMWARE_URL cfg) w2) as H3.
  destruct (run env (network_ready_check (APP_OTA_FIRMWARE_URL cfg)) w2)
    as [[[net|] w3] t3] eqn:R3; cbn [snd] in H3 |- *.
  2:{ assert (N : existsb is_ota_call
                    (t1 ++ t2 ++ [Entered fn_read_battery_mv] ++ t3) = false).
      { rewrite !existsb_app, H1, H2, H3. reflexivity. }
      no_attempt N. gates A1 A2 A3 A4 A5. injection A1 as <- <-.
      rewrite R2 in A2. injection A2 as <- <-.
      rewrite R3 in A4. discriminate A4. }
  destruct net; cbn [negb].
  2:{ unfold poll_delay. cbn [run perform].
      destruct (env unit _ w3) as [u w4]. cbn [snd].
      assert (N : existsb is_ota_call
                    (t1 ++ t2 ++ [Entered fn_read_battery_mv] ++ t3
                     ++ [Called (vTaskDelay (APP_OTA_POLL_PERIOD_MS cfg))])
                  = false).
      { rewrite !existsb_app, H1, H2, H3. reflexivity. }
      no_attempt N. gates A1 A2 A3 A4 A5. injection A1 as <- <-.
      rewrite R2 in A2. injection A2 as <- <-.
      rewrite R3 in A4. discriminate A4. }
  destruct (ota_tail w3 _ eq_refl) as (T1 & T2).
  destruct (run env (https_ota_run cfg (APP_OTA_FIRMWARE_URL cfg)
                     ;;; poll_delay cfg) w3) as [[o w4] t4].
  cbn [snd] in T1, T2 |- *. split.
  - rewrite !existsb_app, H1, H2, H3. cbn [existsb is_ota_call ota_args orb].
    rewrite T1. split.
    + intros C. exists w1, t1, w2, t2, w3, t3. auto.
    + gates A1 A2 A3 A4 A5. exact A5.
  - intros e Hin He.
    apply in_app_or in Hin. destruct Hin as [Hin|Hin];
      [destruct (existsb_false_in _ _ H1 Hin He)|].
    apply in_app_or in Hin. destruct Hin as [Hin|Hin];
      [destruct (existsb_false_in _ _ H2 Hin He)|].
    apply in_app_or in Hin. destruct Hin as [[<-|[]]|Hin];
      [discriminate He|].
    apply in_app_or in Hin. destruct Hin as [Hin|Hin];
      [destruct (existsb_false_in _ _ H3 Hin He)|].
    exact (T2 e Hin He).
Qed.

End Loop.

Lemma maintenance_window_complement_witness :
  exists inside : bool,
    fst (fst (run demo_env (in_maintenance_window demo_cfg)
                (mk_world 1 (mk_tm 126 23))))
    = Returned inside
    /\ fst (fst (run demo_env (in_maintenance_window (swap_window demo_cfg))
                   (mk_world 1 (mk_tm 126 23))))
       = Returned (negb inside).
Proof.
  apply (maintenance_window_complement demo_env demo_cfg
           (mk_world 1 (mk_tm 126 23))).
  - vm_compute. discriminate.
  - vm_compute. discriminate.
Defined.

End OtaLoop.

(** ** Properties of the Wi-Fi event handler *)

Module WifiFacts.
Import C Wifi.

Lemma deliver_cons (b : esp_event_base_t) (id : Z)
  (rest : list (esp_event_base_t * Z)) (st : wifi_state) :
  deliver ((b, id) :: rest) st
  = (fst (deliver rest (fst (wifi_event_handler b id st))),
     snd (wifi_event_handler b id st)
       ++ snd (deliver rest (fst (wifi_event_handler b id st)))).
Proof.
  cbn [deliver]. destruct (wifi_event_handler b id st) as [st1 c1].
  cbn [fst snd]. destruct (deliver rest st1). reflexivity.
Qed.

Lemma retry_count_from (events : list (esp_event_base_t * Z))
  (st : wifi_state) (n : Z) :
  0 <= n ->
  s_retry_count st = Z.min 10 n ->
  s_retry_count (fst (deliver events st))
  = Z.min 10 (disconnects_since_ip events n).
Proof.
  revert st n. induction events as [|[b id] rest IH]; intros st n Hn Hr.
  - exact Hr.
  - rewrite deliver_cons. cbn [fst disconnects_since_ip].
    unfold wifi_event_handler.
    destruct b; cbn [base_eqb andb].
    + destruct (Z.eqb_spec id WIFI_EVENT_STA_START) as [->|N1].
      { change (WIFI_EVENT_STA_START =? WIFI_EVENT_STA_DISCONNECTED)
          with false.
        cbn [fst]. apply IH; assumption. }
      destruct (Z.eqb_spec id WIFI_EVENT_STA_DISCONNECTED) as [->|N2].
      * destruct (Z.ltb_spec (s_retry_count st) 10); cbn [fst];
          apply IH; cbn [s_retry_count]; lia.
      * cbn [fst]. apply IH; assumption.
    + destruct (Z.eqb_spec id IP_EVENT_STA_GOT_IP); cbn [fst]; apply IH;
        cbn [s_retry_count]; first [assumption | lia].
    + cbn [fst]. apply IH; assumption.
Qed.

Lemma connected_bit_from (events : list (esp_event_base_t * Z))
  (st : wifi_state) :
  0 <= s_wifi_evt st ->
  Z.testbit (s_wifi_evt (fst (deliver events st))) 0
  = Z.testbit (s_wifi_evt st) 0 || existsb got_ip events.
Proof.
  revert st. induction events as [|[b id] rest IH]; intros st H0.
  - cbn. rewrite orb_false_r. reflexivity.
  - rewrite deliver_cons. cbn [fst existsb]. unfold got_ip at 1.
    cbn [fst snd]. unfold wifi_event_handler.
    assert (P : forall x, 0 <= Z.lor (s_wifi_evt st) x <-> 0 <= x).
    { intros x. rewrite Z.lor_nonneg. tauto. }
    destruct b; cbn [base_eqb andb].
    + destruct (id =? WIFI_EVENT_STA_START); [cbn [fst]; apply IH, H0|].
      destruct (id =? WIFI_EVENT_STA_DISCONNECTED); [|cbn [fst]; apply IH, H0].
      destruct (s_retry_count st <? 10); cbn [fst];
        rewrite IH; cbn [s_wifi_evt]; try exact H0.
      * reflexivity.
      * rewrite Z.lor_spec. cbn. rewrite orb_false_r. reflexivity.
      * apply P. unfold WIFI_FAIL_BIT. lia.
    + destruct (id =? IP_EVENT_STA_GOT_IP); cbn [fst]; rewrite IH;
        cbn [s_wifi_evt]; try exact H0.
      * rewrite Z.lor_spec. cbn. rewrite !orb_true_r. reflexivity.
      * apply P. unfold WIFI_CONNECTED_BIT. lia.
      * reflexivity.
    + cbn [fst]. apply IH, H0.
Qed.

(** X24: after any sequence of events delivered to
    [wifi_event_handler] from the initial state, [s_retry_count] is the
    number of disconnections since the last [IP_EVENT_STA_GOT_IP], capped
    at 10; it stays between 0 and 10; and [WIFI_CONNECTED_BIT] is set
    exactly when an address was obtained at some point: a later
    disconnection does not clear it. *)
Theorem retry_count_is_bounded (events : list (esp_event_base_t * Z)) :
  let st := fst (deliver events wifi_init) in
  s_retry_count st = Z.min 10 (disconnects_since_ip events 0)
  /\ 0 <= s_retry_count st <= 10
  /\ Z.testbit (s_wifi_evt st) 0 = existsb got_ip events.
Proof.
  cbv zeta.
  pose proof (retry_count_from events wifi_init 0 ltac:(lia) eq_refl) as R.
  assert (N : forall l n, 0 <= n -> 0 <= disconnects_since_ip l n).
  { induction l as [|[b id] l IH]; intros n Hn; [exact Hn|].
    cbn [disconnects_since_ip].
    destruct (_ && _); [apply IH; lia|].
    destruct (_ && _); apply IH; lia. }
  specialize (N events 0 ltac:(lia)).
  split; [exact R|]. split; [lia|].
  rewrite connected_bit_from by (cbn; lia). reflexivity.
Qed.

(** Disconnections in a row, [r] retries already used. *)
Lemma disconnects_in_a_row (k r : nat) (bits : Z) :
  (r <= 10)%nat ->
  deliver (repeat disconnected k) (mk_wifi (Z.of_nat r) bits)
  = (mk_wifi (Z.of_nat (Nat.min 10 (r + k)))
             (if (10 - r <? k)%nat then Z.lor bits WIFI_FAIL_BIT else bits),
     repeat esp_wifi_connect (Nat.min k (10 - r))
       ++ repeat (xEventGroupSetBits WIFI_FAIL_BIT) (k - (10 - r))).
Proof.
  revert r bits. induction k as [|k IH]; intros r bits Hr.
  - cbn [repeat deliver]. rewrite Nat.add_0_r, Nat.min_r by exact Hr.
    reflexivity.
  - cbn [repeat]. unfold disconnected at 1. rewrite deliver_cons.
    unfold wifi_event_handler. cbn [base_eqb andb s_retry_count s_wifi_evt].
    change (WIFI_EVENT_STA_DISCONNECTED =? WIFI_EVENT_STA_START) with false.
    change (WIFI_EVENT_STA_DISCONNECTED =? WIFI_EVENT_STA_DISCONNECTED)
      with true.
    cbv iota.
    destruct (Z.ltb_spec (Z.of_nat r) 10) as [L|L]; cbn [fst snd].
    + replace (Z.of_nat r + 1) with (Z.of_nat (S r)) by lia.
      rewrite IH by lia. cbn [fst snd].
      replace (Nat.min 10 (S r + k)) with (Nat.min 10 (r + S k))
        by (f_equal; lia).
      replace (10 - S r <? k)%nat with (10 - r <? S k)%nat.
      2:{ destruct (Nat.ltb_spec (10 - r) (S k)),
            (Nat.ltb_spec (10 - S r) k); try reflexivity; lia. }
      replace (Nat.min (S k) (10 - r)) with (S (Nat.min k (10 - S r))) by lia.
      replace (S k - (10 - r))%nat with (k - (10 - S r))%nat by lia.
      reflexivity.
    + assert (r = 10%nat) by lia. subst r.
      rewrite IH by lia. cbn [fst snd].
      replace (Nat.min 10 (10 + k)) with 10%nat by lia.
      replace (Nat.min 10 (10 + S k)) with 10%nat by lia.
      cbn [Nat.sub Nat.ltb Nat.leb Nat.min app repeat].
      rewrite !Nat.min_0_r, Nat.sub_0_r. cbn [repeat app]. f_equal. f_equal.
      destruct k; [reflexivity|]. cbn [Nat.leb].
      rewrite <- Z.lor_assoc, Z.lor_diag. reflexivity.
Qed.

(** X25: [k] disconnections in a row from the initial state: the
    first ten each call [esp_wifi_connect], every further one sets
    [WIFI_FAIL_BIT] and does not reconnect; [WIFI_FAIL_BIT] is set exactly
    when [k] exceeds 10. *)
Theorem gives_up_after_ten_retries (k : nat) :
  deliver (repeat disconnected k) wifi_init
  = (mk_wifi (Z.of_nat (Nat.min 10 k))
             (if (10 <? k)%nat then WIFI_FAIL_BIT else 0),
     repeat esp_wifi_connect (Nat.min k 10)
       ++ repeat (xEventGroupSetBits WIFI_FAIL_BIT) (k - 10)).
Proof.
  pose proof (disconnects_in_a_row k 0 0 ltac:(lia)) as D.
  cbn [Nat.add Nat.sub Z.of_nat] in D. unfold wifi_init. rewrite D.
  destruct (10 <? k)%nat; reflexivity.
Qed.

End WifiFacts.

(** ** Properties of the start-up *)

Module BootFacts.
Import C Wifi Boot.

Section Startup.
Context {W : Type}.
Variable env : forall X, bcall X -> W -> X * W.
Variable cfg : boot_cfg.

Ltac bnorm :=
  cbn [brun bbind bperform fst snd negb];
  try change (ESP_OK =? ESP_OK) with true;
  try change (ESP_FAIL =? ESP_OK) with false;
  try change (ESP_ERR_NO_MEM =? ESP_OK) with false;
  try change (ESP_ERR_INVALID_ARG =? ESP_OK) with false;
  cbn [brun bbind bperform fst snd negb].

Ltac bstep :=
  bnorm;
  match goal with
  | |- context [if ?b then ESP_OK else ESP_ERR_NO_MEM] =>
      let B := fresh "B" in destruct b eqn:B
  | |- context [env ?X ?c ?w] =>
      let x := fresh "x" in
      let w' := fresh "w" in
      destruct (env X c w) as [x w']
  | |- context [if ?b then _ else _] =>
      let B := fresh "B" in destruct b eqn:B
  end.

(** X26: [app_main] returns, rather than aborting in
    [ESP_ERROR_CHECK], exactly when [xTaskCreate] answered [pdPASS]; and
    [xTaskCreate] is called only after NVS was initialised with [ESP_OK],
    [esp_wifi_start] returned [ESP_OK], the wait on the event group came
    back with [WIFI_CONNECTED_BIT], and with an SSID that is not empty: the
    OTA task never starts on a device without Wi-Fi. *)
Theorem ota_task_needs_wifi (w : W) :
  let r := brun env (app_main cfg) w in
  (fst (fst r) = BReturned tt <-> existsb task_created (snd r) = true)
  /\ (existsb task_requested (snd r) = true ->
      existsb nvs_ready (snd r) = true
      /\ existsb wifi_started (snd r) = true
      /\ existsb wait_connected (snd r) = true
      /\ strlen (APP_WIFI_SSID cfg) <> 0%nat).
Proof.
  cbv zeta.
  assert (G : forall r, brun env (app_main cfg) w = r ->
                (fst (fst r) = BReturned tt
                 <-> existsb task_created (snd r) = true)
                /\ (existsb task_requested (snd r) = true ->
                    existsb nvs_ready (snd r) = true
                    /\ existsb wifi_started (snd r) = true
                    /\ existsb wait_connected (snd r) = true
                    /\ strlen (APP_WIFI_SSID cfg) <> 0%nat)).
  { unfold app_main, platform_init, wifi_station_start, ota_manager_start,
      log_security_state, ESP_ERROR_CHECK.
    repeat bstep.
    all: bnorm.
    all: intros r <-; cbn [fst snd existsb task_created task_requested nvs_ready
                           wifi_started wait_connected orb].
    all: repeat match goal with
                | H : (_ =? _)%nat = false |- _ => apply Nat.eqb_neq in H
                | H : (_ =? _) = _ |- _ => rewrite H; clear H
                | H : nonzero _ = _ |- _ => rewrite H; clear H
                end.
    all: rewrite ?orb_false_r, ?orb_true_r; cbn [orb].
    all: split; [split; intros H; first [reflexivity | discriminate H]|].
    all: intros H; try discriminate H.
    all: repeat split; try reflexivity; try assumption. }
  exact (G _ eq_refl).
Qed.

End Startup.

End BootFacts.
